(** * Batch image generation and asset reconciliation

    A shallow embedding of the two scripts of the repository,
    [organize_assets.py] and [z_image_batch.py], and the properties of
    their batch orchestration: manifest loading, job building, dimension
    rounding, seed resolution, file naming and prefix matching.

    Python values are modelled as follows.
    - [str] is [string]; a character is its code point, and the code points
      are those below 256 (the Latin-1 block of Unicode).  The character
      tables of [str.isalnum], [str.isspace] and [str.lower] are the
      Unicode ones on that block.
    - [int] is [Z]; [//] is [Z.div], which rounds towards minus infinity as
      Python does.
    - [float] is the binary64 [float] of the standard library; the scripts
      only carry floats around (the guidance scale).
    - a manifest entry is a record with the fields of the manifest schema,
      each at its type of the schema and [None] when the JSON object lacks
      the key.
    - the process environment (file system, standard output, clock, random
      generator) is a [world], threaded through a state and exception
      monad [M]; an exception leaves the world as the statements before it
      made it.
    - the file system is POSIX: a path is the string the script builds
      with [os.path.join], regular files and directories are kept by path,
      and a directory holds the names [os.listdir] returns for it, in the
      order in which it returns them.  The library calls raise the
      exceptions of Python where a file or a directory is missing or in
      the way.  There are no links, and a path names a file by its
      spelling: what the properties say of the file at a path, they say of a
      path that is [canonical] (absolute, with no empty component and no
      component [.] or [..]), the one spelling that a file has.
    - the generation pipeline is external: an image is known by the call
      that made it. *)

From Stdlib Require Import Ascii Floats.
From stdpp Require Import gmap strings list pretty.

(** ** The methods of [str] *)

Module str.

Definition ord (c : ascii) : N := N_of_ascii c.

Definition between (lo hi : N) (c : ascii) : bool :=
  ((lo <=? ord c) && (ord c <=? hi))%N.

Definition code (n : N) (c : ascii) : bool := (ord c =? n)%N.

(** [c.isalnum()]: letters and numeric characters.  Below 128 these are
    the digits and the two cases of the alphabet; from 128 to 255 they are
    the feminine and masculine ordinal indicators, the micro sign, the
    superscript digits, the vulgar fractions and the accented letters. *)
Definition isalnum (c : ascii) : bool :=
  between 48 57 c || between 65 90 c || between 97 122 c
  || code 170 c || code 178 c || code 179 c || code 181 c || code 185 c || code 186 c
  || between 188 190 c || between 192 214 c || between 216 246 c
  || between 248 255 c.

(** Whitespace as [str.split()] sees it. *)
Definition isspace (c : ascii) : bool :=
  between 9 13 c || between 28 32 c || code 133 c || code 160 c.

(** [c.lower()], for the characters up to 255, which the texts here are
    made of. *)
Definition lower_char (c : ascii) : ascii :=
  if between 65 90 c || between 192 214 c || between 216 222 c
  then ascii_of_N (ord c + 32) else c.

Fixpoint map (f : ascii → ascii) (s : string) : string :=
  match s with
  | EmptyString => EmptyString
  | String c s' => String (f c) (map f s')
  end.

(** ["".join(c for c in s if keep c)] *)
Fixpoint filter (keep : ascii → bool) (s : string) : string :=
  match s with
  | EmptyString => EmptyString
  | String c s' => if keep c then String c (filter keep s') else filter keep s'
  end.

Definition lower (s : string) : string := map lower_char s.

(** [s.replace(old, new)] for one-character [old] and [new]. *)
Definition replace (old new : ascii) (s : string) : string :=
  map (λ c, if decide (c = old) then new else c) s.

(** [s.startswith(p)] *)
Definition startswith (s p : string) : bool := String.prefix p s.

Fixpoint endswith_char (s : string) (c : ascii) : bool :=
  match s with
  | EmptyString => false
  | String a EmptyString => bool_decide (a = c)
  | String _ s' => endswith_char s' c
  end.

(** [s.split()]: the maximal runs of characters that are not whitespace. *)
Fixpoint split_go (word : option string) (s : string) : list string :=
  match s with
  | EmptyString => match word with Some w => [w] | None => [] end
  | String c s' =>
      if isspace c then
        match word with
        | Some w => w :: split_go None s'
        | None => split_go None s'
        end
      else split_go (Some (default EmptyString word +:+ String c EmptyString)) s'
  end.

Definition split (s : string) : list string := split_go None s.

(** [sep.join(l)] *)
Fixpoint join (sep : string) (l : list string) : string :=
  match l with
  | [] => EmptyString
  | x :: rest =>
      match rest with
      | [] => x
      | _ :: _ => x +:+ sep +:+ join sep rest
      end
  end.

(** [s[:n]] *)
Definition slice_to (n : nat) (s : string) : string := String.substring 0 n s.

(** [str(z)] for an [int], as an f-string prints it. *)
Definition of_int (z : Z) : string := pretty z.

End str.

(** Truth values of the objects the scripts test with [if] and [or]:
    [None], the empty string and the empty list are false. *)
Definition truthy_str (v : option string) : bool :=
  match v with
  | Some s => negb (bool_decide (s = EmptyString))
  | None => false
  end.

Definition truthy_list {A} (v : option (list A)) : bool :=
  match v with
  | Some (_ :: _) => true
  | _ => false
  end.

(** [a or b] *)
Definition py_or (a b : option string) : option string :=
  if truthy_str a then a else b.

(** ** The data of the scripts *)

(** One object of the manifest.  [entry.Prompt item] is
    [item.get('Prompt')]. *)
Module entry.
Record t := make {
  id : option string;
  Prompt : option string;
  description : option string;
  title : option string;
  tags : option (list string);
  NegativePrompt : option string;
  Width : option Z;
  Height : option Z;
  Seed : option Z;
  Steps : option Z;
  CFG : option float
}.
End entry.

(** What [json.load] returns for a manifest: an object, whose
    [image_prompts] key may be absent or hold something else than a list,
    a bare list of entries, or a scalar. *)
Inductive scalar :=
  | JNull
  | JBool (b : bool)
  | JInt (z : Z)
  | JFloat (f : float)
  | JStr (s : string).

Inductive items :=
  | Entries (l : list entry.t)
  | NotAList (v : scalar).

Inductive json_data :=
  | JObject (image_prompts : option items)
  | JArray (l : list entry.t)
  | JScalar (v : scalar).

(** The command line of [z_image_batch.py] after [parse_args]. *)
Module args.
Record t := make {
  Prompt : option string;
  PromptJsonFile : option string;
  Width : Z;
  Height : Z;
  NegativePrompt : string;
  OutputPath : string;
  Steps : Z;
  CFG : float;
  Seed : Z;
  Model : string;
  DelaySeconds : Z
}.
End args.

(** The dictionaries of [prompts_to_process]. *)
Module job.
Record t := make {
  prompt : string;
  negative_prompt : string;
  width : Z;
  height : Z;
  output_path : string;
  seed : Z;
  steps : Z;
  cfg : float
}.

Definition set_size (w h : Z) (p : t) : t :=
  make (prompt p) (negative_prompt p) w h (output_path p) (seed p) (steps p) (cfg p).
End job.

(** The generation capability is external: a loaded pipeline is known by
    the model it was loaded from, and the image it returns by the call that
    produced it. *)
Record pipeline := { model_id : string }.

Record image := {
  by_pipe : pipeline;
  img_prompt : string;
  img_negative_prompt : string;
  img_width : Z;
  img_height : Z;
  num_inference_steps : Z;
  guidance_scale : float;
  generator : Z   (* the seed of [torch.Generator("cuda").manual_seed] *)
}.

(** [datetime.datetime]: the fields that [strftime] prints. *)
Module datetime.

Record t := make {
  year : N; month : N; day : N; hour : N; minute : N; second : N
}.

Fixpoint zeros (n : nat) : string :=
  match n with
  | O => EmptyString
  | S n' => String "0" (zeros n')
  end.

Definition zero_pad (width : nat) (n : N) : string :=
  let s := pretty n in zeros (width - String.length s) +:+ s.

Definition directive (d : ascii) (t : t) : string :=
  if bool_decide (d = "Y"%char) then zero_pad 4 (year t)
  else if bool_decide (d = "m"%char) then zero_pad 2 (month t)
  else if bool_decide (d = "d"%char) then zero_pad 2 (day t)
  else if bool_decide (d = "H"%char) then zero_pad 2 (hour t)
  else if bool_decide (d = "M"%char) then zero_pad 2 (minute t)
  else if bool_decide (d = "S"%char) then zero_pad 2 (second t)
  else if bool_decide (d = "%"%char) then "%"
  else String "%" (String d EmptyString).

(** [t.strftime(fmt)]: a percent sign and the letter after it stand for a
    field of [t]; every other character stands for itself.  The year is
    printed in four digits, which is what every platform does for the
    years from 1000 on, the only ones [datetime.now()] returns. *)
Fixpoint strftime (fmt : string) (t : t) : string :=
  match fmt with
  | EmptyString => EmptyString
  | String c rest =>
      if bool_decide (c = "%"%char) then
        match rest with
        | EmptyString => String c EmptyString
        | String d rest' => directive d t +:+ strftime rest' t
        end
      else String c (strftime rest t)
  end.

End datetime.

(** A regular file: what it holds, and the metadata [shutil.copy2] carries
    over with it (its modification time). *)
Inductive content :=
  | Json (data : json_data)      (* text that [json.load] parses to [data] *)
  | Png (img : image)            (* written by [img.save] *)
  | Bytes (b : list N).          (* anything else *)

Record file := { data : content; mtime : datetime.t }.

(** The lines the scripts print, each with the values its f-string
    interpolates. *)
Inductive line :=
  (* organize_assets.py *)
  | Created_directory (target_dir : string)
  | Error_graphics_batch_not_found
  | Found_files (n : nat)
  | WARNING_no_file_found (img_id : string)
  | Copied (best_candidate dest_filename : string)
  | Successfully_organized (moved_count : Z)
  (* z_image_batch.py *)
  | Loading_model (model : string)
  | Error_loading_pipeline
  | Generating (prompt50 : string)
  | Size_line (width height seed steps : Z) (cfg : float)
  | Error_file_not_found (path : string)
  | Please_provide_a_mode
  | Found_prompts (n : nat)
  | Processing (i n : Z)
  | Warning_adjusted (orig_w orig_h w h : Z)
  | Saved_to (path : string).

Inductive exn :=
  | KeyError (key : string)
  | AttributeError (attr : string)
  | TypeError
  | ValueError              (* [json.JSONDecodeError], [UnicodeDecodeError] *)
  | FileNotFoundError (path : string)
  | FileExistsError (path : string)
  | IsADirectoryError (path : string)
  | NotADirectoryError (path : string)
  | SameFileError (path : string).

(** ** The world *)

Record world := {
  cwd : string;                      (* [os.getcwd()] *)
  script_dir : string;               (* [os.path.dirname(os.path.abspath(__file__))] *)
  dirs : gmap string (list string);  (* the directories, each with the names
                                        [os.listdir] returns, in that order *)
  files : gmap string file;          (* the regular files, by path *)
  stdout : list line;
  clock : nat → datetime.t;          (* the time at each later reading *)
  rng : nat → Z;                     (* the later outputs of the generator *)
  loadable : string → bool;          (* the models [from_pretrained] can load *)
  slept : list Z                     (* the calls of [time.sleep] *)
}.

Definition with_fs (d : gmap string (list string)) (f : gmap string file)
    (σ : world) : world :=
  {| cwd := cwd σ; script_dir := script_dir σ; dirs := d; files := f;
     stdout := stdout σ; clock := clock σ; rng := rng σ;
     loadable := loadable σ; slept := slept σ |}.

Definition with_stdout (o : list line) (σ : world) : world :=
  {| cwd := cwd σ; script_dir := script_dir σ; dirs := dirs σ; files := files σ;
     stdout := o; clock := clock σ; rng := rng σ;
     loadable := loadable σ; slept := slept σ |}.

Definition with_clock (c : nat → datetime.t) (σ : world) : world :=
  {| cwd := cwd σ; script_dir := script_dir σ; dirs := dirs σ; files := files σ;
     stdout := stdout σ; clock := c; rng := rng σ;
     loadable := loadable σ; slept := slept σ |}.

Definition with_rng (r : nat → Z) (σ : world) : world :=
  {| cwd := cwd σ; script_dir := script_dir σ; dirs := dirs σ; files := files σ;
     stdout := stdout σ; clock := clock σ; rng := r;
     loadable := loadable σ; slept := slept σ |}.

Definition with_slept (s : list Z) (σ : world) : world :=
  {| cwd := cwd σ; script_dir := script_dir σ; dirs := dirs σ; files := files σ;
     stdout := stdout σ; clock := clock σ; rng := rng σ;
     loadable := loadable σ; slept := s |}.

(** ** Statements: state and exceptions *)

Inductive outcome (A : Type) :=
  | Ok (a : A)
  | Raise (e : exn).
Arguments Ok {A} a.
Arguments Raise {A} e.

Definition M (A : Type) : Type := world → outcome A * world.

Definition ret {A} (a : A) : M A := λ σ, (Ok a, σ).

Definition bind {A B} (m : M A) (k : A → M B) : M B :=
  λ σ, match m σ with
       | (Ok a, σ') => k a σ'
       | (Raise e, σ') => (Raise e, σ')
       end.

Definition raise {A} (e : exn) : M A := λ σ, (Raise e, σ).

Declare Scope py_scope.
Delimit Scope py_scope with py.
Notation "'let*' x ':=' c 'in' k" := (bind c (λ x, k))
  (at level 10, x pattern, c at level 100, k at level 200) : py_scope.
Notation "c ';;;' k" := (bind c (λ _, k))
  (at level 100, k at level 200, right associativity) : py_scope.
Open Scope py_scope.

(** [try: m except FileNotFoundError: ...]: [None] when the handler ran. *)
Definition try_except_FileNotFoundError {A} (m : M A) : M (option A) :=
  λ σ, match m σ with
       | (Ok a, σ') => (Ok (Some a), σ')
       | (Raise (FileNotFoundError _), σ') => (Ok None, σ')
       | (Raise e, σ') => (Raise e, σ')
       end.

Definition print (l : line) : M unit :=
  λ σ, (Ok tt, with_stdout (stdout σ ++ [l]) σ).

Definition when (b : bool) (m : M unit) : M unit := if b then m else ret tt.

(** ** The library calls of the scripts *)

Module os.

Module path.

(** [posixpath.join(a, b)] *)
Definition join (a b : string) : string :=
  if str.startswith b "/" then b
  else if bool_decide (a = EmptyString) || str.endswith_char a "/" then a +:+ b
  else a +:+ "/" +:+ b.

(** [p[:i], p[i:]] for [i = p.rfind('/') + 1] *)
Fixpoint rsplit (p : string) : string * string :=
  match p with
  | EmptyString => (EmptyString, EmptyString)
  | String c p' =>
      match rsplit p' with
      | (EmptyString, t) =>
          if bool_decide (c = "/"%char) then (String c EmptyString, p')
          else (EmptyString, String c t)
      | (h, t) => (String c h, t)
      end
  end.

(** [h.rstrip('/')] *)
Fixpoint rstrip (h : string) : string :=
  match h with
  | EmptyString => EmptyString
  | String c h' =>
      match rstrip h' with
      | EmptyString =>
          if bool_decide (c = "/"%char) then EmptyString else String c EmptyString
      | r => String c r
      end
  end.

(** [posixpath.split(p)]: the head keeps its slashes only when it is
    made of slashes. *)
Definition split (p : string) : string * string :=
  let (h, t) := rsplit p in
  match rstrip h with
  | EmptyString => (h, t)
  | r => (r, t)
  end.

Definition basename (p : string) : string := snd (rsplit p).

Definition exists_ (p : string) : M bool :=
  λ σ, (Ok (bool_decide (is_Some (dirs σ !! p))
            || bool_decide (is_Some (files σ !! p))), σ).

Definition isdir (p : string) : M bool :=
  λ σ, (Ok (bool_decide (is_Some (dirs σ !! p))), σ).

End path.

Definition getcwd : M string := λ σ, (Ok (cwd σ), σ).

(** The directory that holds [p]; a path without a head is relative to
    the working directory. *)
Definition parent (σ : world) (p : string) : string :=
  match fst (path.split p) with
  | EmptyString => cwd σ
  | h => h
  end.

Definition listdir (d : string) : M (list string) :=
  λ σ, match dirs σ !! d with
       | Some names => (Ok names, σ)
       | None =>
           match files σ !! d with
           | Some _ => (Raise (NotADirectoryError d), σ)
           | None => (Raise (FileNotFoundError d), σ)
           end
       end.

(** Entering a name in the listing of a directory.  [os.listdir] gives its
    names in an order it does not specify; the listing here keeps the one
    in which the names came, and the properties of the generator's runs
    speak of the names a directory lists, not of their order. *)
Definition add_name (t : string) (names : list string) : list string :=
  if bool_decide (t ∈ names) then names else names ++ [t].

Definition mkdir (p : string) : M unit :=
  λ σ, if bool_decide (is_Some (dirs σ !! p)) || bool_decide (is_Some (files σ !! p))
       then (Raise (FileExistsError p), σ)
       else match dirs σ !! parent σ p with
            | None =>
                match files σ !! parent σ p with
                | Some _ => (Raise (NotADirectoryError p), σ)
                | None => (Raise (FileNotFoundError p), σ)
                end
            | Some names =>
                (Ok tt,
                 with_fs (<[p := []]>
                            (<[parent σ p := add_name (snd (path.split p)) names]>
                               (dirs σ)))
                         (files σ) σ)
            end.

(** [head, tail = path.split(name)], and once more on [head] when [tail]
    is empty. *)
Definition head_tail (name : string) : string * string :=
  match path.split name with
  | (head, EmptyString) => path.split head
  | ht => ht
  end.

(** The end of [os.makedirs]: [mkdir(name)], whose [OSError] passes when
    [exist_ok] is set and the directory is there. *)
Definition mkdir_exist_ok (name : string) (exist_ok : bool) : M unit :=
  λ σ, match mkdir name σ with
       | (Raise e, σ') =>
           if exist_ok && bool_decide (is_Some (dirs σ' !! name))
           then (Ok tt, σ') else (Raise e, σ')
       | r => r
       end.

(** [os.makedirs(name, exist_ok=exist_ok)]: the missing ancestors first,
    then [name].  [n] bounds the depth of the recursion; the length of
    [name] is enough, as each [head] is shorter than its [name]. *)
Fixpoint makedirs_go (n : nat) (name : string) (exist_ok : bool) : M unit :=
  let (head, tail) := head_tail name in
  let* there := path.exists_ head in
  if negb (bool_decide (head = EmptyString))
     && negb (bool_decide (tail = EmptyString)) && negb there
  then
    match n with
    | S n' =>
        λ σ, match makedirs_go n' head exist_ok σ with
             | (Raise (FileExistsError _), σ1) | (Ok _, σ1) =>
                 if bool_decide (tail = ".") then (Ok tt, σ1)
                 else mkdir_exist_ok name exist_ok σ1
             | (Raise e, σ1) => (Raise e, σ1)
             end
    | O => mkdir_exist_ok name exist_ok
    end
  else mkdir_exist_ok name exist_ok.

Definition makedirs (name : string) (exist_ok : bool) : M unit :=
  makedirs_go (String.length name) name exist_ok.

End os.

(** [open(p)] for reading, and the write that [shutil.copy2] and
    [img.save] end in: the file takes its place in the directory that
    holds it. *)
Definition read_file (p : string) : M file :=
  λ σ, match files σ !! p with
       | Some f => (Ok f, σ)
       | None =>
           match dirs σ !! p with
           | Some _ => (Raise (IsADirectoryError p), σ)
           | None => (Raise (FileNotFoundError p), σ)
           end
       end.

Definition write_file (p : string) (f : file) : M unit :=
  λ σ, match dirs σ !! p with
       | Some _ => (Raise (IsADirectoryError p), σ)
       | None =>
           match dirs σ !! os.parent σ p with
           | None =>
               match files σ !! os.parent σ p with
               | Some _ => (Raise (NotADirectoryError p), σ)
               | None => (Raise (FileNotFoundError p), σ)
               end
           | Some names =>
               (Ok tt,
                with_fs (<[os.parent σ p := os.add_name (os.path.basename p) names]>
                           (dirs σ))
                        (<[p := f]> (files σ)) σ)
           end
       end.

Module json.
Definition load (f : file) : M json_data :=
  match data f with
  | Json d => ret d
  | _ => raise ValueError
  end.
End json.

Module shutil.
(** [shutil.copy2(src, dst)]: into [dst] when it is a directory; content
    and metadata together. *)
Definition copy2 (src dst : string) : M unit :=
  let* into := os.path.isdir dst in
  let dst := if into then os.path.join dst (os.path.basename src) else dst in
  let* f := read_file src in
  if bool_decide (src = dst) then raise (SameFileError src)
  else write_file dst f.
End shutil.

Module Image.
(** [img.save(p)], for a path that ends in [.png]: the image library
    picks the format by the extension, and the paths that the generator
    builds from a manifest end so; see [png_path]. *)
Definition save (img : image) (p : string) : M unit :=
  λ σ, write_file p {| data := Png img; mtime := clock σ 0 |} σ.
End Image.

Module random.
(** [random.randint(a, b)]: the next output of the generator, brought
    into the closed range from [a] to [b]. *)
Definition randint (a b : Z) : M Z :=
  λ σ, if (b <? a)%Z then (Raise ValueError, σ)
       else (Ok (a + rng σ 0%nat `mod` (b - a + 1))%Z,
             with_rng (λ n, rng σ (S n)) σ).
End random.

(** [datetime.now()]: the clock is read, and moves on. *)
Definition datetime_now : M datetime.t :=
  λ σ, (Ok (clock σ 0%nat), with_clock (λ n, clock σ (S n)) σ).

Module time.
Definition sleep (seconds : Z) : M unit :=
  λ σ, (Ok tt, with_slept (slept σ ++ [seconds]) σ).
End time.


(** ** organize_assets.py *)

(** What the loop variable of [for prompt in prompts] can be: an entry of
    the list, or a character when [prompts] is a string. *)
Inductive element :=
  | Obj (e : entry.t)
  | Chr (c : ascii).

(** [data.get("image_prompts", [])]; only a [dict] has [get]. *)
Definition data_get_image_prompts (data : json_data) : M items :=
  match data with
  | JObject v => ret (default (Entries []) v)
  | JArray _ => raise (AttributeError "get")
  | JScalar _ => raise (AttributeError "get")
  end.

(** [iter(prompts)] *)
Definition iterate (prompts : items) : M (list element) :=
  match prompts with
  | Entries l => ret (Obj <$> l)
  | NotAList (JStr s) => ret (Chr <$> String.list_ascii_of_string s)
  | NotAList _ => raise TypeError
  end.

(** [prompt["id"]] *)
Definition getitem_id (prompt : element) : M string :=
  match prompt with
  | Obj e =>
      match entry.id e with
      | Some img_id => ret img_id
      | None => raise (KeyError "id")
      end
  | Chr _ => raise TypeError
  end.

(** The candidates of an identifier: the file names that start with it, in
    the order of the listing. *)
Definition candidates (files : list string) (img_id : string) : list string :=
  List.filter (λ filename, str.startswith filename img_id) files.

(** The body of [for prompt in prompts], lines 36 to 63. *)
Fixpoint for_prompts (source_dir target_dir : string) (files : list string)
    (prompts : list element) (moved_count : Z) : M Z :=
  match prompts with
  | [] => ret moved_count
  | prompt :: rest =>
      let* img_id := getitem_id prompt in
      match candidates files img_id with
      | [] =>
          print (WARNING_no_file_found img_id) ;;;
          for_prompts source_dir target_dir files rest moved_count
      | best_candidate :: _ =>
          let src_path := os.path.join source_dir best_candidate in
          let dest_filename := img_id +:+ ".png" in
          let dest_path := os.path.join target_dir dest_filename in
          shutil.copy2 src_path dest_path ;;;
          print (Copied best_candidate dest_filename) ;;;
          for_prompts source_dir target_dir files rest (moved_count + 1)
      end
  end.

Definition source_dir_of (base_dir : string) : string :=
  os.path.join base_dir "backgrounds".
Definition target_dir_of (base_dir : string) : string :=
  os.path.join (os.path.join base_dir "assets") "textures".
Definition json_path_of (base_dir : string) : string :=
  os.path.join (os.path.join base_dir "assets") "graphics_batch.json".

(** Lines 14 to 16. *)
Definition create_target_directory (target_dir : string) : M unit :=
  let* there := os.path.exists_ target_dir in
  when (negb there)
    (os.makedirs target_dir false ;;; print (Created_directory target_dir)).

Definition organize_assets : M unit :=
  let* base_dir := os.getcwd in
  let source_dir := source_dir_of base_dir in
  let target_dir := target_dir_of base_dir in
  let json_path := json_path_of base_dir in
  create_target_directory target_dir ;;;
  let* loaded :=
    try_except_FileNotFoundError
      (let* f := read_file json_path in
       let* data := json.load f in
       data_get_image_prompts data) in
  match loaded with
  | None => print Error_graphics_batch_not_found
  | Some prompts =>
      let* files := os.listdir source_dir in
      print (Found_files (length files)) ;;;
      let* elements := iterate prompts in
      let* moved_count := for_prompts source_dir target_dir files elements 0 in
      print (Successfully_organized moved_count)
  end.

(** ** z_image_batch.py *)

Definition setup_pipeline (model : string) : M (option pipeline) :=
  print (Loading_model model) ;;;
  λ σ, if loadable σ model then (Ok (Some {| model_id := model |}), σ)
       else (print Error_loading_pipeline ;;; ret None) σ.

(** [pipe(prompt=..., ..., generator=generator).images[0]] *)
Definition call_image (pipe : pipeline) (prompt negative_prompt : string)
    (width height steps : Z) (cfg : float) (gen : Z) : image :=
  {| by_pipe := pipe; img_prompt := prompt;
     img_negative_prompt := negative_prompt;
     img_width := width; img_height := height;
     num_inference_steps := steps; guidance_scale := cfg;
     generator := gen |}.

Definition call (pipe : pipeline) (prompt negative_prompt : string)
    (width height steps : Z) (cfg : float) (gen : Z) : M image :=
  ret (call_image pipe prompt negative_prompt width height steps cfg gen).

Definition generate_image (pipe : pipeline) (prompt negative_prompt : string)
    (width height steps : Z) (cfg : float) (seed : Z) : M image :=
  let* seed :=
    if (seed =? -1)%Z then random.randint 0 (2 ^ 32 - 1) else ret seed in
  let gen := seed in
  print (Generating (str.slice_to 50 prompt)) ;;;
  print (Size_line width height seed steps cfg) ;;;
  call pipe prompt negative_prompt width height steps cfg gen.

(** The keyword of a file name: from the tags, else the title, else the
    first two words of the description. *)
Definition keyword_of (item : entry.t) : string :=
  if truthy_list (entry.tags item) then
    str.lower (str.join "_" (default [] (entry.tags item)))
  else if truthy_str (entry.title item) then
    str.replace " " "_" (str.lower (default EmptyString (entry.title item)))
  else if truthy_str (entry.description item) then
    str.lower (str.join "_" (take 2 (str.split (default EmptyString (entry.description item)))))
  else "image".

(** ["".join(c for c in keyword if c.isalnum() or c in ('_', '-'))] *)
Definition sanitize (keyword : string) : string :=
  str.filter (λ c, str.isalnum c
                   || (bool_decide (c = "_"%char) || bool_decide (c = "-"%char)))
             keyword.

Definition id_prefix_of (item : entry.t) : string :=
  if truthy_str (entry.id item) then default EmptyString (entry.id item) +:+ "_"
  else EmptyString.

Definition timestamp_of (now : datetime.t) : string :=
  datetime.strftime "%Y%m%d-%H%mmss" now.

Definition filename_of (id_prefix keyword : string) (w h : Z) (timestamp : string)
    : string :=
  id_prefix +:+ keyword +:+ "_" +:+ str.of_int w +:+ "x" +:+ str.of_int h
  +:+ "_" +:+ timestamp +:+ ".png".

(** [item.get('Prompt') or item.get('description') or item.get('title')] *)
Definition p_text_of (item : entry.t) : option string :=
  py_or (py_or (entry.Prompt item) (entry.description item)) (entry.title item).

(** The body of [for item in items], lines 98 to 133: the job of the
    entry, or [None] where the script says [continue]. *)
Definition build (a : args.t) (output_dir : string) (item : entry.t)
    : M (option job.t) :=
  let p_text := p_text_of item in
  if negb (truthy_str p_text) then ret None
  else
    let w := default (args.Width a) (entry.Width item) in
    let h := default (args.Height a) (entry.Height item) in
    let keyword := sanitize (keyword_of item) in
    let id_prefix := id_prefix_of item in
    let* now := datetime_now in
    let timestamp := timestamp_of now in
    let filename := filename_of id_prefix keyword w h timestamp in
    ret (Some
      {| job.prompt := default EmptyString p_text;
         job.negative_prompt :=
           default (args.NegativePrompt a) (entry.NegativePrompt item);
         job.width := w;
         job.height := h;
         job.output_path := os.path.join output_dir filename;
         job.seed := default (args.Seed a) (entry.Seed item);
         job.steps := default (args.Steps a) (entry.Steps item);
         job.cfg := default (args.CFG a) (entry.CFG item) |}).

Fixpoint for_items (a : args.t) (output_dir : string) (items : list entry.t)
    (prompts_to_process : list job.t) : M (list job.t) :=
  match items with
  | [] => ret prompts_to_process
  | item :: rest =>
      let* p := build a output_dir item in
      match p with
      | None => for_items a output_dir rest prompts_to_process
      | Some p => for_items a output_dir rest (prompts_to_process ++ [p])
      end
  end.

(** Lines 94 to 96: the entries of either shape of manifest. *)
Definition items_of (data : json_data) : list entry.t :=
  match data with
  | JObject (Some (Entries l)) => l
  | JObject (Some (NotAList _)) => []
  | JObject None => []
  | JArray l => l
  | JScalar _ => []
  end.

(** Lines 73 to 136: the queue, or [None] where the script returns. *)
Definition build_queue (a : args.t) (output_dir : string)
    : M (option (list job.t)) :=
  if truthy_str (args.Prompt a) then
    ret (Some
      [ {| job.prompt := default EmptyString (args.Prompt a);
           job.negative_prompt := args.NegativePrompt a;
           job.width := args.Width a;
           job.height := args.Height a;
           job.output_path := args.OutputPath a;
           job.seed := args.Seed a;
           job.steps := args.Steps a;
           job.cfg := args.CFG a |} ])
  else if truthy_str (args.PromptJsonFile a) then
    let path := default EmptyString (args.PromptJsonFile a) in
    let* there := os.path.exists_ path in
    if negb there then print (Error_file_not_found path) ;;; ret None
    else
      let* f := read_file path in
      let* data := json.load f in
      let* queue := for_items a output_dir (items_of data) [] in
      ret (Some queue)
  else print Please_provide_a_mode ;;; ret None.

(** Lines 144 to 149. *)
Definition normalize (p : job.t) : M job.t :=
  let orig_w := job.width p in
  let orig_h := job.height p in
  let p := job.set_size (job.width p / 16 * 16) (job.height p / 16 * 16) p in
  when (negb (job.width p =? orig_w)%Z || negb (job.height p =? orig_h)%Z)
    (print (Warning_adjusted orig_w orig_h (job.width p) (job.height p))) ;;;
  ret p.

(** [for i, p in enumerate(prompts_to_process)], with [n] the length of
    the whole queue. *)
Fixpoint for_jobs (pipe : pipeline) (a : args.t) (n : Z) (i : Z)
    (queue : list job.t) : M unit :=
  match queue with
  | [] => ret tt
  | p :: rest =>
      print (Processing (i + 1) n) ;;;
      let* p := normalize p in
      let* img :=
        generate_image pipe (job.prompt p) (job.negative_prompt p)
          (job.width p) (job.height p) (job.steps p) (job.cfg p) (job.seed p) in
      Image.save img (job.output_path p) ;;;
      print (Saved_to (job.output_path p)) ;;;
      when ((i <? n - 1)%Z && (0 <? args.DelaySeconds a)%Z)
        (time.sleep (args.DelaySeconds a)) ;;;
      for_jobs pipe a n (i + 1) rest
  end.

Definition main (a : args.t) : M unit :=
  let* pipe := setup_pipeline (args.Model a) in
  match pipe with
  | None => ret tt
  | Some pipe =>
      let* here := (λ σ, (Ok (script_dir σ), σ)) in
      let output_dir := os.path.join here "backgrounds" in
      os.makedirs output_dir true ;;;
      let* queue := build_queue a output_dir in
      match queue with
      | None => ret tt
      | Some prompts_to_process =>
          print (Found_prompts (length prompts_to_process)) ;;;
          for_jobs pipe a (Z.of_nat (length prompts_to_process)) 0
            prompts_to_process
      end
  end.

(** ** Vocabulary of the properties *)

(** Two worlds that differ in their directories at most. *)
Definition only_dirs_differ (σ σ' : world) : Prop :=
  σ' = with_fs (dirs σ') (files σ) σ.

(** Two worlds that differ in their directories and output at most. *)
Definition same_files (σ σ' : world) : Prop :=
  σ' = with_stdout (stdout σ') (with_fs (dirs σ') (files σ) σ).

(** The character class [[A-Za-z0-9_-]]. *)
Definition in_class (c : ascii) : bool :=
  str.between 65 90 c || str.between 97 122 c || str.between 48 57 c
  || bool_decide (c = "_"%char) || bool_decide (c = "-"%char).

(** The errors of configuration and of parsing of [z_image_batch.py], for a
    command line without [--Prompt]. *)
Inductive batch_error :=
  | No_input_mode
  | Manifest_absent (path : string)
  | Malformed_manifest (path : string).

Definition batch_error_at (a : args.t) (σ : world) (e : batch_error) : Prop :=
  truthy_str (args.Prompt a) = false
  ∧ match e with
    | No_input_mode => truthy_str (args.PromptJsonFile a) = false
    | Manifest_absent path =>
        args.PromptJsonFile a = Some path ∧ path ≠ EmptyString
        ∧ dirs σ !! path = None ∧ files σ !! path = None
    | Malformed_manifest path =>
        args.PromptJsonFile a = Some path ∧ path ≠ EmptyString
        ∧ ∃ f, files σ !! path = Some f ∧ ∀ d, data f ≠ Json d
    end.

(** How a run with such an error ends, from the world [σm] in which the
    output directory has been made. *)
Definition batch_error_end (e : batch_error) (σm : world) : outcome unit * world :=
  match e with
  | No_input_mode =>
      (Ok tt, with_stdout (stdout σm ++ [Please_provide_a_mode]) σm)
  | Manifest_absent path =>
      (Ok tt, with_stdout (stdout σm ++ [Error_file_not_found path]) σm)
  | Malformed_manifest _ => (Raise ValueError, σm)
  end.

(** The same two errors of [organize_assets.py]. *)
Inductive reconcile_error :=
  | Graphics_batch_absent
  | Graphics_batch_malformed.

Definition reconcile_error_at (σ : world) (e : reconcile_error) : Prop :=
  match e with
  | Graphics_batch_absent =>
      dirs σ !! json_path_of (cwd σ) = None
      ∧ files σ !! json_path_of (cwd σ) = None
  | Graphics_batch_malformed =>
      ∃ f, files σ !! json_path_of (cwd σ) = Some f ∧ ∀ d, data f ≠ Json d
  end.

Definition reconcile_error_end (e : reconcile_error) (σt : world)
    : outcome unit * world :=
  match e with
  | Graphics_batch_absent =>
      (Ok tt, with_stdout (stdout σt ++ [Error_graphics_batch_not_found]) σt)
  | Graphics_batch_malformed => (Raise ValueError, σt)
  end.

(** A string without a slash. *)
Fixpoint plain (s : string) : bool :=
  match s with
  | EmptyString => true
  | String c s' => negb (bool_decide (c = "/"%char)) && plain s'
  end.

(** A directory path that does not end in a slash. *)
Definition ends_plain (d : string) : Prop :=
  ∃ t c, d = t +:+ String c EmptyString ∧ c ≠ "/"%char.

(** The separator that [os.path.join] puts after its first argument. *)
Definition sep_of (a : string) : string :=
  if bool_decide (a = EmptyString) || str.endswith_char a "/" then EmptyString
  else "/".

(** A name as [os.listdir] returns them: not empty, and without a slash. *)
Definition valid_name (n : string) : Prop := n ≠ EmptyString ∧ plain n = true.

(** The path of a staged file, and the canonical path of an identifier. *)
Definition src_path_of (base filename : string) : string :=
  os.path.join (source_dir_of base) filename.

Definition dest_path_of (base img_id : string) : string :=
  os.path.join (target_dir_of base) (img_id +:+ ".png").

(** What the loop prints for an identifier. *)
Definition report (names : list string) (img_id : string) : line :=
  match candidates names img_id with
  | [] => WARNING_no_file_found img_id
  | best_candidate :: _ => Copied best_candidate (img_id +:+ ".png")
  end.

(** Whether a file name of the listing starts with the identifier. *)
Definition has_candidate (names : list string) (img_id : string) : bool :=
  match candidates names img_id with
  | [] => false
  | _ :: _ => true
  end.

(** The store after the copy for one identifier: its first candidate, as
    the staging directory [staging] holds it, under the canonical name. *)
Definition place (staging : gmap string file) (base : string)
    (names : list string) (store : gmap string file) (img_id : string)
    : gmap string file :=
  match candidates names img_id with
  | [] => store
  | best_candidate :: _ =>
      match staging !! src_path_of base best_candidate with
      | Some f => <[dest_path_of base img_id := f]> store
      | None => store
      end
  end.

(** The listing of the asset store after the copy for one identifier. *)
Definition enter (names : list string) (listing : list string) (img_id : string)
    : list string :=
  if has_candidate names img_id then os.add_name (img_id +:+ ".png") listing
  else listing.

(** The world after the loop has gone through [ids]. *)
Definition reconciled (base : string) (names ids : list string) (σ : world)
    : world :=
  let target_dir := target_dir_of base in
  with_stdout (stdout σ ++ (report names <$> ids))
    (with_fs
       (<[target_dir :=
            foldl (enter names) (default [] (dirs σ !! target_dir)) ids]>
          (dirs σ))
       (foldl (place (files σ) base names) (files σ) ids) σ).

(** What the loop relies on: the listing holds names of regular files of
    the staging directory, the asset store is a directory, and no
    directory stands where a canonical file goes. *)
Record staged_ok (base : string) (σ : world) (names ids : list string)
    : Prop := {
  ok_names : Forall valid_name names;
  ok_files : Forall (λ n, is_Some (files σ !! src_path_of base n)) names;
  ok_target : is_Some (dirs σ !! target_dir_of base);
  ok_no_dir : Forall (λ i, has_candidate names i = true →
                           dirs σ !! dest_path_of base i = None) ids
}.

(** A world in which the reconciler runs to its end: the manifest is an
    object whose [image_prompts] are [prompts] (none, when it has no such
    key), each with its identifier, and the staging directory lists
    [names]. *)
Record ready (σ : world) (prompts : list entry.t) (names ids : list string)
    : Prop := {
  ready_manifest :
    ∃ f image_prompts,
      files σ !! json_path_of (cwd σ) = Some f
      ∧ data f = Json (JObject image_prompts)
      ∧ default (Entries []) image_prompts = Entries prompts;
  ready_ids : entry.id <$> prompts = Some <$> ids;
  ready_listing : dirs σ !! source_dir_of (cwd σ) = Some names;
  ready_staged : staged_ok (cwd σ) σ names ids
}.

(** The number the reconciler reports. *)
Definition placed (names ids : list string) : Z :=
  Z.of_nat (length (List.filter (has_candidate names) ids)).

(** The world at the end of such a run, from the world [σ] in which the
    asset store has been made. *)
Definition finished (names ids : list string) (σ : world) : world :=
  let σ1 := with_stdout (stdout σ ++ [Found_files (length names)]) σ in
  let σ2 := reconciled (cwd σ) names ids σ1 in
  with_stdout (stdout σ2 ++ [Successfully_organized (placed names ids)]) σ2.

(** The lines of a run that reaches its end. *)
Definition lines_of (names ids : list string) : list line :=
  [Found_files (length names)] ++ (report names <$> ids)
  ++ [Successfully_organized (placed names ids)].

(** ** Sample data *)

(** LATIN SMALL LETTER E WITH ACUTE, code point 233. *)
Definition e_acute : ascii := ascii_of_N 233.

Definition t0 : datetime.t := datetime.make 2024 1 1 10 5 9.

Definition job0 : job.t :=
  job.make "a cat" "blurry" 1000 512 "out.png" (-1) 9 0%float.

Definition pipe0 : pipeline := {| model_id := "Tongyi-MAI/Z-Image-Turbo" |}.

(** A project directory with nothing in it, and a generator about to
    output [2^32 - 1]. *)
Definition world0 : world :=
  {| cwd := "/proj"; script_dir := "/proj";
     dirs := {[ "/proj" := [] ]}; files := ∅; stdout := [];
     clock := λ _, t0; rng := λ _, (2 ^ 32 - 1)%Z; loadable := λ _, true;
     slept := [] |}.

(** The command line without [--Prompt] and [--PromptJsonFile]. *)
Definition no_mode : args.t :=
  args.make None None 1024 1024 "bad hands, blurry, low quality"
    "generated_image.png" 9 0%float (-1) "Tongyi-MAI/Z-Image-Turbo" 0.

(** The command line with the manifest of the sample project. *)
Definition args0 : args.t :=
  args.make None (Some "/proj/assets/graphics_batch.json") 1024 1024
    "bad hands, blurry, low quality" "generated_image.png" 9 0%float (-1)
    "Tongyi-MAI/Z-Image-Turbo" 0.

(** [world0] once the generator has made its staging directory, and once
    the reconciler has made its asset store. *)
Definition world0_staging : world :=
  snd (os.makedirs "/proj/backgrounds" true
         (with_stdout [Loading_model "Tongyi-MAI/Z-Image-Turbo"] world0)).

Definition world0_store : world :=
  snd (create_target_directory "/proj/assets/textures" world0).

(** An entry with the given [id] and [title] and nothing else. *)
Definition entry_of (i t : option string) : entry.t :=
  entry.make i None None t None None None None None None None.

(** A file of one byte. *)
Definition blob (n : N) : file := {| data := Bytes [n]; mtime := t0 |}.

(** The listing of the staging directory of the sample project. *)
Definition staged : list string :=
  ["x.png"; "tenant_student_tenant_student_512x512_20240101-0000.png";
   "tenant_b.png"].

(** A project directory: three staged files, the manifest [doc], and the
    asset store when [store] is set. *)
Definition project (doc : content) (store : bool) : world :=
  {| cwd := "/proj"; script_dir := "/proj";
     dirs :=
       list_to_map
         ([("/proj", ["backgrounds"; "assets"]);
           ("/proj/backgrounds", staged);
           ("/proj/assets",
            if store then ["graphics_batch.json"; "textures"]
            else ["graphics_batch.json"])]
          ++ if store then [("/proj/assets/textures", [])] else []);
     files :=
       list_to_map
         [("/proj/backgrounds/x.png", blob 1);
          ("/proj/backgrounds/tenant_student_tenant_student_512x512_20240101-0000.png",
           blob 2);
          ("/proj/backgrounds/tenant_b.png", blob 3);
          ("/proj/assets/graphics_batch.json", {| data := doc; mtime := t0 |})];
     stdout := []; clock := λ _, t0; rng := λ _, 5%Z; loadable := λ _, true;
     slept := [] |}.

Definition tenants : list entry.t :=
  [entry_of (Some "tenant_student") (Some "Tenant Student");
   entry_of (Some "nope") None;
   entry_of (Some "ten") None].

Definition tenant_ids : list string := ["tenant_student"; "nope"; "ten"].

Definition tenants_doc : content := Json (JObject (Some (Entries tenants))).

(** The same entries as a bare list. *)
Definition bare_doc : content := Json (JArray tenants).

(** A manifest whose one entry has an [id] and no prompt text. *)
Definition untitled_doc : content :=
  Json (JObject (Some (Entries [entry_of (Some "a") None]))).

(** A manifest whose second entry has no [id]. *)
Definition anonymous_doc : content :=
  Json (JObject (Some (Entries
    [entry_of (Some "tenant_student") (Some "Tenant Student");
     entry_of None (Some "Untitled");
     entry_of (Some "ten") None]))).

(** The project of the tenants before its first reconciliation, once the
    asset store has been made. *)
Definition project_with_store : world :=
  snd (create_target_directory "/proj/assets/textures" (project tenants_doc false)).

(** ** Vocabulary of the invariants *)

(** A world that has grown out of another: the process is where it was,
    every regular file is still a regular file, every directory is still a
    directory and lists every name it listed, in whatever order, and the
    output has new lines after the old ones. *)
Record grows (σ σ' : world) : Prop := {
  grows_cwd : cwd σ' = cwd σ;
  grows_script_dir : script_dir σ' = script_dir σ;
  grows_files : ∀ p, is_Some (files σ !! p) → is_Some (files σ' !! p);
  grows_dirs : ∀ p l, dirs σ !! p = Some l →
                      ∃ l', dirs σ' !! p = Some l' ∧ ∀ x, x ∈ l → x ∈ l';
  grows_stdout : ∃ out, stdout σ' = stdout σ ++ out
}.

(** The clock, the random generator and the record of the sleeps are as
    they were. *)
Definition quiet (σ σ' : world) : Prop :=
  clock σ' = clock σ ∧ rng σ' = rng σ ∧ slept σ' = slept σ
  ∧ loadable σ' = loadable σ.

(** Every regular file holds what some regular file held before. *)
Definition copies_only (σ σ' : world) : Prop :=
  ∀ p f, files σ' !! p = Some f → ∃ q, files σ !! q = Some f.

(** What the reconciler keeps, however it ends. *)
Definition reconciler_keeps (σ σ' : world) : Prop :=
  grows σ σ' ∧ quiet σ σ' ∧ copies_only σ σ'.

(** A statement that takes every world to a world related to it by [R],
    however it ends. *)
Definition preserves {A} (R : relation world) (m : M A) : Prop :=
  ∀ σ, R σ (snd (m σ)).

(** Nothing stands at a path. *)
Definition absent (σ : world) (p : string) : Prop :=
  dirs σ !! p = None ∧ files σ !! p = None.

(** ** Vocabulary of the dispatch loop *)

(** The seed a job is dispatched with, when [r] is the next output of the
    random generator. *)
Definition resolve (seed r : Z) : Z :=
  if (seed =? -1)%Z then (r `mod` 2 ^ 32)%Z else seed.

(** The random generator after the dispatch of a job. *)
Definition next_rng (p : job.t) (r : nat → Z) : nat → Z :=
  if (job.seed p =? -1)%Z then λ n, r (S n) else r.

(** The image the loop asks the pipeline for. *)
Definition image_for (pipe : pipeline) (p : job.t) (r : Z) : image :=
  call_image pipe (job.prompt p) (job.negative_prompt p)
    (job.width p / 16 * 16) (job.height p / 16 * 16)
    (job.steps p) (job.cfg p) (resolve (job.seed p) r).

(** The lines of a turn of the loop, up to the call of the pipeline. *)
Definition lines_before (n i : Z) (p : job.t) (r : Z) : list line :=
  [Processing (i + 1) n]
  ++ (if (job.width p / 16 * 16 =? job.width p)%Z
         && (job.height p / 16 * 16 =? job.height p)%Z
      then []
      else [Warning_adjusted (job.width p) (job.height p)
              (job.width p / 16 * 16) (job.height p / 16 * 16)])
  ++ [Generating (str.slice_to 50 (job.prompt p));
      Size_line (job.width p / 16 * 16) (job.height p / 16 * 16)
        (resolve (job.seed p) r) (job.steps p) (job.cfg p)].

(** The world in which the image of a job is saved. *)
Definition generated (n i : Z) (p : job.t) (σ : world) : world :=
  with_stdout (stdout σ ++ lines_before n i p (rng σ 0%nat))
    (if (job.seed p =? -1)%Z then with_rng (λ k, rng σ (S k)) σ else σ).

(** The end of a turn: the pause before the next job. *)
Definition rested (a : args.t) (n i : Z) (σ : world) : world :=
  if (i <? n - 1)%Z && (0 <? args.DelaySeconds a)%Z
  then with_slept (slept σ ++ [args.DelaySeconds a]) σ else σ.

(** A file that the generator has written: an image of the pipeline, with
    sides that are multiples of 16. *)
Definition is_generated (pipe : pipeline) (f : file) : Prop :=
  ∃ img, data f = Png img ∧ by_pipe img = pipe
         ∧ (16 | img_width img)%Z ∧ (16 | img_height img)%Z.

(** Every regular file is as it was, or has been written by the
    generator. *)
Definition images_only (pipe : pipeline) (σ σ' : world) : Prop :=
  ∀ p f, files σ' !! p = Some f → files σ !! p = Some f ∨ is_generated pipe f.

(** What the generator keeps, however it ends. *)
Definition generator_keeps (pipe : pipeline) (σ σ' : world) : Prop :=
  grows σ σ' ∧ images_only pipe σ σ'.

(** A path that the image library writes a PNG file to: it picks the
    format by the extension of the name, which has to be there. *)
Definition png_path (path : string) : Prop :=
  ∃ stem c, path = stem +:+ String c ".png" ∧ c ≠ "/"%char ∧ c ≠ "."%char.

(** The components of a path, between its slashes; [cur] is the beginning
    of the first one. *)
Fixpoint components (cur : string) (s : string) : list string :=
  match s with
  | EmptyString => [cur]
  | String c s' =>
      if bool_decide (c = "/"%char) then cur :: components EmptyString s'
      else components (cur +:+ String c EmptyString) s'
  end.

(** A path in the one spelling that names its file: it begins with a
    slash, and none of its components is empty, [.] or [..].  Of such a
    path [os.path.abspath] changes nothing, and two of them name one file
    only when they are equal. *)
Definition canonical (path : string) : bool :=
  match path with
  | String c rest =>
      bool_decide (c = "/"%char)
      && forallb (λ name, negb (bool_decide (name = EmptyString))
                          && negb (bool_decide (name = "."))
                          && negb (bool_decide (name = "..")))
           (components EmptyString rest)
  | EmptyString => false
  end.

(** A path at which an image can be saved: no directory stands there, and
    the directory that is to hold the file is there. *)
Record writable (σ : world) (path : string) : Prop := {
  writable_png : png_path path;
  writable_free : dirs σ !! path = None;
  writable_parent : is_Some (dirs σ !! os.parent σ path)
}.

(** The file that the loop saves for a job. *)
Definition saved_file (pipe : pipeline) (p : job.t) (r : Z) (t : datetime.t)
    : file :=
  {| data := Png (image_for pipe p r); mtime := t |}.

(** The world after a turn of the loop that saved its image. *)
Definition dispatched1 (pipe : pipeline) (a : args.t) (n i : Z) (p : job.t)
    (σ : world) : world :=
  let path := job.output_path p in
  let parent := os.parent σ path in
  let σ1 := generated n i p σ in
  rested a n i
    (with_stdout (stdout σ1 ++ [Saved_to path])
       (with_fs
          (<[parent := os.add_name (os.path.basename path)
                         (default [] (dirs σ !! parent))]> (dirs σ))
          (<[path := saved_file pipe p (rng σ 0%nat) (clock σ 0%nat)]> (files σ))
          σ1)).

(** The world after the loop has gone through a queue. *)
Fixpoint dispatched (pipe : pipeline) (a : args.t) (n i : Z)
    (queue : list job.t) (σ : world) : world :=
  match queue with
  | [] => σ
  | p :: rest => dispatched pipe a n (i + 1) rest (dispatched1 pipe a n i p σ)
  end.

(** The number of jobs that draw their seed. *)
Definition draws (queue : list job.t) : nat :=
  length (List.filter (λ p, (job.seed p =? -1)%Z) queue).

(** The lines of the loop. *)
Fixpoint log_of (n i : Z) (queue : list job.t) (r : nat → Z) : list line :=
  match queue with
  | [] => []
  | p :: rest =>
      lines_before n i p (r 0%nat) ++ [Saved_to (job.output_path p)]
      ++ log_of n (i + 1) rest (next_rng p r)
  end.

(** ** Vocabulary of the job builder *)

(** Whether an entry has prompt text. *)
Definition has_text (item : entry.t) : bool := truthy_str (p_text_of item).

(** The job of an entry that has prompt text, built at the time [now]. *)
Definition job_of (a : args.t) (output_dir : string) (item : entry.t)
    (now : datetime.t) : job.t :=
  {| job.prompt := default EmptyString (p_text_of item);
     job.negative_prompt :=
       default (args.NegativePrompt a) (entry.NegativePrompt item);
     job.width := default (args.Width a) (entry.Width item);
     job.height := default (args.Height a) (entry.Height item);
     job.output_path :=
       os.path.join output_dir
         (filename_of (id_prefix_of item) (sanitize (keyword_of item))
            (default (args.Width a) (entry.Width item))
            (default (args.Height a) (entry.Height item))
            (timestamp_of now));
     job.seed := default (args.Seed a) (entry.Seed item);
     job.steps := default (args.Steps a) (entry.Steps item);
     job.cfg := default (args.CFG a) (entry.CFG item) |}.

(** The jobs of the entries of a manifest: one for each entry that has
    prompt text, in the order of the manifest, the one at place [k] built
    at the time [ck k]. *)
Definition queue_of (a : args.t) (output_dir : string) (items : list entry.t)
    (ck : nat → datetime.t) : list job.t :=
  imap (λ k item, job_of a output_dir item (ck k)) (List.filter has_text items).

(** The job of the command line, in the mode of one prompt. *)
Definition job_of_args (a : args.t) : job.t :=
  {| job.prompt := default EmptyString (args.Prompt a);
     job.negative_prompt := args.NegativePrompt a;
     job.width := args.Width a;
     job.height := args.Height a;
     job.output_path := args.OutputPath a;
     job.seed := args.Seed a;
     job.steps := args.Steps a;
     job.cfg := args.CFG a |}.

(** The world in which [main] looks at its input: the model is loaded and
    the staging directory made. *)
Definition started (a : args.t) (σ σm : world) : Prop :=
  loadable σ (args.Model a) = true
  ∧ os.makedirs (os.path.join (script_dir σ) "backgrounds") true
      (with_stdout (stdout σ ++ [Loading_model (args.Model a)]) σ)
    = (Ok tt, σm).

(** The command line names a manifest, which holds [d], and no prompt. *)
Definition manifest_mode (a : args.t) (σ : world) (d : json_data) : Prop :=
  truthy_str (args.Prompt a) = false
  ∧ ∃ path f, args.PromptJsonFile a = Some path ∧ path ≠ EmptyString
              ∧ files σ !! path = Some f ∧ data f = Json d.

(** Whether every character of a string passes a test. *)
Fixpoint every (test : ascii → bool) (s : string) : bool :=
  match s with
  | EmptyString => true
  | String c s' => test c && every test s'
  end.

(** The characters of the keyword of an entry written in ASCII: the
    lower-case letters, the digits, the underscore and the hyphen. *)
Definition keyword_char (c : ascii) : bool :=
  str.between 97 122 c || str.between 48 57 c
  || bool_decide (c = "_"%char) || bool_decide (c = "-"%char).

(** A character of ASCII. *)
Definition is_ascii (c : ascii) : bool := (str.ord c <? 128)%N.

(** An entry whose tags, title and description are written in ASCII. *)
Definition ascii_entry (item : entry.t) : Prop :=
  Forall (λ tag, every is_ascii tag = true) (default [] (entry.tags item))
  ∧ every is_ascii (default EmptyString (entry.title item)) = true
  ∧ every is_ascii (default EmptyString (entry.description item)) = true.

(** ** More sample data *)

(** A project with its manifest [doc] and its asset store, and no staging
    directory. *)
Definition unstaged (doc : content) : world :=
  {| cwd := "/proj"; script_dir := "/proj";
     dirs :=
       list_to_map
         [("/proj", ["assets"]);
          ("/proj/assets", ["graphics_batch.json"; "textures"]);
          ("/proj/assets/textures", [])];
     files :=
       list_to_map
         [("/proj/assets/graphics_batch.json", {| data := doc; mtime := t0 |})];
     stdout := []; clock := λ _, t0; rng := λ _, 5%Z; loadable := λ _, true;
     slept := [] |}.

(** The same project with an empty staging directory. *)
Definition studio (doc : content) : world :=
  {| cwd := "/proj"; script_dir := "/proj";
     dirs :=
       list_to_map
         [("/proj", ["backgrounds"; "assets"]);
          ("/proj/backgrounds", []);
          ("/proj/assets", ["graphics_batch.json"; "textures"]);
          ("/proj/assets/textures", [])];
     files :=
       list_to_map
         [("/proj/assets/graphics_batch.json", {| data := doc; mtime := t0 |})];
     stdout := []; clock := λ _, t0; rng := λ _, 5%Z; loadable := λ _, true;
     slept := [] |}.

(** A manifest whose [image_prompts] is a string. *)
Definition text_doc : content :=
  Json (JObject (Some (NotAList (JStr "tenants")))).

(** A manifest of two entries, each with an identifier and a title. *)
Definition portraits : list entry.t :=
  [entry_of (Some "tenant_student") (Some "Tenant Student");
   entry_of (Some "landlord") (Some "Landlord")].

Definition portraits_doc : content := Json (JObject (Some (Entries portraits))).

(** The names that the generator gives to their images at [t0]. *)
Definition portrait_names : list string :=
  ["tenant_student_tenant_student_1024x1024_20240101-1001mss.png";
   "landlord_landlord_1024x1024_20240101-1001mss.png"].

(** The command line of one prompt, with a pause of five seconds. *)
Definition cat_args : args.t :=
  args.make (Some "a cat") None 1000 512 "blurry" "/proj/generated_image.png" 9
    0%float (-1) "Tongyi-MAI/Z-Image-Turbo" 5.

(** Two jobs for the staging directory of [world0]. *)
Definition cat_and_dog : list job.t :=
  [job.make "a cat" "blurry" 1000 512 "/proj/backgrounds/cat.png" (-1) 9 0%float;
   job.make "a dog" "blurry" 512 512 "/proj/backgrounds/dog.png" 7 9 0%float].

(** An entry with the given identifier and a title. *)
Definition hero (i : string) : entry.t := entry_of (Some i) (Some "Hero City").

(** [world0] with no model to load. *)
Definition offline : world :=
  {| cwd := "/proj"; script_dir := "/proj";
     dirs := {[ "/proj" := [] ]}; files := ∅; stdout := [];
     clock := λ _, t0; rng := λ _, 5%Z; loadable := λ _, false;
     slept := [] |}.

(** A world of the sample project once the generator has loaded its model
    and made its staging directory. *)
Definition opened (σ : world) : world :=
  snd (os.makedirs "/proj/backgrounds" true
         (with_stdout (stdout σ ++ [Loading_model "Tongyi-MAI/Z-Image-Turbo"]) σ)).

(** * Properties *)

(** ** Strings *)

Lemma str_app_cons c a b : String c a +:+ b = String c (a +:+ b).
Proof. reflexivity. Qed.

Lemma str_app_nil_r s : s +:+ EmptyString = s.
Proof. induction s as [|c s IH]; [done|]. by rewrite str_app_cons, IH. Qed.

Lemma str_app_assoc a b c : a +:+ (b +:+ c) = (a +:+ b) +:+ c.
Proof. induction a as [|x a IH]; [done|]. by rewrite !str_app_cons, IH. Qed.

Lemma str_length_app a b :
  String.length (a +:+ b) = (String.length a + String.length b)%nat.
Proof.
  induction a as [|c a IH]; [done|]. rewrite str_app_cons. simpl. by rewrite IH.
Qed.

Lemma str_app_inv_tail a b s : a +:+ s = b +:+ s → a = b.
Proof.
  revert b. induction a as [|x a IH]; intros [|y b] E.
  - done.
  - apply (f_equal String.length) in E. rewrite !str_length_app in E.
    simpl in E. lia.
  - apply (f_equal String.length) in E. rewrite !str_length_app in E.
    simpl in E. lia.
  - rewrite !str_app_cons in E. injection E as -> E. f_equal. by apply IH.
Qed.

Lemma prefix_cons a s1 b s2 :
  String.prefix (String a s1) (String b s2)
  = if ascii_dec a b then String.prefix s1 s2 else false.
Proof. simpl. by destruct (ascii_dec a b). Qed.

Lemma endswith_char_last t c x :
  str.endswith_char (t +:+ String c EmptyString) x = bool_decide (c = x).
Proof.
  induction t as [|y t IH]; [done|]. rewrite str_app_cons. simpl. rewrite IH.
  by destruct t.
Qed.

Lemma filter_ext (f g : ascii → bool) (s : string) :
  (∀ c, f c = g c) → str.filter f s = str.filter g s.
Proof. intros E. induction s as [|c s IH]; simpl; [done|]. by rewrite E, IH. Qed.

Lemma plain_app a b : plain (a +:+ b) = plain a && plain b.
Proof.
  induction a as [|c a IH]; [done|]. rewrite str_app_cons. simpl.
  by rewrite IH, andb_assoc.
Qed.

Lemma plain_prefix a b : String.prefix a b = true → plain b = true → plain a = true.
Proof.
  revert b. induction a as [|c a IH]; intros [|d b]; simpl; try done.
  destruct (ascii_dec c d) as [->|]; [|done].
  intros Hp [Hd Hb]%andb_true_iff. rewrite Hd. simpl. by eapply IH.
Qed.

Lemma startswith_slash m :
  m ≠ EmptyString → plain m = true → str.startswith m "/" = false.
Proof.
  destruct m as [|c m]; [done|]. intros _ Hp. simpl in Hp.
  apply andb_true_iff in Hp as [Hc _].
  apply negb_true_iff, bool_decide_eq_false in Hc.
  unfold str.startswith. rewrite prefix_cons.
  destruct (ascii_dec "/" c); [congruence|done].
Qed.

Lemma png_name img_id :
  plain img_id = true → valid_name (img_id +:+ ".png").
Proof.
  intros H. split; [by destruct img_id|]. by rewrite plain_app, H.
Qed.

(** ** [os.path] *)

Lemma rsplit_cons c p :
  os.path.rsplit (String c p)
  = match os.path.rsplit p with
    | (EmptyString, t) =>
        if bool_decide (c = "/"%char) then (String c EmptyString, p)
        else (EmptyString, String c t)
    | (h, t) => (String c h, t)
    end.
Proof. reflexivity. Qed.

Lemma rstrip_cons c h :
  os.path.rstrip (String c h)
  = match os.path.rstrip h with
    | EmptyString =>
        if bool_decide (c = "/"%char) then EmptyString else String c EmptyString
    | r => String c r
    end.
Proof. reflexivity. Qed.

Lemma rsplit_plain m : plain m = true → os.path.rsplit m = (EmptyString, m).
Proof.
  induction m as [|c m IH]; simpl; [done|].
  intros [Hc Hm]%andb_true_iff. rewrite (IH Hm).
  apply negb_true_iff in Hc. by rewrite Hc.
Qed.

Lemma rsplit_join p m :
  plain m = true → os.path.rsplit (p +:+ "/" +:+ m) = (p +:+ "/", m).
Proof.
  intros Hm. induction p as [|c p IH].
  - change (EmptyString +:+ "/" +:+ m) with (String "/" m).
    by rewrite rsplit_cons, (rsplit_plain _ Hm).
  - rewrite !(str_app_cons c p), rsplit_cons, IH. by destruct p.
Qed.

Lemma rsplit_app p : fst (os.path.rsplit p) +:+ snd (os.path.rsplit p) = p.
Proof.
  induction p as [|c p IH]; [done|]. rewrite rsplit_cons.
  destruct (os.path.rsplit p) as [[|x h] t]; simpl in *.
  - case_bool_decide; simpl; [done|]. by rewrite <- IH.
  - rewrite str_app_cons. by rewrite IH.
Qed.

Lemma rstrip_slash t c :
  c ≠ "/"%char →
  os.path.rstrip ((t +:+ String c EmptyString) +:+ "/") = t +:+ String c EmptyString.
Proof.
  intros Hc. induction t as [|x t IH].
  - change (os.path.rstrip (String c (String "/" EmptyString)) = String c EmptyString).
    simpl. by rewrite bool_decide_eq_false_2.
  - rewrite !(str_app_cons x t), (str_app_cons x), rstrip_cons, IH. by destruct t.
Qed.

Lemma rstrip_length h : String.length (os.path.rstrip h) ≤ String.length h.
Proof.
  induction h as [|c h IH]; [done|]. rewrite rstrip_cons.
  destruct (os.path.rstrip h); [case_bool_decide|]; simpl in *; lia.
Qed.

Lemma split_length p :
  String.length (fst (os.path.split p)) + String.length (snd (os.path.split p))
  ≤ String.length p.
Proof.
  unfold os.path.split. pose proof (rsplit_app p) as E.
  apply (f_equal String.length) in E. rewrite str_length_app in E.
  destruct (os.path.rsplit p) as [h t]. simpl in E.
  pose proof (rstrip_length h) as L.
  destruct (os.path.rstrip h); simpl in *; lia.
Qed.

Lemma split_join d m :
  ends_plain d → plain m = true → os.path.split (d +:+ "/" +:+ m) = (d, m).
Proof.
  intros (t & c & -> & Hc) Hm. unfold os.path.split.
  rewrite rsplit_join by done. rewrite rstrip_slash by done.
  by destruct t.
Qed.

Lemma join_plain d m :
  ends_plain d → m ≠ EmptyString → plain m = true →
  os.path.join d m = d +:+ "/" +:+ m.
Proof.
  intros (t & c & -> & Hc) Hne Hm. unfold os.path.join.
  rewrite startswith_slash, endswith_char_last by done.
  rewrite (bool_decide_eq_false_2 (c = _)) by done.
  rewrite bool_decide_eq_false_2; [done|]. by destruct t.
Qed.

Lemma join_literal a s :
  str.startswith s "/" = false → os.path.join a s = a +:+ sep_of a +:+ s.
Proof.
  intros H. unfold os.path.join, sep_of. rewrite H.
  by destruct (bool_decide (a = EmptyString) || str.endswith_char a "/").
Qed.

Lemma parent_join σ d m :
  ends_plain d → plain m = true → os.parent σ (d +:+ "/" +:+ m) = d.
Proof.
  intros Hd Hm. unfold os.parent. rewrite split_join by done. simpl.
  destruct Hd as (t & c & -> & _). by destruct t.
Qed.

Lemma basename_join d m :
  plain m = true → os.path.basename (d +:+ "/" +:+ m) = m.
Proof. intros Hm. unfold os.path.basename. by rewrite rsplit_join. Qed.

(** ** The paths of the reconciler *)

(** Two paths that part after a common beginning. *)
Ltac path_neq :=
  let E := fresh in
  intros E; repeat rewrite <- str_app_assoc in E;
  repeat (apply (inj (String.app _)) in E);
  discriminate E.

Section asset_paths.

Context (base : string).

Lemma source_dir_eq :
  source_dir_of base = base +:+ sep_of base +:+ "backgrounds".
Proof. by apply join_literal. Qed.

Lemma assets_dir_eq :
  os.path.join base "assets" = base +:+ sep_of base +:+ "assets".
Proof. by apply join_literal. Qed.

Lemma ends_plain_source : ends_plain (source_dir_of base).
Proof.
  rewrite source_dir_eq. exists (base +:+ sep_of base +:+ "background"), "s"%char.
  split; [|done]. by rewrite <- !str_app_assoc.
Qed.

Lemma ends_plain_assets : ends_plain (os.path.join base "assets").
Proof.
  rewrite assets_dir_eq. exists (base +:+ sep_of base +:+ "asset"), "s"%char.
  split; [|done]. by rewrite <- !str_app_assoc.
Qed.

Lemma target_dir_join :
  target_dir_of base = os.path.join base "assets" +:+ "/" +:+ "textures".
Proof.
  unfold target_dir_of. by rewrite join_plain by (done || apply ends_plain_assets).
Qed.

Lemma target_dir_eq :
  target_dir_of base = base +:+ sep_of base +:+ "assets/textures".
Proof. rewrite target_dir_join, assets_dir_eq. by rewrite <- !str_app_assoc. Qed.

Lemma json_path_eq :
  json_path_of base = base +:+ sep_of base +:+ "assets/graphics_batch.json".
Proof.
  unfold json_path_of. rewrite join_plain by (done || apply ends_plain_assets).
  rewrite assets_dir_eq. by rewrite <- !str_app_assoc.
Qed.

Lemma ends_plain_target : ends_plain (target_dir_of base).
Proof.
  rewrite target_dir_eq.
  exists (base +:+ sep_of base +:+ "assets/texture"), "s"%char.
  split; [|done]. by rewrite <- !str_app_assoc.
Qed.

Lemma src_path_eq n :
  valid_name n →
  src_path_of base n = base +:+ sep_of base +:+ "backgrounds/" +:+ n.
Proof.
  intros [Hne Hp]. unfold src_path_of.
  rewrite join_plain by (done || apply ends_plain_source).
  rewrite source_dir_eq. by rewrite <- !str_app_assoc.
Qed.

Lemma dest_path_join img_id :
  plain img_id = true →
  dest_path_of base img_id = target_dir_of base +:+ "/" +:+ img_id +:+ ".png".
Proof.
  intros Hp. destruct (png_name _ Hp). unfold dest_path_of.
  by rewrite join_plain by (done || apply ends_plain_target).
Qed.

Lemma dest_path_eq img_id :
  plain img_id = true →
  dest_path_of base img_id
  = base +:+ sep_of base +:+ "assets/textures/" +:+ img_id +:+ ".png".
Proof.
  intros Hp. rewrite dest_path_join, target_dir_eq by done.
  by rewrite <- !str_app_assoc.
Qed.

Lemma dest_path_inj i j :
  plain i = true → plain j = true →
  dest_path_of base i = dest_path_of base j → i = j.
Proof.
  intros Hi Hj. rewrite !dest_path_eq by done. intros E.
  repeat (apply (inj (String.app _)) in E). by apply str_app_inv_tail in E.
Qed.

Lemma src_dest_ne n img_id :
  valid_name n → plain img_id = true →
  src_path_of base n ≠ dest_path_of base img_id.
Proof.
  intros Hn Hi. rewrite src_path_eq, dest_path_eq by done. path_neq.
Qed.

Lemma dest_target_ne img_id :
  plain img_id = true → dest_path_of base img_id ≠ target_dir_of base.
Proof.
  intros Hi. rewrite dest_path_eq, target_dir_eq by done.
  rewrite <- (str_app_nil_r (base +:+ sep_of base +:+ "assets/textures")). path_neq.
Qed.

Lemma dest_assets_ne img_id :
  plain img_id = true → dest_path_of base img_id ≠ os.path.join base "assets".
Proof.
  intros Hi. rewrite dest_path_eq, assets_dir_eq by done.
  change "assets/textures/" with ("assets" +:+ "/textures/").
  rewrite <- (str_app_nil_r (base +:+ sep_of base +:+ "assets")). path_neq.
Qed.

Lemma dest_json_ne img_id :
  plain img_id = true → dest_path_of base img_id ≠ json_path_of base.
Proof.
  intros Hi. rewrite dest_path_eq, json_path_eq by done. path_neq.
Qed.

Lemma source_target_ne : source_dir_of base ≠ target_dir_of base.
Proof. rewrite source_dir_eq, target_dir_eq. path_neq. Qed.

Lemma source_assets_ne : source_dir_of base ≠ os.path.join base "assets".
Proof. rewrite source_dir_eq, assets_dir_eq. path_neq. Qed.

Lemma dest_parent σ img_id :
  plain img_id = true →
  os.parent σ (dest_path_of base img_id) = target_dir_of base
  ∧ os.path.basename (dest_path_of base img_id) = img_id +:+ ".png".
Proof.
  intros Hi. destruct (png_name _ Hi) as [_ Hp].
  rewrite dest_path_join by done. split.
  - apply parent_join; [apply ends_plain_target|done].
  - by apply basename_join.
Qed.

End asset_paths.

(** ** Directories *)

Lemma with_stdout_nil σ : with_stdout (stdout σ ++ []) σ = σ.
Proof. destruct σ; unfold with_stdout; simpl. by rewrite app_nil_r. Qed.

Lemma only_dirs_differ_refl σ : only_dirs_differ σ σ.
Proof. by destruct σ. Qed.

Lemma only_dirs_differ_trans σ1 σ2 σ3 :
  only_dirs_differ σ1 σ2 → only_dirs_differ σ2 σ3 → only_dirs_differ σ1 σ3.
Proof.
  unfold only_dirs_differ. intros H12 H23. rewrite H23 at 1. rewrite H12 at 1 2.
  by destruct σ1.
Qed.

Lemma same_files_cwd σ σ' : same_files σ σ' → cwd σ' = cwd σ.
Proof. intros ->. by destruct σ. Qed.

Lemma mkdir_only_dirs p σ : only_dirs_differ σ (snd (os.mkdir p σ)).
Proof.
  unfold os.mkdir.
  repeat case_match; simpl; try apply only_dirs_differ_refl.
  by destruct σ.
Qed.

Lemma mkdir_exist_ok_only_dirs name exist_ok σ :
  only_dirs_differ σ (snd (os.mkdir_exist_ok name exist_ok σ)).
Proof.
  unfold os.mkdir_exist_ok. pose proof (mkdir_only_dirs name σ) as H.
  destruct (os.mkdir name σ) as [[[]|e] σ']; simpl in *; [done|].
  by case_match.
Qed.

(** [os.makedirs] makes directories and nothing else, however it ends. *)
Lemma makedirs_go_only_dirs n name exist_ok σ :
  only_dirs_differ σ (snd (os.makedirs_go n name exist_ok σ)).
Proof.
  revert name σ. induction n as [|n IH]; intros name σ; simpl;
    destruct (os.head_tail name) as [head tail];
    unfold bind, os.path.exists_;
    match goal with
    | |- context [if ?b then _ else _] => destruct b
    end; try apply mkdir_exist_ok_only_dirs.
  pose proof (IH head σ) as H1.
  destruct (os.makedirs_go n head exist_ok σ) as [[[]|e] σ1]; simpl in *.
  - case_bool_decide; [done|].
    eapply only_dirs_differ_trans; [done|apply mkdir_exist_ok_only_dirs].
  - destruct e; simpl; auto.
    case_bool_decide; [done|].
    eapply only_dirs_differ_trans; [done|apply mkdir_exist_ok_only_dirs].
Qed.

Lemma makedirs_only_dirs name exist_ok σ :
  only_dirs_differ σ (snd (os.makedirs name exist_ok σ)).
Proof. apply makedirs_go_only_dirs. Qed.

Lemma head_tail_length name :
  snd (os.head_tail name) ≠ EmptyString →
  String.length (fst (os.head_tail name)) < String.length name.
Proof.
  unfold os.head_tail. pose proof (split_length name) as L.
  destruct (os.path.split name) as [h [|c t]]; simpl in *.
  - pose proof (split_length h) as L2.
    destruct (os.path.split h) as [h2 [|c2 t2]]; simpl in *; [done|]. lia.
  - lia.
Qed.

(** The bound of [os.makedirs] is never reached: any bound from the length
    of the name on gives the same run. *)
Lemma makedirs_go_fuel n m name exist_ok σ :
  String.length name ≤ n → String.length name ≤ m →
  os.makedirs_go n name exist_ok σ = os.makedirs_go m name exist_ok σ.
Proof.
  revert m name σ. induction n as [|n IH]; intros m name σ Hn Hm.
  - destruct name; [|simpl in Hn; lia]. by destruct m.
  - destruct m as [|m].
    { destruct name; [|simpl in Hm; lia]. done. }
    simpl. pose proof (head_tail_length name) as L.
    destruct (os.head_tail name) as [head tail]. simpl in L.
    unfold bind, os.path.exists_.
    match goal with
    | |- context [if ?b then _ else _] => destruct b eqn:Hb
    end; [|done].
    apply andb_true_iff in Hb as [[_ Ht]%andb_true_iff _].
    apply negb_true_iff, bool_decide_eq_false in Ht.
    rewrite (IH m head) by (specialize (L Ht); lia). done.
Qed.

Lemma makedirs_go_parent_there n name exist_ok σ :
  is_Some (dirs σ !! fst (os.head_tail name)) →
  os.makedirs_go n name exist_ok σ = os.mkdir_exist_ok name exist_ok σ.
Proof.
  intros H. destruct n; simpl; destruct (os.head_tail name) as [head tail];
    unfold bind, os.path.exists_; simpl in H;
    rewrite (bool_decide_eq_true_2 _ H); simpl;
    by rewrite !andb_false_r.
Qed.

(** Lines 14 to 16 of the reconciler leave the files alone. *)
Lemma create_target_directory_same_files target σ :
  same_files σ (snd (create_target_directory target σ)).
Proof.
  unfold create_target_directory, bind, os.path.exists_, when, print, ret.
  match goal with
  | |- context [negb ?b] => destruct b
  end; simpl; [by destruct σ|].
  pose proof (makedirs_only_dirs target false σ) as H.
  destruct (os.makedirs target false σ) as [[[]|e] σ1]; simpl in *;
    red in H; rewrite H; by destruct σ.
Qed.

Lemma create_target_directory_there target σ :
  is_Some (dirs σ !! target) → create_target_directory target σ = (Ok tt, σ).
Proof.
  intros H. unfold create_target_directory, bind, os.path.exists_, when.
  by rewrite (bool_decide_eq_true_2 _ H).
Qed.

(** The asset store is made in [assets], when [assets] is there. *)
Lemma create_target_directory_fresh σ listing :
  dirs σ !! target_dir_of (cwd σ) = None →
  files σ !! target_dir_of (cwd σ) = None →
  dirs σ !! os.path.join (cwd σ) "assets" = Some listing →
  create_target_directory (target_dir_of (cwd σ)) σ
  = (Ok tt,
     with_stdout (stdout σ ++ [Created_directory (target_dir_of (cwd σ))])
       (with_fs
          (<[target_dir_of (cwd σ) := []]>
             (<[os.path.join (cwd σ) "assets" := os.add_name "textures" listing]>
                (dirs σ)))
          (files σ) σ)).
Proof.
  intros Hd Hf Ha.
  assert (Hs : os.path.split (target_dir_of (cwd σ))
               = (os.path.join (cwd σ) "assets", "textures")).
  { rewrite target_dir_join. apply split_join; [apply ends_plain_assets|done]. }
  assert (Hp : os.parent σ (target_dir_of (cwd σ)) = os.path.join (cwd σ) "assets").
  { rewrite target_dir_join. apply parent_join; [apply ends_plain_assets|done]. }
  unfold create_target_directory, bind, os.path.exists_, when.
  rewrite Hd, Hf. simpl. unfold bind, os.makedirs.
  rewrite makedirs_go_parent_there.
  2:{ unfold os.head_tail. rewrite Hs. simpl. rewrite Ha. eauto. }
  unfold os.mkdir_exist_ok, os.mkdir. rewrite Hd, Hf, Hp, Ha, Hs. simpl.
  reflexivity.
Qed.

(** ** One copy *)

Lemma copy2_run src dst f d names σ :
  dirs σ !! dst = None →
  files σ !! src = Some f →
  src ≠ dst →
  os.parent σ dst = d →
  dirs σ !! d = Some names →
  shutil.copy2 src dst σ
  = (Ok tt,
     with_fs (<[d := os.add_name (os.path.basename dst) names]> (dirs σ))
             (<[dst := f]> (files σ)) σ).
Proof.
  intros Hd Hf Hne Hp Hn.
  unfold shutil.copy2, bind, os.path.isdir, read_file, write_file.
  rewrite Hd.
  rewrite (bool_decide_eq_false_2 (is_Some (@None (list string))))
    by apply is_Some_None.
  rewrite Hf. rewrite bool_decide_eq_false_2 by done.
  by rewrite Hd, Hp, Hn.
Qed.

Lemma copy2_no_KeyError src dst σ k :
  fst (shutil.copy2 src dst σ) ≠ Raise (KeyError k).
Proof.
  unfold shutil.copy2, bind, os.path.isdir, read_file, write_file, raise.
  repeat (case_match; simplify_eq/=; try done).
Qed.

Lemma add_name_in x listing : x ∈ os.add_name x listing.
Proof. unfold os.add_name. case_bool_decide; [done|]. set_solver. Qed.

Lemma add_name_mono x y listing : y ∈ listing → y ∈ os.add_name x listing.
Proof. unfold os.add_name. case_bool_decide; [done|]. set_solver. Qed.

(** ** The loop of the reconciler *)

(** One step of the loop, for an entry that has an identifier. *)
Lemma for_prompts_cons source_dir target_dir names x i rest n σ :
  entry.id x = Some i →
  for_prompts source_dir target_dir names (Obj x :: rest) n σ
  = match candidates names i with
    | [] =>
        for_prompts source_dir target_dir names rest n
          (with_stdout (stdout σ ++ [WARNING_no_file_found i]) σ)
    | c :: _ =>
        match shutil.copy2 (os.path.join source_dir c)
                (os.path.join target_dir (i +:+ ".png")) σ with
        | (Ok _, σ1) =>
            for_prompts source_dir target_dir names rest (n + 1)
              (with_stdout (stdout σ1 ++ [Copied c (i +:+ ".png")]) σ1)
        | (Raise ex, σ1) => (Raise ex, σ1)
        end
    end.
Proof.
  intros Hi. cbn [for_prompts]. unfold bind at 1. unfold getitem_id.
  rewrite Hi. unfold ret at 1. destruct (candidates names i) as [|c l].
  - reflexivity.
  - unfold bind at 1.
    by destruct (shutil.copy2 _ _ σ) as [[[]|ex] σ1].
Qed.

Section reconciler.

(** The project directory, and the listing of its staging directory. *)
Context (base : string) (names : list string).
Hypothesis names_valid : Forall valid_name names.

Lemma candidates_head img_id c l :
  candidates names img_id = c :: l → c ∈ names ∧ String.prefix img_id c = true.
Proof.
  intros H. assert (Hin : In c (candidates names img_id)) by (rewrite H; by left).
  apply filter_In in Hin as [Hin Hp]. split; [by apply list_elem_of_In|done].
Qed.

Lemma candidate_plain img_id c l :
  candidates names img_id = c :: l → valid_name c ∧ plain img_id = true.
Proof.
  intros H. apply candidates_head in H as [Hin Hp].
  destruct (proj1 (Forall_forall _ _) names_valid c Hin) as [Hne Hpl].
  split; [done|]. by eapply plain_prefix.
Qed.

Lemma has_candidate_plain img_id :
  has_candidate names img_id = true → plain img_id = true.
Proof.
  unfold has_candidate. intros H.
  destruct (candidates names img_id) as [|c l] eqn:E; [done|].
  by destruct (candidate_plain _ _ _ E).
Qed.

Lemma step_skip staging i store listing :
  candidates names i = [] →
  report names i = WARNING_no_file_found i
  ∧ enter names listing i = listing
  ∧ place staging base names store i = store.
Proof. intros Hc. unfold report, enter, place, has_candidate. by rewrite Hc. Qed.

Lemma step_copy staging i c l f store listing :
  candidates names i = c :: l →
  staging !! src_path_of base c = Some f →
  report names i = Copied c (i +:+ ".png")
  ∧ enter names listing i = os.add_name (i +:+ ".png") listing
  ∧ place staging base names store i = <[dest_path_of base i := f]> store.
Proof.
  intros Hc Hf. unfold report, enter, place, has_candidate. by rewrite Hc, Hf.
Qed.

(** The copies read the staging directory only at the listed names. *)
Lemma place_staging s1 s2 store ids :
  (∀ n, n ∈ names → s1 !! src_path_of base n = s2 !! src_path_of base n) →
  foldl (place s1 base names) store ids = foldl (place s2 base names) store ids.
Proof.
  intros Hs. revert store. induction ids as [|i ids IH]; intros store; [done|].
  simpl. rewrite IH. f_equal. unfold place.
  destruct (candidates names i) as [|c l] eqn:E; [done|].
  apply candidates_head in E as [Hin _]. by rewrite (Hs c Hin).
Qed.

(** A path that is not a canonical path keeps its file. *)
Lemma place_fold_other staging store ids p :
  (∀ i, i ∈ ids → has_candidate names i = true → dest_path_of base i ≠ p) →
  foldl (place staging base names) store ids !! p = store !! p.
Proof.
  revert store. induction ids as [|i ids IH]; intros store H; [done|].
  simpl. rewrite IH by (intros j Hj; apply H; by right).
  unfold place. destruct (candidates names i) as [|c l] eqn:E; [done|].
  destruct (staging !! src_path_of base c); [|done].
  apply lookup_insert_ne, H; [by left|]. unfold has_candidate. by rewrite E.
Qed.

(** The canonical path of an identifier holds its first candidate. *)
Lemma place_fold_dest staging store ids i c l f :
  i ∈ ids → candidates names i = c :: l →
  staging !! src_path_of base c = Some f →
  foldl (place staging base names) store ids !! dest_path_of base i = Some f.
Proof.
  intros Hi Hc Hf. revert store Hi.
  induction ids as [|j ids IH]; intros store Hi; [by apply elem_of_nil in Hi|].
  simpl. destruct (decide (i ∈ ids)) as [Hin|Hnin]; [by apply IH|].
  apply elem_of_cons in Hi as [<-|Hi]; [|done].
  rewrite place_fold_other.
  - unfold place. rewrite Hc, Hf. apply lookup_insert_eq.
  - intros j Hj Hcj E. apply Hnin.
    apply dest_path_inj in E as <-; [done|by apply has_candidate_plain|].
    by destruct (candidate_plain _ _ _ Hc).
Qed.

(** Copying again what is there changes nothing. *)
Lemma place_fold_id staging store ids :
  (∀ i c l f, i ∈ ids → candidates names i = c :: l →
              staging !! src_path_of base c = Some f →
              store !! dest_path_of base i = Some f) →
  foldl (place staging base names) store ids = store.
Proof.
  induction ids as [|i ids IH]; intros H; [done|]. simpl.
  assert (E : place staging base names store i = store).
  { unfold place. destruct (candidates names i) as [|c l] eqn:Hc; [done|].
    destruct (staging !! src_path_of base c) as [f|] eqn:Hf; [|done].
    apply insert_id. eapply H; [by left|done..]. }
  rewrite E. apply IH. intros j c l f Hj. apply H. by right.
Qed.

Lemma enter_fold_mono listing ids y :
  y ∈ listing → y ∈ foldl (enter names) listing ids.
Proof.
  revert listing. induction ids as [|i ids IH]; intros listing H; [done|].
  simpl. apply IH. unfold enter. case_match; [by apply add_name_mono|done].
Qed.

Lemma enter_fold_in listing ids i :
  i ∈ ids → has_candidate names i = true →
  i +:+ ".png" ∈ foldl (enter names) listing ids.
Proof.
  revert listing. induction ids as [|j ids IH]; intros listing Hi Hc;
    [by apply elem_of_nil in Hi|].
  simpl. apply elem_of_cons in Hi as [<-|Hi]; [|by apply IH].
  apply enter_fold_mono. unfold enter. rewrite Hc. apply add_name_in.
Qed.

Lemma enter_fold_id listing ids :
  (∀ i, i ∈ ids → has_candidate names i = true → i +:+ ".png" ∈ listing) →
  foldl (enter names) listing ids = listing.
Proof.
  induction ids as [|i ids IH]; intros H; [done|]. simpl.
  assert (E : enter names listing i = listing).
  { unfold enter. destruct (has_candidate names i) eqn:Hc; [|done].
    unfold os.add_name. rewrite bool_decide_eq_true_2; [done|].
    apply H; [by left|done]. }
  rewrite E. apply IH. intros j Hj. apply H. by right.
Qed.

Lemma reconciled_nil σ :
  is_Some (dirs σ !! target_dir_of base) → reconciled base names [] σ = σ.
Proof.
  intros [tn Ht]. unfold reconciled. simpl. rewrite Ht. simpl.
  rewrite insert_id by done. destruct σ; unfold with_stdout, with_fs; simpl.
  by rewrite app_nil_r.
Qed.

Lemma reconciled_skip i ids σ :
  candidates names i = [] →
  reconciled base names ids (with_stdout (stdout σ ++ [WARNING_no_file_found i]) σ)
  = reconciled base names (i :: ids) σ.
Proof.
  intros Hc. unfold reconciled. rewrite fmap_cons. cbn [foldl].
  destruct (step_skip (files σ) i (files σ)
              (default [] (dirs σ !! target_dir_of base)) Hc) as (-> & -> & ->).
  simpl. by rewrite <- app_assoc.
Qed.

Lemma reconciled_copy i ids σ c l f tn :
  candidates names i = c :: l →
  files σ !! src_path_of base c = Some f →
  dirs σ !! target_dir_of base = Some tn →
  reconciled base names ids
    (with_stdout (stdout σ ++ [Copied c (i +:+ ".png")])
       (with_fs (<[target_dir_of base := os.add_name (i +:+ ".png") tn]> (dirs σ))
                (<[dest_path_of base i := f]> (files σ)) σ))
  = reconciled base names (i :: ids) σ.
Proof.
  intros Hc Hf Ht. destruct (candidate_plain _ _ _ Hc) as [Hvc Hpi].
  unfold reconciled. rewrite fmap_cons. cbn [foldl].
  destruct (step_copy (files σ) i c l f (files σ)
              (default [] (dirs σ !! target_dir_of base)) Hc Hf) as (-> & -> & ->).
  rewrite Ht. simpl.
  rewrite lookup_insert_eq, insert_insert_eq, <- app_assoc. simpl.
  rewrite (place_staging (<[dest_path_of base i:=f]> (files σ)) (files σ)); [done|].
  intros n Hin. apply lookup_insert_ne. apply not_eq_sym, src_dest_ne; [|done].
  by apply (proj1 (Forall_forall _ _) names_valid).
Qed.

(** The loop, on entries that have their identifiers, in a world where
    every copy can be made. *)
Lemma for_prompts_run prompts ids n σ :
  entry.id <$> prompts = Some <$> ids →
  staged_ok base σ names ids →
  for_prompts (source_dir_of base) (target_dir_of base) names
    (Obj <$> prompts) n σ
  = (Ok (n + placed names ids)%Z, reconciled base names ids σ).
Proof.
  unfold placed.
  revert ids n σ. induction prompts as [|e prompts IH]; intros ids n σ Hids Hok.
  - destruct ids; [|done]. simpl. unfold ret.
    rewrite reconciled_nil by apply Hok. by rewrite Z.add_0_r.
  - destruct ids as [|i ids]; [done|]. simpl in Hids.
    injection Hids as Hi Hids.
    rewrite fmap_cons, (for_prompts_cons _ _ _ e i) by done.
    destruct Hok as [_ Hf Ht Hd]. apply Forall_cons in Hd as [Hdi Hd].
    destruct (candidates names i) as [|c l] eqn:Hc.
    + rewrite IH with (ids := ids); [|done|by split].
      rewrite reconciled_skip by done. cbn [List.filter].
      unfold has_candidate at 2. by rewrite Hc.
    + destruct (candidate_plain _ _ _ Hc) as [Hvc Hpi].
      destruct (candidates_head _ _ _ Hc) as [Hin _].
      pose proof (proj1 (Forall_forall _ _) Hf) as Hf'.
      destruct (Hf' c Hin) as [f Hfc]. destruct Ht as [tn Ht].
      destruct (dest_parent base σ i Hpi) as [Hpar Hbase].
      assert (Hhas : has_candidate names i = true)
        by (unfold has_candidate; by rewrite Hc).
      change (os.path.join (target_dir_of base) (i +:+ ".png"))
        with (dest_path_of base i).
      change (os.path.join (source_dir_of base) c) with (src_path_of base c).
      rewrite (copy2_run _ _ f (target_dir_of base) tn);
        [|by apply Hdi|done|by apply src_dest_ne|done|done].
      rewrite Hbase. simpl.
      rewrite IH with (ids := ids); [|done|].
      2:{ split; simpl; [done| | |].
          - apply Forall_forall. intros n' Hn'.
            rewrite lookup_insert_ne; [by apply Hf'|].
            apply not_eq_sym, src_dest_ne; [|done].
            by apply (proj1 (Forall_forall _ _) names_valid).
          - rewrite lookup_insert_eq. eauto.
          - eapply Forall_impl; [exact Hd|]. cbv beta. intros i' Hi' Hc'.
            rewrite lookup_insert_ne; [by apply Hi'|].
            apply not_eq_sym, dest_target_ne. by apply has_candidate_plain. }
      rewrite (reconciled_copy i ids σ c l f tn) by done.
      cbn [List.filter]. rewrite Hhas. simpl length.
      f_equal. f_equal. lia.
Qed.

End reconciler.

(** ** A run of the reconciler *)

(** The run, once the manifest is loaded: the listing, the loop, and the
    last line when the loop comes to its end. *)
Lemma organize_assets_loop σ σ0 f image_prompts prompts names :
  create_target_directory (target_dir_of (cwd σ)) σ = (Ok tt, σ0) →
  files σ0 !! json_path_of (cwd σ) = Some f →
  data f = Json (JObject image_prompts) →
  default (Entries []) image_prompts = Entries prompts →
  dirs σ0 !! source_dir_of (cwd σ) = Some names →
  organize_assets σ
  = match for_prompts (source_dir_of (cwd σ)) (target_dir_of (cwd σ)) names
            (Obj <$> prompts) 0
            (with_stdout (stdout σ0 ++ [Found_files (length names)]) σ0) with
    | (Ok moved_count, σ1) =>
        (Ok tt, with_stdout (stdout σ1 ++ [Successfully_organized moved_count]) σ1)
    | (Raise ex, σ1) => (Raise ex, σ1)
    end.
Proof.
  intros Hc Hf Hj Hp Hl.
  unfold organize_assets, bind, os.getcwd. simpl. rewrite Hc.
  unfold try_except_FileNotFoundError, bind, read_file, json.load.
  rewrite Hf, Hj. simpl. rewrite Hp. unfold os.listdir. rewrite Hl.
  unfold print. simpl.
  by destruct (for_prompts _ _ _ _ _ _) as [[n|ex] σ1].
Qed.

Lemma organize_assets_run σ σ0 prompts names ids :
  create_target_directory (target_dir_of (cwd σ)) σ = (Ok tt, σ0) →
  ready σ0 prompts names ids →
  organize_assets σ = (Ok tt, finished names ids σ0).
Proof.
  intros Hc [(f & v & Hf & Hj & Hp) Hids Hl Hok].
  pose proof (create_target_directory_same_files (target_dir_of (cwd σ)) σ) as Hs.
  rewrite Hc in Hs. simpl in Hs. apply same_files_cwd in Hs.
  rewrite Hs in *.
  rewrite (organize_assets_loop σ σ0 f v prompts names) by done.
  rewrite (for_prompts_run (cwd σ) names) with (ids := ids);
    [|apply Hok|done|by destruct Hok].
  unfold finished. rewrite Hs. simpl. reflexivity.
Qed.

Lemma finished_files names ids σ :
  files (finished names ids σ)
  = foldl (place (files σ) (cwd σ) names) (files σ) ids.
Proof. reflexivity. Qed.

Lemma finished_dirs names ids σ :
  dirs (finished names ids σ)
  = <[target_dir_of (cwd σ) :=
        foldl (enter names) (default [] (dirs σ !! target_dir_of (cwd σ))) ids]>
      (dirs σ).
Proof. reflexivity. Qed.

Lemma finished_stdout names ids σ :
  stdout (finished names ids σ) = stdout σ ++ lines_of names ids.
Proof. unfold finished, lines_of. simpl. by rewrite <- !app_assoc. Qed.

Lemma finished_cwd names ids σ : cwd (finished names ids σ) = cwd σ.
Proof. reflexivity. Qed.

(** The run leaves the staging directory as it was. *)
Lemma finished_staging names ids σ n :
  Forall valid_name names → valid_name n →
  files (finished names ids σ) !! src_path_of (cwd σ) n
  = files σ !! src_path_of (cwd σ) n.
Proof.
  intros Hn Hv. rewrite finished_files. apply place_fold_other.
  intros i _ Hc. apply not_eq_sym, src_dest_ne; [done|].
  by eapply has_candidate_plain.
Qed.

(** After a run, the world is ready for another. *)
Lemma finished_ready σ prompts names ids :
  ready σ prompts names ids → ready (finished names ids σ) prompts names ids.
Proof.
  intros [(f & v & Hf & Hj) Hids Hl [Hn Hs Ht Hd]].
  split; rewrite ?finished_cwd.
  - exists f, v. split; [|done]. rewrite finished_files, place_fold_other; [done|].
    intros i _ Hc. apply dest_json_ne. by eapply has_candidate_plain.
  - done.
  - rewrite finished_dirs, lookup_insert_ne; [done|].
    apply not_eq_sym, source_target_ne.
  - split; [done| | |].
    + apply Forall_forall. intros n Hin. rewrite Forall_forall in Hn, Hs.
      rewrite finished_staging; [by apply Hs| |by apply Hn].
      by apply Forall_forall.
    + rewrite finished_dirs, lookup_insert_eq. eauto.
    + eapply Forall_impl; [exact Hd|]. cbv beta. intros i Hi Hc.
      rewrite finished_dirs, lookup_insert_ne; [by apply Hi|].
      apply not_eq_sym, dest_target_ne. by eapply has_candidate_plain.
Qed.

(** A world in which the reconciler would run to its end but for the asset
    store, which [assets] does not hold yet, is ready once the store has
    been made. *)
Lemma ready_fresh σ σ0 prompts names ids listing :
  dirs σ !! target_dir_of (cwd σ) = None →
  files σ !! target_dir_of (cwd σ) = None →
  dirs σ !! os.path.join (cwd σ) "assets" = Some listing →
  (∃ f image_prompts,
     files σ !! json_path_of (cwd σ) = Some f
     ∧ data f = Json (JObject image_prompts)
     ∧ default (Entries []) image_prompts = Entries prompts) →
  entry.id <$> prompts = Some <$> ids →
  dirs σ !! source_dir_of (cwd σ) = Some names →
  Forall valid_name names →
  Forall (λ n, is_Some (files σ !! src_path_of (cwd σ) n)) names →
  Forall (λ i, has_candidate names i = true →
               dirs σ !! dest_path_of (cwd σ) i = None) ids →
  create_target_directory (target_dir_of (cwd σ)) σ = (Ok tt, σ0) →
  ready σ0 prompts names ids.
Proof.
  intros Hd Hf Ha Hm Hids Hl Hn Hs Hno Hc.
  rewrite (create_target_directory_fresh σ listing) in Hc by done.
  injection Hc as <-. split; simpl; [done|done| |split; simpl].
  - rewrite !lookup_insert_ne; [done|apply not_eq_sym, source_assets_ne|].
    apply not_eq_sym, source_target_ne.
  - done.
  - done.
  - rewrite lookup_insert_eq. eauto.
  - eapply Forall_impl; [exact Hno|]. cbv beta. intros i Hi Hcand.
    pose proof (has_candidate_plain _ Hn _ Hcand) as Hp.
    rewrite !lookup_insert_ne; [by apply Hi|..].
    + by apply not_eq_sym, dest_assets_ne.
    + by apply not_eq_sym, dest_target_ne.
Qed.

Lemma project_ready :
  create_target_directory (target_dir_of (cwd (project tenants_doc false)))
    (project tenants_doc false)
  = (Ok tt, project_with_store)
  ∧ ready project_with_store tenants staged tenant_ids.
Proof.
  split; [reflexivity|]. split.
  - eexists _, _. split; [reflexivity|]. split; reflexivity.
  - reflexivity.
  - reflexivity.
  - split.
    + repeat constructor; done.
    + repeat constructor; vm_compute; eauto.
    + vm_compute; eauto.
    + repeat constructor; intros _; reflexivity.
Defined.

(** ** Reconciliation *)

(** C1. The reconciler lists the staging directory once and goes through
    the identifiers in the order of the manifest.  For an identifier that
    no file name starts with it prints a warning and goes on; for any
    other it copies the first file of the listing whose name starts with
    the identifier, content and metadata, to [{id}.png] in the asset store,
    over what was there.  It ends by printing the number of identifiers
    that had a candidate.  No other file is touched. *)
Theorem reconcile_run σ σ0 prompts names ids :
  create_target_directory (target_dir_of (cwd σ)) σ = (Ok tt, σ0) →
  ready σ0 prompts names ids →
  let σ1 := finished names ids σ0 in
  organize_assets σ = (Ok tt, σ1)
  ∧ stdout σ1
    = stdout σ0 ++ [Found_files (length names)] ++ (report names <$> ids)
      ++ [Successfully_organized
            (Z.of_nat (length (List.filter (has_candidate names) ids)))]
  ∧ Forall (λ i,
      match List.filter (λ filename, str.startswith filename i) names with
      | [] => report names i = WARNING_no_file_found i
      | best_candidate :: _ =>
          report names i = Copied best_candidate (i +:+ ".png")
          ∧ is_Some (files σ0 !! src_path_of (cwd σ) best_candidate)
          ∧ files σ1 !! dest_path_of (cwd σ) i
            = files σ0 !! src_path_of (cwd σ) best_candidate
      end) ids
  ∧ (∀ p, Forall (λ i, has_candidate names i = true →
                       dest_path_of (cwd σ) i ≠ p) ids →
          files σ1 !! p = files σ0 !! p).
Proof.
  intros Hc Hr σ1.
  pose proof (create_target_directory_same_files (target_dir_of (cwd σ)) σ) as Hs.
  rewrite Hc in Hs. simpl in Hs. apply same_files_cwd in Hs.
  split; [by eapply organize_assets_run|].
  split; [apply finished_stdout|].
  destruct Hr as [_ _ _ [Hn Hf _ _]]. rewrite Hs in *.
  split.
  - apply Forall_forall. intros i Hi.
    fold (candidates names i). unfold report.
    destruct (candidates names i) as [|c l] eqn:E; [done|].
    destruct (candidates_head _ _ _ _ E) as [Hin _].
    rewrite Forall_forall in Hf. destruct (Hf c Hin) as [f Hfc].
    split; [done|]. split; [eauto|]. rewrite Hfc.
    unfold σ1. rewrite finished_files, Hs.
    by eapply place_fold_dest.
  - intros p Hp. unfold σ1. rewrite finished_files, Hs.
    apply place_fold_other. rewrite Forall_forall in Hp. exact Hp.
Qed.

Lemma reconcile_run_witness :
  create_target_directory (target_dir_of (cwd (project tenants_doc false)))
    (project tenants_doc false)
  = (Ok tt, project_with_store)
  ∧ ready project_with_store tenants staged tenant_ids
  ∧ organize_assets (project tenants_doc false)
    = (Ok tt, finished staged tenant_ids project_with_store)
  ∧ stdout (finished staged tenant_ids project_with_store)
    = [Created_directory "/proj/assets/textures"; Found_files 3;
       Copied "tenant_student_tenant_student_512x512_20240101-0000.png"
         "tenant_student.png";
       WARNING_no_file_found "nope";
       Copied "tenant_student_tenant_student_512x512_20240101-0000.png"
         "ten.png";
       Successfully_organized 2].
Proof.
  destruct project_ready as [H1 H2].
  split; [exact H1|]. split; [exact H2|].
  destruct (reconcile_run (project tenants_doc false) project_with_store
              tenants staged tenant_ids H1 H2) as (R1 & R2 & _).
  split; [exact R1|]. rewrite R2. reflexivity.
Defined.

(** C2. A second run of the reconciler, on what the first run left, ends
    as the first did: it prints the same lines, with the same number of
    assets, and leaves every file and every directory as the first run
    left them. *)
Theorem reconcile_twice σ σ0 prompts names ids :
  create_target_directory (target_dir_of (cwd σ)) σ = (Ok tt, σ0) →
  ready σ0 prompts names ids →
  let σ1 := snd (organize_assets σ) in
  let σ2 := snd (organize_assets σ1) in
  fst (organize_assets σ) = Ok tt
  ∧ fst (organize_assets σ1) = Ok tt
  ∧ files σ2 = files σ1
  ∧ dirs σ2 = dirs σ1
  ∧ stdout σ1 = stdout σ0 ++ lines_of names ids
  ∧ stdout σ2 = stdout σ1 ++ lines_of names ids.
Proof.
  intros Hc Hr σ1 σ2.
  pose proof (create_target_directory_same_files (target_dir_of (cwd σ)) σ) as Hs.
  rewrite Hc in Hs. simpl in Hs. apply same_files_cwd in Hs.
  pose proof (organize_assets_run _ _ _ _ _ Hc Hr) as H1.
  assert (E1 : σ1 = finished names ids σ0) by (unfold σ1; by rewrite H1).
  pose proof (finished_ready _ _ _ _ Hr) as Hr1. rewrite <- E1 in Hr1.
  assert (Hcwd : cwd σ1 = cwd σ0) by (by rewrite E1).
  assert (Ht : is_Some (dirs σ1 !! target_dir_of (cwd σ1))).
  { apply Hr1. }
  pose proof (organize_assets_run _ _ _ _ _
                (create_target_directory_there _ _ Ht) Hr1) as H2.
  assert (E2 : σ2 = finished names ids σ1) by (unfold σ2; by rewrite H2).
  destruct Hr as [_ _ _ [Hn Hf _ _]].
  split; [by rewrite H1|]. split; [by rewrite H2|].
  split; [|split; [|split]].
  - rewrite E2, finished_files. apply place_fold_id.
    intros i c l f Hi Hcand Hfc.
    destruct (candidate_plain _ Hn _ _ _ Hcand) as [Hvc _].
    rewrite E1, finished_cwd in Hfc |- *. rewrite finished_staging in Hfc by done.
    rewrite finished_files. by eapply place_fold_dest.
  - rewrite E2, finished_dirs. rewrite Hcwd.
    rewrite E1 at 1 2 3. rewrite finished_dirs, lookup_insert_eq. simpl.
    rewrite insert_insert_eq. f_equal.
    apply enter_fold_id. intros i Hi Hcand. by apply enter_fold_in.
  - rewrite E1. apply finished_stdout.
  - rewrite E2. apply finished_stdout.
Qed.

Lemma reconcile_twice_witness :
  create_target_directory (target_dir_of (cwd (project tenants_doc false)))
    (project tenants_doc false)
  = (Ok tt, project_with_store)
  ∧ ready project_with_store tenants staged tenant_ids
  ∧ files (snd (organize_assets (snd (organize_assets (project tenants_doc false)))))
    = files (snd (organize_assets (project tenants_doc false)))
  ∧ stdout (snd (organize_assets (snd (organize_assets (project tenants_doc false)))))
    = stdout (snd (organize_assets (project tenants_doc false)))
      ++ lines_of staged tenant_ids.
Proof.
  destruct project_ready as [H1 H2].
  split; [exact H1|]. split; [exact H2|].
  destruct (reconcile_twice (project tenants_doc false) project_with_store
              tenants staged tenant_ids H1 H2)
    as (_ & _ & R1 & _ & _ & R2).
  split; [exact R1|exact R2].
Defined.

(** ** Entries without identifier *)

Lemma for_prompts_missing_id source_dir target_dir names pre ids e post n σ :
  entry.id <$> pre = Some <$> ids →
  entry.id e = None →
  (∀ k, fst (for_prompts source_dir target_dir names (Obj <$> pre) n σ)
        ≠ Raise (KeyError k))
  ∧ for_prompts source_dir target_dir names (Obj <$> (pre ++ e :: post)) n σ
    = match for_prompts source_dir target_dir names (Obj <$> pre) n σ with
      | (Ok _, σ') => (Raise (KeyError "id"), σ')
      | r => r
      end.
Proof.
  intros Hids He. revert ids n σ Hids.
  induction pre as [|x pre IH]; intros ids n σ Hids.
  - split; [done|]. simpl. unfold bind, getitem_id. by rewrite He.
  - destruct ids as [|i ids]; [done|]. simpl in Hids. injection Hids as Hi Hids.
    rewrite <- app_comm_cons, !fmap_cons.
    rewrite !(for_prompts_cons _ _ _ x i) by done.
    destruct (candidates names i) as [|c l].
    + by apply (IH ids).
    + pose proof (copy2_no_KeyError (os.path.join source_dir c)
                    (os.path.join target_dir (i +:+ ".png")) σ) as Hk.
      destruct (shutil.copy2 (os.path.join source_dir c)
                  (os.path.join target_dir (i +:+ ".png")) σ) as [[[]|ex] σ1].
      * by apply (IH ids).
      * split; [|done]. intros k E. apply (Hk k). simpl in *. congruence.
Qed.

(** C10. As long as the entries carry an identifier the loop does not end
    in a [KeyError].  At the first entry without one it ends in the
    [KeyError] of the lookup, in the world that the entries before it have
    left: their copies stay, and nothing is printed for the entry.  Nothing
    in [organize_assets] catches the error: the run ends in it. *)
Theorem missing_id_aborts names pre ids e post :
  entry.id <$> pre = Some <$> ids →
  entry.id e = None →
  (∀ source_dir target_dir n σ,
     (∀ k, fst (for_prompts source_dir target_dir names (Obj <$> pre) n σ)
           ≠ Raise (KeyError k))
     ∧ for_prompts source_dir target_dir names (Obj <$> (pre ++ e :: post)) n σ
       = match for_prompts source_dir target_dir names (Obj <$> pre) n σ with
         | (Ok _, σ') => (Raise (KeyError "id"), σ')
         | r => r
         end)
  ∧ (∀ σ σ0 f,
       create_target_directory (target_dir_of (cwd σ)) σ = (Ok tt, σ0) →
       files σ0 !! json_path_of (cwd σ) = Some f →
       data f = Json (JObject (Some (Entries (pre ++ e :: post)))) →
       dirs σ0 !! source_dir_of (cwd σ) = Some names →
       organize_assets σ
       = match for_prompts (source_dir_of (cwd σ)) (target_dir_of (cwd σ)) names
               (Obj <$> pre) 0
               (with_stdout (stdout σ0 ++ [Found_files (length names)]) σ0) with
         | (Ok _, σ') => (Raise (KeyError "id"), σ')
         | (Raise ex, σ') => (Raise ex, σ')
         end).
Proof.
  intros Hids He. split.
  - intros. by eapply for_prompts_missing_id.
  - intros σ σ0 f Hc Hf Hj Hl.
    rewrite (organize_assets_loop σ σ0 f (Some (Entries (pre ++ e :: post)))
               (pre ++ e :: post) names) by done.
    destruct (for_prompts_missing_id (source_dir_of (cwd σ))
                (target_dir_of (cwd σ)) names pre ids e post 0
                (with_stdout (stdout σ0 ++ [Found_files (length names)]) σ0)
                Hids He) as [_ ->].
    by destruct (for_prompts _ _ _ (Obj <$> pre) _ _) as [[n|ex] σ1].
Qed.

Lemma missing_id_aborts_witness :
  entry.id <$> [entry_of (Some "tenant_student") (Some "Tenant Student")]
  = Some <$> ["tenant_student"]
  ∧ entry.id (entry_of None (Some "Untitled")) = None
  ∧ organize_assets (project anonymous_doc true)
    = match for_prompts "/proj/backgrounds" "/proj/assets/textures" staged
              (Obj <$> [entry_of (Some "tenant_student") (Some "Tenant Student")])
              0 (with_stdout [Found_files 3] (project anonymous_doc true)) with
      | (Ok _, σ') => (Raise (KeyError "id"), σ')
      | (Raise ex, σ') => (Raise ex, σ')
      end.
Proof.
  split; [reflexivity|]. split; [reflexivity|].
  destruct (missing_id_aborts staged
              [entry_of (Some "tenant_student") (Some "Tenant Student")]
              ["tenant_student"] (entry_of None (Some "Untitled"))
              [entry_of (Some "ten") None]) as [_ H]; [reflexivity..|].
  apply (H (project anonymous_doc true) (project anonymous_doc true)
           {| data := anonymous_doc; mtime := t0 |}); reflexivity.
Defined.

Example organize_assets_anonymous :
  let σ' := snd (organize_assets (project anonymous_doc true)) in
  fst (organize_assets (project anonymous_doc true)) = Raise (KeyError "id")
  ∧ files σ' !! "/proj/assets/textures/tenant_student.png" = Some (blob 2)
  ∧ files σ' !! "/proj/assets/textures/ten.png" = None
  ∧ stdout σ'
    = [Found_files 3;
       Copied "tenant_student_tenant_student_512x512_20240101-0000.png"
         "tenant_student.png"].
Proof. vm_compute. done. Qed.

(** ** The two shapes of manifest *)

Lemma items_of_shapes (l : list entry.t) :
  items_of (JObject (Some (Entries l))) = l ∧ items_of (JArray l) = l.
Proof. done. Qed.

(** C8. The job builder reads the same entries from a bare list as from an
    object with [image_prompts]; the reconciler asks the list for [get]
    and stops on the [AttributeError], with nothing reconciled. *)
Theorem bare_list_manifest (σ : world) (f : file) (l : list entry.t) :
  is_Some (dirs σ !! target_dir_of (cwd σ)) →
  files σ !! json_path_of (cwd σ) = Some f →
  data f = Json (JArray l) →
  items_of (JArray l) = items_of (JObject (Some (Entries l)))
  ∧ organize_assets σ = (Raise (AttributeError "get"), σ).
Proof.
  intros Hd Hf Hj. split; [done|].
  unfold organize_assets, create_target_directory, bind, os.getcwd,
    os.path.exists_, when, try_except_FileNotFoundError, read_file, json.load.
  simpl.
  rewrite (bool_decide_eq_true_2 _ Hd). simpl. unfold ret.
  rewrite Hf, Hj. simpl. reflexivity.
Qed.

Lemma bare_list_manifest_witness :
  is_Some (dirs (project bare_doc true)
             !! target_dir_of (cwd (project bare_doc true)))
  ∧ files (project bare_doc true) !! json_path_of (cwd (project bare_doc true))
    = Some {| data := bare_doc; mtime := t0 |}
  ∧ organize_assets (project bare_doc true)
    = (Raise (AttributeError "get"), project bare_doc true).
Proof.
  assert (Hd : is_Some (dirs (project bare_doc true)
                          !! target_dir_of (cwd (project bare_doc true)))).
  { vm_compute. eauto. }
  split; [exact Hd|]. split; [reflexivity|].
  apply (bare_list_manifest (project bare_doc true)
           {| data := bare_doc; mtime := t0 |} tenants Hd); reflexivity.
Defined.

(** ** Errors of configuration and of parsing *)

(** C9, as stated: run without an input mode in a project that has no
    [backgrounds] directory yet, the generator prints its request for a
    mode and returns, and the directory is there; the reconciler, run
    without a manifest, prints its error and returns, and [assets] and
    [assets/textures] are there. *)
Lemma error_side_effect_counterexample :
  batch_error_at no_mode world0 No_input_mode
  ∧ fst (main no_mode world0) = Ok tt
  ∧ dirs world0 !! "/proj/backgrounds" = None
  ∧ dirs (snd (main no_mode world0)) !! "/proj/backgrounds" = Some []
  ∧ reconcile_error_at world0 Graphics_batch_absent
  ∧ fst (organize_assets world0) = Ok tt
  ∧ dirs world0 !! "/proj/assets/textures" = None
  ∧ dirs (snd (organize_assets world0)) !! "/proj/assets/textures" = Some [].
Proof. vm_compute. done. Qed.

(** C9, amended. The generator loads its model first, and when the model
    cannot be loaded it prints the load error and returns before any
    check: no message about the input mode or the manifest is printed, and
    no directory is made (the third part).  When the model loads, the
    generator makes its output directory before it looks at its input; the
    first part is about the runs in which the directory is there or can be
    made, and [σm] is the world from then on.  From there, a run without
    [--Prompt] and without input mode, or with a manifest path at which
    nothing exists, prints its message and returns; with a manifest that
    does not parse it ends in the [ValueError] of [json.load], which nothing
    catches.  In the three cases no queue is built and the world is [σm]
    with the one message added: no regular file is created or changed,
    nothing is generated, and the only directories made are the output
    directory and its missing parents.  The reconciler (the second part)
    makes its asset store first as well; when the store is there or can be
    made, it ends in the same way when its manifest is absent or does not
    parse. *)
Theorem error_exits :
  (∀ a σ e σm,
     loadable σ (args.Model a) = true →
     os.makedirs (os.path.join (script_dir σ) "backgrounds") true
       (with_stdout (stdout σ ++ [Loading_model (args.Model a)]) σ)
       = (Ok tt, σm) →
     batch_error_at a σm e →
     main a σ = batch_error_end e σm
     ∧ (∀ q, fst (build_queue a (os.path.join (script_dir σ) "backgrounds") σm)
             ≠ Ok (Some q))
     ∧ same_files σ σm)
  ∧ (∀ σ e σt,
       create_target_directory (target_dir_of (cwd σ)) σ = (Ok tt, σt) →
       reconcile_error_at σt e →
       organize_assets σ = reconcile_error_end e σt
       ∧ same_files σ σt)
  ∧ (∀ a σ,
       loadable σ (args.Model a) = false →
       main a σ
       = (Ok tt,
          with_stdout
            (stdout σ ++ [Loading_model (args.Model a); Error_loading_pipeline])
            σ)).
Proof.
  split; [|split].
  - intros a σ e σm Hload Hmk [Hp He].
    assert (Hq : build_queue a (os.path.join (script_dir σ) "backgrounds") σm
                 = (match e with
                    | Malformed_manifest _ => Raise ValueError
                    | _ => Ok None
                    end, snd (batch_error_end e σm))).
    { unfold build_queue. rewrite Hp.
      destruct e as [|path|path]; simpl.
      - rewrite He. reflexivity.
      - destruct He as (-> & Hne & Hd & Hf). simpl.
        rewrite bool_decide_eq_false_2 by done. simpl.
        unfold bind, os.path.exists_. rewrite Hd, Hf. simpl. reflexivity.
      - destruct He as (-> & Hne & f & Hf & Hj). simpl.
        rewrite bool_decide_eq_false_2 by done. simpl.
        unfold bind, os.path.exists_, read_file, json.load. rewrite Hf. simpl.
        rewrite orb_true_r. simpl. rewrite Hf.
        destruct (data f) as [d|?|?] eqn:E; try reflexivity. by destruct (Hj d). }
    split; [|split].
    + unfold main, setup_pipeline, bind, print. simpl. rewrite Hload. simpl.
      rewrite Hmk, Hq. by destruct e.
    + intros q. rewrite Hq. by destruct e.
    + pose proof (makedirs_only_dirs (os.path.join (script_dir σ) "backgrounds")
                    true (with_stdout (stdout σ ++ [Loading_model (args.Model a)]) σ))
        as H.
      rewrite Hmk in H. red in H. simpl in H. red. rewrite H. by destruct σ.
  - intros σ e σt Hc He.
    pose proof (create_target_directory_same_files (target_dir_of (cwd σ)) σ) as Hs.
    rewrite Hc in Hs. simpl in Hs. split; [|done].
    assert (Hcwd : cwd σt = cwd σ) by (rewrite Hs; by destruct σ).
    unfold organize_assets, bind, os.getcwd. simpl. rewrite Hc.
    unfold try_except_FileNotFoundError, bind, read_file, json.load.
    destruct e as [|]; simpl in He; rewrite Hcwd in He.
    + destruct He as [Hd Hf]. by rewrite Hf, Hd.
    + destruct He as (f & Hf & Hj). rewrite Hf.
      destruct (data f) as [d|?|?] eqn:E; try reflexivity. by destruct (Hj d).
  - intros a σ Hload.
    unfold main, setup_pipeline, bind, print. simpl. rewrite Hload. simpl.
    by rewrite <- app_assoc.
Qed.

Lemma error_exits_witness :
  (loadable world0 (args.Model no_mode) = true
   ∧ os.makedirs (os.path.join (script_dir world0) "backgrounds") true
       (with_stdout (stdout world0 ++ [Loading_model (args.Model no_mode)]) world0)
     = (Ok tt, world0_staging)
   ∧ batch_error_at no_mode world0_staging No_input_mode
   ∧ main no_mode world0 = batch_error_end No_input_mode world0_staging)
  ∧ (create_target_directory (target_dir_of (cwd world0)) world0
     = (Ok tt, world0_store)
     ∧ reconcile_error_at world0_store Graphics_batch_absent
     ∧ organize_assets world0
       = reconcile_error_end Graphics_batch_absent world0_store)
  ∧ (loadable offline (args.Model no_mode) = false
     ∧ main no_mode offline
       = (Ok tt,
          with_stdout
            [Loading_model "Tongyi-MAI/Z-Image-Turbo"; Error_loading_pipeline]
            offline)).
Proof.
  destruct error_exits as (H1 & H2 & H3).
  assert (E1 : batch_error_at no_mode world0_staging No_input_mode)
    by (split; reflexivity).
  assert (E2 : reconcile_error_at world0_store Graphics_batch_absent)
    by (split; reflexivity).
  split; [|split].
  - split; [reflexivity|]. split; [reflexivity|]. split; [exact E1|].
    apply (H1 no_mode world0 No_input_mode world0_staging);
      [reflexivity|reflexivity|exact E1].
  - split; [reflexivity|]. split; [exact E2|].
    apply (H2 world0 Graphics_batch_absent world0_store); [reflexivity|exact E2].
  - split; [reflexivity|]. apply (H3 no_mode offline). reflexivity.
Defined.

(** ** Dimension normalization *)

(** C3. For positive [w] and [h] the dispatch step replaces them by
    [floor(w/16)*16] and [floor(h/16)*16]; each result is at most its input
    and a multiple of 16, differs from its input exactly when the input was
    not a multiple of 16, and the warning with the original and adjusted
    values is printed exactly when one of them differs. *)
Theorem normalize_dimensions (p : job.t) (σ : world) :
  (0 < job.width p)%Z → (0 < job.height p)%Z →
  let w := job.width p in
  let h := job.height p in
  let w' := (w / 16 * 16)%Z in
  let h' := (h / 16 * 16)%Z in
  normalize p σ =
    (Ok (job.set_size w' h' p),
     with_stdout
       (stdout σ ++ if bool_decide (w' = w ∧ h' = h) then []
                    else [Warning_adjusted w h w' h']) σ)
  ∧ (w' ≤ w)%Z ∧ (h' ≤ h)%Z ∧ (16 | w')%Z ∧ (16 | h')%Z
  ∧ (w' ≠ w ↔ ¬ (16 | w)%Z) ∧ (h' ≠ h ↔ ¬ (16 | h)%Z).
Proof.
  intros Hw Hh w h w' h'.
  assert (Hdiv : ∀ x : Z, (x / 16 * 16 = x ↔ (16 | x))%Z).
  { intros x. split.
    - intros E. exists (x / 16)%Z. lia.
    - intros [k ->]. rewrite Z.div_mul; lia. }
  assert (Hle : ∀ x : Z, (x / 16 * 16 ≤ x)%Z).
  { intros x. pose proof (Z.mul_div_le x 16). lia. }
  split; [|repeat split; try apply Hle; try (by apply Z.divide_factor_r);
           rewrite <- Hdiv; tauto].
  unfold normalize, bind, when. simpl. fold w h w' h'.
  case_bool_decide as E.
  - destruct E as [-> ->]. rewrite !Z.eqb_refl. simpl. unfold ret.
    by rewrite with_stdout_nil.
  - destruct (Z.eqb_spec w' w) as [E1|E1], (Z.eqb_spec h' h) as [E2|E2]; simpl;
      try reflexivity.
    exfalso. by apply E.
Qed.

Lemma normalize_dimensions_witness :
  (0 < job.width job0)%Z ∧ (0 < job.height job0)%Z
  ∧ normalize job0 world0
    = (Ok (job.set_size 992 512 job0),
       with_stdout [Warning_adjusted 1000 512 992 512] world0)
  ∧ (992 ≤ 1000)%Z ∧ (16 | 992)%Z.
Proof.
  assert (Hw : (0 < job.width job0)%Z) by (simpl; lia).
  assert (Hh : (0 < job.height job0)%Z) by (simpl; lia).
  destruct (normalize_dimensions job0 world0 Hw Hh) as (H & H1 & _ & H2 & _).
  split; [exact Hw|]. split; [exact Hh|].
  split; [exact H|]. split; [exact H1|exact H2].
Defined.

(** ** Seed resolution *)

(** What [generate_image] does, whatever the seed: the sentinel [-1]
    becomes the next output of the generator reduced modulo [2^32], any
    other seed is used as it is and the generator is left alone. *)
Lemma generate_image_run pipe prompt neg w h steps cfg seed σ :
  let resolved := if (seed =? -1)%Z then (rng σ 0%nat `mod` 2 ^ 32)%Z else seed in
  generate_image pipe prompt neg w h steps cfg seed σ =
    (Ok (call_image pipe prompt neg w h steps cfg resolved),
     with_stdout
       (stdout σ ++ [Generating (str.slice_to 50 prompt);
                     Size_line w h resolved steps cfg])
       (if (seed =? -1)%Z then with_rng (λ n, rng σ (S n)) σ else σ)).
Proof.
  unfold generate_image, bind, print, call, ret, random.randint.
  destruct (seed =? -1)%Z; simpl.
  - change (2 ^ 32 - 1 - 0 + 1)%Z with (2 ^ 32)%Z.
    by rewrite <- app_assoc.
  - by rewrite <- app_assoc.
Qed.

(** C4, as stated: with the generator about to output [2^32 - 1], the
    sentinel resolves to [2^32 - 1], which the range [[0, 2^32 - 1)] leaves
    out. *)
Lemma seed_range_counterexample :
  ∃ img σ',
    generate_image pipe0 "a cat" "blurry" 992 512 9 0%float (-1) world0
      = (Ok img, σ')
    ∧ generator img = (2 ^ 32 - 1)%Z
    ∧ ¬ (0 ≤ generator img < 2 ^ 32 - 1)%Z.
Proof.
  eexists _, _. split; [apply generate_image_run|]. simpl.
  split; [reflexivity|]. change (2 ^ 32 - 1)%Z with 4294967295%Z.
  change (4294967295 `mod` 2 ^ 32)%Z with 4294967295%Z. lia.
Qed.

(** C4, amended. The seed [-1] resolves, when the job is dispatched, to a
    value of the closed range from [0] to [2^32 - 1], that is of
    [[0, 2^32)]: the next output of the generator brought into that range,
    which leaves an output of the range as it is.  Any other seed reaches
    the pipeline unchanged. *)
Theorem seed_resolution pipe prompt neg w h steps cfg seed σ :
  ∃ img σ',
    generate_image pipe prompt neg w h steps cfg seed σ = (Ok img, σ')
    ∧ generator img
      = (if (seed =? -1)%Z then (rng σ 0%nat `mod` 2 ^ 32)%Z else seed)
    ∧ (0 ≤ rng σ 0%nat `mod` 2 ^ 32 ≤ 2 ^ 32 - 1)%Z
    ∧ (rng σ 0%nat `mod` 2 ^ 32 = rng σ 0%nat
       ∨ ¬ (0 ≤ rng σ 0%nat ≤ 2 ^ 32 - 1))%Z.
Proof.
  eexists _, _. split; [apply generate_image_run|]. simpl.
  split; [reflexivity|].
  pose proof (Z.mod_pos_bound (rng σ 0%nat) (2 ^ 32)) as B.
  split; [lia|].
  destruct (decide (0 ≤ rng σ 0%nat ≤ 2 ^ 32 - 1)%Z) as [I|I]; [left|by right].
  apply Z.mod_small. lia.
Qed.

(** Every value of the range is the seed of some run. *)
Lemma seed_every_value pipe prompt neg w h steps cfg σ (v : Z) :
  (0 ≤ v ≤ 2 ^ 32 - 1)%Z →
  ∃ img σ',
    generate_image pipe prompt neg w h steps cfg (-1) (with_rng (λ _, v) σ)
      = (Ok img, σ')
    ∧ generator img = v.
Proof.
  intros Hv. eexists _, _. split; [apply generate_image_run|].
  simpl. apply Z.mod_small. lia.
Qed.

(** ** File names *)

(** C5. The time stamp of a staging file name does not tell two minutes
    of one hour apart: the format string prints the month where the
    minute was meant, and the letters [mss] as they are. *)
Theorem timestamp_ignores_minute (y mo d h mi s mi' s' : N) :
  timestamp_of (datetime.make y mo d h mi s)
  = timestamp_of (datetime.make y mo d h mi' s').
Proof. reflexivity. Qed.

Lemma timestamp_shape (t : datetime.t) :
  timestamp_of t
  = datetime.zero_pad 4 (datetime.year t) +:+ datetime.zero_pad 2 (datetime.month t)
    +:+ datetime.zero_pad 2 (datetime.day t) +:+ "-"
    +:+ datetime.zero_pad 2 (datetime.hour t)
    +:+ datetime.zero_pad 2 (datetime.month t) +:+ "mss".
Proof. reflexivity. Qed.

Example timestamp_five_past_ten :
  timestamp_of (datetime.make 2024 1 1 10 5 9) = "20240101-1001mss"
  ∧ timestamp_of (datetime.make 2024 1 1 10 47 30) = "20240101-1001mss".
Proof. split; vm_compute; reflexivity. Qed.

(** The name of the staging file of an entry that has prompt text. *)
Lemma build_filename a output_dir item σ :
  truthy_str (p_text_of item) = true →
  ∃ p, build a output_dir item σ
       = (Ok (Some p), with_clock (λ n, clock σ (S n)) σ)
    ∧ job.output_path p
      = os.path.join output_dir
          ((if truthy_str (entry.id item)
            then default EmptyString (entry.id item) +:+ "_" else EmptyString)
           +:+ sanitize (keyword_of item) +:+ "_"
           +:+ str.of_int (default (args.Width a) (entry.Width item)) +:+ "x"
           +:+ str.of_int (default (args.Height a) (entry.Height item)) +:+ "_"
           +:+ timestamp_of (clock σ 0%nat) +:+ ".png").
Proof.
  intros H. unfold build. rewrite H. simpl. eexists. split; reflexivity.
Qed.

(** ** Keyword sanitization *)

(** The test of the filter, character by character: the class
    [[A-Za-z0-9_-]] below 128, the alphanumeric characters above. *)
Lemma sanitize_test (c : ascii) :
  str.isalnum c || (bool_decide (c = "_"%char) || bool_decide (c = "-"%char))
  = in_class c || (128 <=? str.ord c)%N && str.isalnum c.
Proof. destruct c as [[] [] [] [] [] [] [] []]; vm_compute; reflexivity. Qed.

(** C7, as stated: the letter e with an acute accent is not in the class
    [[A-Za-z0-9_-]], and sanitization keeps it. *)
Lemma sanitize_counterexample :
  in_class e_acute = false
  ∧ sanitize (String e_acute EmptyString) = String e_acute EmptyString
  ∧ sanitize (String e_acute EmptyString)
    ≠ str.filter in_class (String e_acute EmptyString).
Proof. split; [|split]; [vm_compute; reflexivity..|vm_compute; discriminate]. Qed.

(** C7, amended. Sanitization keeps, in their order, the characters that
    are in [[A-Za-z0-9_-]] or are alphanumeric characters beyond ASCII
    ([str.isalnum] follows Unicode), and drops every other character. *)
Theorem sanitize_keeps (s : string) :
  sanitize s
  = str.filter (λ c, in_class c || (128 <=? str.ord c)%N && str.isalnum c) s.
Proof. unfold sanitize. apply filter_ext, sanitize_test. Qed.

(** On a string of ASCII characters the filter is the class test. *)
Lemma sanitize_ascii (s : string) :
  str.filter (λ c, (128 <=? str.ord c)%N) s = EmptyString →
  sanitize s = str.filter in_class s.
Proof.
  unfold sanitize. induction s as [|c s IH]; simpl; [done|].
  rewrite sanitize_test.
  destruct (128 <=? str.ord c)%N; [done|]. intros H.
  rewrite orb_false_r, IH by done. done.
Qed.

Example sanitize_sci_fi : sanitize "sci-fi!!_city 2" = "sci-fi_city2".
Proof. reflexivity. Qed.

Example keyword_hero_city :
  sanitize (keyword_of (entry.make None None None None (Some ["Hero"; "City"])
                          None None None None None None))
  = "hero_city".
Proof. reflexivity. Qed.

(** ** Entries without prompt text *)

Lemma build_skips a output_dir item σ :
  truthy_str (p_text_of item) = false →
  build a output_dir item σ = (Ok None, σ).
Proof. intros H. unfold build. by rewrite H. Qed.

(** C6, as stated: a manifest whose one entry has no prompt text is
    processed to an empty queue, and no line of the run is a warning: the
    script prints that it loads the model and that it found no prompt. *)
Lemma skip_warning_counterexample :
  truthy_str (p_text_of (entry_of (Some "a") None)) = false
  ∧ fst (build_queue args0 "/proj/backgrounds" (project untitled_doc true))
    = Ok (Some [])
  ∧ stdout (snd (main args0 (project untitled_doc true)))
    = [Loading_model "Tongyi-MAI/Z-Image-Turbo"; Found_prompts 0].
Proof. vm_compute. done. Qed.

(** C6, amended. An entry whose prompt text resolves to nothing is skipped
    without a word: nothing is printed, the world is as it was, and the
    queue built from the manifest is the queue built from the manifest
    without that entry. *)
Theorem skip_entry_without_prompt a output_dir item pre post queue σ :
  truthy_str (p_text_of item) = false →
  build a output_dir item σ = (Ok None, σ)
  ∧ for_items a output_dir (pre ++ item :: post) queue σ
    = for_items a output_dir (pre ++ post) queue σ.
Proof.
  intros H. split; [by apply build_skips|].
  revert queue σ. induction pre as [|x pre IH]; intros queue σ; simpl.
  - unfold bind. by rewrite build_skips.
  - unfold bind. destruct (build a output_dir x σ) as [[[p|]|e] σ1]; auto.
Qed.

Lemma skip_entry_without_prompt_witness :
  truthy_str (p_text_of (entry_of (Some "nope") None)) = false
  ∧ for_items args0 "/proj/backgrounds" tenants [] world0
    = for_items args0 "/proj/backgrounds"
        [entry_of (Some "tenant_student") (Some "Tenant Student");
         entry_of (Some "ten") None] [] world0.
Proof.
  split; [reflexivity|].
  apply (skip_entry_without_prompt args0 "/proj/backgrounds"
           (entry_of (Some "nope") None)
           [entry_of (Some "tenant_student") (Some "Tenant Student")]
           [entry_of (Some "ten") None] [] world0).
  reflexivity.
Defined.

(** ** What the statements keep *)

Section preserves.

Context (R : relation world) (R_refl : ∀ σ, R σ σ)
  (R_trans : ∀ σ1 σ2 σ3, R σ1 σ2 → R σ2 σ3 → R σ1 σ3).

Lemma preserves_ret {A} (a : A) : preserves R (ret a).
Proof. intros σ. apply R_refl. Qed.

Lemma preserves_raise {A} e : preserves R (@raise A e).
Proof. intros σ. apply R_refl. Qed.

Lemma preserves_read {A} (f : world → outcome A) : preserves R (λ σ, (f σ, σ)).
Proof. intros σ. apply R_refl. Qed.

Lemma preserves_bind {A B} (m : M A) (k : A → M B) :
  preserves R m → (∀ a, preserves R (k a)) → preserves R (bind m k).
Proof.
  intros Hm Hk σ. unfold bind. specialize (Hm σ).
  destruct (m σ) as [[a|e] σ1]; simpl in *; [|done].
  eapply R_trans; [exact Hm|apply Hk].
Qed.

Lemma preserves_when b (m : M unit) : preserves R m → preserves R (when b m).
Proof. intros Hm. destruct b; [done|]. apply preserves_ret. Qed.

Lemma preserves_try {A} (m : M A) :
  preserves R m → preserves R (try_except_FileNotFoundError m).
Proof.
  intros Hm σ. unfold try_except_FileNotFoundError. specialize (Hm σ).
  destruct (m σ) as [[a|e] σ1]; simpl in *; [done|]. by destruct e.
Qed.

Lemma preserves_read_file p : preserves R (read_file p).
Proof. intros σ. unfold read_file. by repeat case_match. Qed.

Lemma preserves_listdir d : preserves R (os.listdir d).
Proof. intros σ. unfold os.listdir. by repeat case_match. Qed.

Lemma preserves_load f : preserves R (json.load f).
Proof. unfold json.load. case_match; by intros σ. Qed.

Lemma preserves_mkdir_exist_ok name exist_ok :
  preserves R (os.mkdir name) → preserves R (os.mkdir_exist_ok name exist_ok).
Proof.
  intros H σ. unfold os.mkdir_exist_ok. specialize (H σ).
  destruct (os.mkdir name σ) as [[[]|e] σ1]; simpl in *; [done|].
  by case_match.
Qed.

Lemma preserves_makedirs_go n name exist_ok :
  (∀ p, preserves R (os.mkdir p)) →
  preserves R (os.makedirs_go n name exist_ok).
Proof.
  intros H. revert name. induction n as [|n IH]; intros name σ; simpl;
    destruct (os.head_tail name) as [head tail];
    unfold bind, os.path.exists_;
    match goal with
    | |- context [if ?b then _ else _] => destruct b
    end; try (by apply preserves_mkdir_exist_ok).
  pose proof (IH head σ) as H1.
  destruct (os.makedirs_go n head exist_ok σ) as [[[]|e] σ1]; simpl in *.
  - case_bool_decide; [done|].
    eapply R_trans; [done|by apply preserves_mkdir_exist_ok].
  - destruct e; simpl; auto.
    case_bool_decide; [done|].
    eapply R_trans; [done|by apply preserves_mkdir_exist_ok].
Qed.

End preserves.

(** ** Worlds that grow *)

Lemma grows_refl σ : grows σ σ.
Proof.
  split; try done.
  - intros p l H. by exists l.
  - exists []. by rewrite app_nil_r.
Qed.

Lemma grows_trans σ1 σ2 σ3 : grows σ1 σ2 → grows σ2 σ3 → grows σ1 σ3.
Proof.
  intros [Hc1 Hs1 Hf1 Hd1 [o1 Ho1]] [Hc2 Hs2 Hf2 Hd2 [o2 Ho2]]. split.
  - congruence.
  - congruence.
  - auto.
  - intros p l H. destruct (Hd1 p l H) as (l1 & H1 & S1).
    destruct (Hd2 p _ H1) as (l2 & H2 & S2). exists l2. split; [done|auto].
  - exists (o1 ++ o2). by rewrite Ho2, Ho1, app_assoc.
Qed.

Lemma grows_print σ l : grows σ (with_stdout (stdout σ ++ [l]) σ).
Proof.
  split; simpl; try done; [|by eexists].
  intros p ns H. by exists ns.
Qed.

(** A name entered in the listing of a directory, and perhaps a new
    directory or a file written. *)
Lemma grows_enter σ d t names ds fs :
  dirs σ !! d = Some names →
  (∀ p l, dirs σ !! p = Some l → p ≠ d → ds !! p = Some l) →
  ds !! d = Some (os.add_name t names) →
  (∀ p, is_Some (files σ !! p) → is_Some (fs !! p)) →
  grows σ (with_fs ds fs σ).
Proof.
  intros Hd Hds Hdd Hfs. split; simpl; try done.
  - intros p l H. destruct (decide (p = d)) as [->|Hne].
    + rewrite Hd in H. injection H as <-. rewrite Hdd.
      eexists. split; [done|]. intros x Hx. by apply add_name_mono.
    + exists l. split; [by apply Hds|done].
  - exists []. by rewrite app_nil_r.
Qed.

Lemma grows_mkdir p σ : grows σ (snd (os.mkdir p σ)).
Proof.
  unfold os.mkdir.
  destruct (bool_decide (is_Some (dirs σ !! p))) eqn:Hp; simpl;
    [apply grows_refl|].
  destruct (bool_decide (is_Some (files σ !! p))); simpl; [apply grows_refl|].
  apply bool_decide_eq_false in Hp.
  destruct (dirs σ !! os.parent σ p) as [names|] eqn:Hn.
  - simpl. apply (grows_enter σ (os.parent σ p) (snd (os.path.split p)) names);
      [done| | |done].
    + intros q l Hq Hne. rewrite lookup_insert_ne.
      * by rewrite lookup_insert_ne.
      * intros <-. apply Hp. by rewrite Hq.
    + rewrite lookup_insert_ne; [apply lookup_insert_eq|].
      intros E. apply Hp. rewrite E, Hn. eauto.
  - destruct (files σ !! os.parent σ p); apply grows_refl.
Qed.

Lemma grows_write p f σ : grows σ (snd (write_file p f σ)).
Proof.
  unfold write_file. destruct (dirs σ !! p); [apply grows_refl|].
  destruct (dirs σ !! os.parent σ p) as [names|] eqn:Hn;
    [|destruct (files σ !! os.parent σ p); apply grows_refl].
  simpl. apply (grows_enter σ (os.parent σ p) (os.path.basename p) names);
    [done| | |].
  - intros q l Hq Hne. by rewrite lookup_insert_ne.
  - apply lookup_insert_eq.
  - intros q Hq. destruct (decide (q = p)) as [->|Hne].
    + rewrite lookup_insert_eq. eauto.
    + by rewrite lookup_insert_ne.
Qed.

Lemma grows_makedirs name exist_ok σ : grows σ (snd (os.makedirs name exist_ok σ)).
Proof.
  apply (preserves_makedirs_go grows grows_trans). intros p σ'.
  apply grows_mkdir.
Qed.

(** ** What the reconciler keeps *)

Lemma reconciler_keeps_refl σ : reconciler_keeps σ σ.
Proof. split; [apply grows_refl|]. split; [done|]. intros p f H. eauto. Qed.

Lemma reconciler_keeps_trans σ1 σ2 σ3 :
  reconciler_keeps σ1 σ2 → reconciler_keeps σ2 σ3 → reconciler_keeps σ1 σ3.
Proof.
  intros (G1 & (Q1 & Q2 & Q3 & Q4) & C1) (G2 & (Q1' & Q2' & Q3' & Q4') & C2).
  split; [by eapply grows_trans|]. split.
  - repeat split; congruence.
  - intros p f H. destruct (C2 p f H) as [q Hq]. eauto.
Qed.

Lemma reconciler_keeps_print l : preserves reconciler_keeps (print l).
Proof.
  intros σ. split; [apply grows_print|]. split; [done|]. intros p f H. eauto.
Qed.

Lemma reconciler_keeps_makedirs name exist_ok :
  preserves reconciler_keeps (os.makedirs name exist_ok).
Proof.
  intros σ. split; [apply grows_makedirs|].
  pose proof (makedirs_only_dirs name exist_ok σ) as H. red in H.
  rewrite H. split; [done|]. intros p f Hf. simpl in Hf. eauto.
Qed.

Lemma reconciler_keeps_copy2 src dst : preserves reconciler_keeps (shutil.copy2 src dst).
Proof.
  intros σ. unfold shutil.copy2, bind, os.path.isdir, read_file, raise.
  set (dst' := if bool_decide (is_Some (dirs σ !! dst)) then _ else _).
  destruct (files σ !! src) as [f|] eqn:Hf.
  2:{ destruct (dirs σ !! src); apply reconciler_keeps_refl. }
  case_bool_decide; [apply reconciler_keeps_refl|].
  split; [apply grows_write|]. unfold write_file.
  destruct (dirs σ !! dst'); [apply reconciler_keeps_refl|].
  destruct (dirs σ !! os.parent σ dst');
    [|destruct (files σ !! os.parent σ dst'); apply reconciler_keeps_refl].
  simpl. split; [done|]. intros p g Hg. simpl in Hg.
  destruct (decide (p = dst')) as [->|Hne].
  - rewrite lookup_insert_eq in Hg. injection Hg as <-. eauto.
  - rewrite lookup_insert_ne in Hg by done. eauto.
Qed.

Lemma reconciler_keeps_for_prompts source_dir target_dir names prompts n :
  preserves reconciler_keeps (for_prompts source_dir target_dir names prompts n).
Proof.
  revert n. induction prompts as [|prompt rest IH]; intros n; simpl.
  - apply preserves_ret, reconciler_keeps_refl.
  - apply preserves_bind; [apply reconciler_keeps_trans| |].
    + unfold getitem_id. repeat case_match;
        (apply preserves_ret || apply preserves_raise); apply reconciler_keeps_refl.
    + intros img_id. destruct (candidates names img_id) as [|c l].
      * apply preserves_bind;
          [apply reconciler_keeps_trans|apply reconciler_keeps_print|auto].
      * apply preserves_bind;
          [apply reconciler_keeps_trans|apply reconciler_keeps_copy2|intros _].
        apply preserves_bind;
          [apply reconciler_keeps_trans|apply reconciler_keeps_print|auto].
Qed.

Ltac keep_reconciler :=
  repeat first
    [ apply reconciler_keeps_refl
    | apply reconciler_keeps_print
    | apply reconciler_keeps_makedirs
    | apply reconciler_keeps_copy2
    | apply reconciler_keeps_for_prompts
    | apply preserves_read_file
    | apply preserves_listdir
    | apply preserves_load
    | apply preserves_ret
    | apply preserves_raise
    | apply preserves_read
    | apply preserves_when
    | apply preserves_try
    | apply preserves_bind; [apply reconciler_keeps_trans| |intros ?] ].

(** X1. However a run of the reconciler ends, it has deleted nothing and
    made up nothing: the working directory, the clock and the random
    generator are as they were; every regular file is still a regular
    file, every directory still a directory that lists every name it
    listed; what was printed is still there; and every regular file holds
    what some regular file held before the run. *)
Theorem organize_assets_keeps (σ : world) :
  let σ' := snd (organize_assets σ) in
  grows σ σ' ∧ quiet σ σ' ∧ copies_only σ σ'.
Proof.
  revert σ. change (preserves reconciler_keeps organize_assets).
  unfold organize_assets, create_target_directory, os.getcwd, os.path.exists_.
  keep_reconciler.
  - unfold data_get_image_prompts. case_match; keep_reconciler.
  - case_match; keep_reconciler.
    unfold iterate. repeat case_match; keep_reconciler.
Qed.

(** ** The reconciler after its manifest is loaded *)

(** The run from the listing on, once the manifest has given an object. *)
Lemma organize_assets_loaded σ σ0 f image_prompts :
  create_target_directory (target_dir_of (cwd σ)) σ = (Ok tt, σ0) →
  files σ0 !! json_path_of (cwd σ) = Some f →
  data f = Json (JObject image_prompts) →
  organize_assets σ
  = (let* files := os.listdir (source_dir_of (cwd σ)) in
     print (Found_files (length files)) ;;;
     let* elements := iterate (default (Entries []) image_prompts) in
     let* moved_count :=
       for_prompts (source_dir_of (cwd σ)) (target_dir_of (cwd σ)) files
         elements 0 in
     print (Successfully_organized moved_count)) σ0.
Proof.
  intros Hc Hf Hj.
  unfold organize_assets at 1, bind at 1 2, os.getcwd. simpl. rewrite Hc.
  unfold bind at 1, try_except_FileNotFoundError, bind at 1, read_file.
  rewrite Hf. unfold bind at 1, json.load. rewrite Hj. reflexivity.
Qed.

(** X2. The handler of the reconciler covers the manifest only.  With the
    manifest loaded and no staging directory, the run ends in the
    [FileNotFoundError] of [os.listdir] (in [NotADirectoryError] when a
    regular file stands at its path): nothing is printed after the
    directory was made, and nothing is copied. *)
Theorem staging_missing σ σ0 f image_prompts :
  create_target_directory (target_dir_of (cwd σ)) σ = (Ok tt, σ0) →
  files σ0 !! json_path_of (cwd σ) = Some f →
  data f = Json (JObject image_prompts) →
  dirs σ0 !! source_dir_of (cwd σ) = None →
  organize_assets σ
  = (Raise (if bool_decide (is_Some (files σ0 !! source_dir_of (cwd σ)))
            then NotADirectoryError (source_dir_of (cwd σ))
            else FileNotFoundError (source_dir_of (cwd σ))), σ0).
Proof.
  intros Hc Hf Hj Hd. rewrite (organize_assets_loaded σ σ0 f image_prompts) by done.
  unfold bind at 1, os.listdir. rewrite Hd.
  by destruct (files σ0 !! source_dir_of (cwd σ)).
Qed.

Lemma staging_missing_witness :
  create_target_directory (target_dir_of (cwd (unstaged tenants_doc)))
    (unstaged tenants_doc)
  = (Ok tt, unstaged tenants_doc)
  ∧ dirs (unstaged tenants_doc) !! source_dir_of (cwd (unstaged tenants_doc)) = None
  ∧ organize_assets (unstaged tenants_doc)
    = (Raise (FileNotFoundError "/proj/backgrounds"), unstaged tenants_doc).
Proof.
  split; [reflexivity|]. split; [reflexivity|].
  rewrite (staging_missing (unstaged tenants_doc) (unstaged tenants_doc)
             {| data := tenants_doc; mtime := t0 |} (Some (Entries tenants)));
    reflexivity.
Defined.

(** X3. An [image_prompts] that is not a list stops the reconciler after it
    has counted the staged files: a number, a boolean or [null] cannot be
    iterated, and the characters of a string have no ["id"]; both end in a
    [TypeError], with nothing copied.  Only the empty string passes, as an
    empty list would.  The job builder takes each of these values for an
    empty list. *)
Theorem image_prompts_not_a_list σ σ0 f v names :
  create_target_directory (target_dir_of (cwd σ)) σ = (Ok tt, σ0) →
  files σ0 !! json_path_of (cwd σ) = Some f →
  data f = Json (JObject (Some (NotAList v))) →
  dirs σ0 !! source_dir_of (cwd σ) = Some names →
  let σ1 := with_stdout (stdout σ0 ++ [Found_files (length names)]) σ0 in
  organize_assets σ
  = match v with
    | JStr EmptyString =>
        (Ok tt, with_stdout (stdout σ1 ++ [Successfully_organized 0]) σ1)
    | _ => (Raise TypeError, σ1)
    end
  ∧ items_of (JObject (Some (NotAList v))) = [].
Proof.
  intros Hc Hf Hj Hd σ1. split; [|done].
  rewrite (organize_assets_loaded σ σ0 f (Some (NotAList v))) by done.
  unfold bind at 1, os.listdir. rewrite Hd.
  unfold bind at 1, print at 1. fold σ1. simpl.
  destruct v as [|b|z|x|[|c s]]; try reflexivity.
Qed.

Lemma image_prompts_not_a_list_witness :
  create_target_directory (target_dir_of (cwd (project text_doc true)))
    (project text_doc true)
  = (Ok tt, project text_doc true)
  ∧ organize_assets (project text_doc true)
    = (Raise TypeError, with_stdout [Found_files 3] (project text_doc true)).
Proof.
  split; [reflexivity|].
  destruct (image_prompts_not_a_list (project text_doc true) (project text_doc true)
              {| data := text_doc; mtime := t0 |} (JStr "tenants") staged)
    as [H _]; [reflexivity..|].
  exact H.
Defined.

(** ** Matching by prefix *)

Lemma prefix_trans a b c :
  String.prefix a b = true → String.prefix b c = true → String.prefix a c = true.
Proof.
  revert b c. induction a as [|x a IH]; intros [|y b] [|z c]; simpl; try done.
  destruct (ascii_dec x y) as [->|]; [|done].
  destruct (ascii_dec y z) as [->|]; [|done].
  apply IH.
Qed.

Lemma prefix_nil s : String.prefix EmptyString s = true.
Proof. by destruct s. Qed.

(** X4. The reconciler matches by prefix alone.  An identifier that begins
    another identifier has all the candidates of the other: the candidates
    of the longer one are those of the shorter one that start with the
    longer one, so that the shorter one has a candidate whenever the longer
    one has, and both take the same file when the first candidate of the
    shorter one starts with the longer one.  The empty identifier has
    every listed file for a candidate. *)
Theorem prefix_shadowing (names : list string) (i1 i2 : string) :
  str.startswith i2 i1 = true →
  candidates names i2
  = List.filter (λ filename, str.startswith filename i2) (candidates names i1)
  ∧ (has_candidate names i2 = true → has_candidate names i1 = true)
  ∧ (∀ c l, candidates names i1 = c :: l → str.startswith c i2 = true →
            ∃ l', candidates names i2 = c :: l')
  ∧ candidates names EmptyString = names.
Proof.
  unfold str.startswith. intros H12.
  assert (E : candidates names i2
              = List.filter (λ filename, str.startswith filename i2)
                  (candidates names i1)).
  { unfold candidates, str.startswith.
    induction names as [|n names IH]; [done|]. simpl.
    destruct (String.prefix i2 n) eqn:H2.
    - rewrite (prefix_trans _ _ _ H12 H2). simpl. rewrite H2. by rewrite IH.
    - destruct (String.prefix i1 n); simpl; [by rewrite H2|done]. }
  split; [exact E|]. split; [|split].
  - unfold has_candidate. rewrite E.
    by destruct (candidates names i1).
  - intros c l Hc H2. rewrite E, Hc. simpl.
    unfold str.startswith. rewrite H2. eauto.
  - clear E. unfold candidates, str.startswith.
    induction names as [|n names IH]; [done|]. simpl.
    by rewrite prefix_nil, IH.
Qed.

Lemma prefix_shadowing_witness :
  str.startswith "tenant_student" "ten" = true
  ∧ candidates staged "tenant_student"
    = ["tenant_student_tenant_student_512x512_20240101-0000.png"]
  ∧ candidates staged "ten"
    = ["tenant_student_tenant_student_512x512_20240101-0000.png"; "tenant_b.png"].
Proof.
  split; [reflexivity|].
  destruct (prefix_shadowing staged "ten" "tenant_student") as (H & _);
    [reflexivity|].
  split; [rewrite H|]; reflexivity.
Defined.

(** ** Identifiers without candidate *)

Lemma for_prompts_no_candidates source_dir target_dir names prompts ids n σ :
  entry.id <$> prompts = Some <$> ids →
  Forall (λ i, has_candidate names i = false) ids →
  for_prompts source_dir target_dir names (Obj <$> prompts) n σ
  = (Ok n, with_stdout (stdout σ ++ (WARNING_no_file_found <$> ids)) σ).
Proof.
  revert ids σ. induction prompts as [|e prompts IH]; intros ids σ Hids Hno.
  - destruct ids; [|done]. simpl. unfold ret. by rewrite with_stdout_nil.
  - destruct ids as [|i ids]; [done|]. simpl in Hids. injection Hids as Hi Hids.
    apply Forall_cons in Hno as [Hc Hno]. unfold has_candidate in Hc.
    rewrite fmap_cons, (for_prompts_cons _ _ _ e i) by done.
    destruct (candidates names i) as [|c l]; [|done].
    rewrite (IH ids) by done. simpl. by rewrite <- app_assoc.
Qed.

(** X5. The run on a manifest object whose entries all carry an
    identifier, when the staging directory is there and no identifier has a
    candidate among the names it lists, as when it is empty.  The
    reconciler first makes the asset store, and says so, when it is
    missing; [σ0] is the world from then on.  It then prints the number of
    staged files, one warning for each identifier in the order of the
    manifest, and that it organized 0 assets, and ends in [σ0] with these
    lines added.  So once the store is made the run changes no file and no
    directory; [σ0] itself differs from the world of the start in its
    directories and its output at most, so that no regular file is made or
    changed by the run; and when the store was there, [σ0] is the world of
    the start, and the run changes nothing but the output. *)
Theorem nothing_staged σ σ0 f image_prompts prompts ids names :
  create_target_directory (target_dir_of (cwd σ)) σ = (Ok tt, σ0) →
  files σ0 !! json_path_of (cwd σ) = Some f →
  data f = Json (JObject image_prompts) →
  default (Entries []) image_prompts = Entries prompts →
  entry.id <$> prompts = Some <$> ids →
  dirs σ0 !! source_dir_of (cwd σ) = Some names →
  Forall (λ i, has_candidate names i = false) ids →
  organize_assets σ
  = (Ok tt,
     with_stdout
       (stdout σ0 ++ [Found_files (length names)]
        ++ (WARNING_no_file_found <$> ids) ++ [Successfully_organized 0]) σ0)
  ∧ same_files σ σ0
  ∧ (is_Some (dirs σ !! target_dir_of (cwd σ)) → σ0 = σ)
  ∧ Forall (λ i, has_candidate [] i = false) ids.
Proof.
  intros Hc Hf Hj Hp Hids Hl Hno.
  split; [|split; [|split; [|by apply Forall_forall]]].
  - rewrite (organize_assets_loop σ σ0 f image_prompts prompts names) by done.
    rewrite (for_prompts_no_candidates _ _ _ _ ids) by done.
    simpl. by rewrite <- !app_assoc.
  - pose proof (create_target_directory_same_files (target_dir_of (cwd σ)) σ) as Hs.
    by rewrite Hc in Hs.
  - intros Ht. rewrite create_target_directory_there in Hc by done.
    by injection Hc.
Qed.

Lemma nothing_staged_witness :
  create_target_directory (target_dir_of (cwd (studio tenants_doc)))
    (studio tenants_doc)
  = (Ok tt, studio tenants_doc)
  ∧ Forall (λ i, has_candidate [] i = false) tenant_ids
  ∧ organize_assets (studio tenants_doc)
    = (Ok tt,
       with_stdout
         [Found_files 0; WARNING_no_file_found "tenant_student";
          WARNING_no_file_found "nope"; WARNING_no_file_found "ten";
          Successfully_organized 0]
         (studio tenants_doc)).
Proof.
  assert (H : Forall (λ i, has_candidate [] i = false) tenant_ids)
    by (repeat constructor).
  split; [reflexivity|]. split; [exact H|].
  destruct (nothing_staged (studio tenants_doc) (studio tenants_doc)
              {| data := tenants_doc; mtime := t0 |} (Some (Entries tenants))
              tenants tenant_ids []) as [R _]; [reflexivity..|exact H|].
  exact R.
Defined.

(** ** The first run in a project *)

Lemma sep_of_plain a : ends_plain a → sep_of a = "/".
Proof.
  intros (t & c & -> & Hc). unfold sep_of.
  rewrite endswith_char_last, (bool_decide_eq_false_2 (c = _)) by done.
  rewrite bool_decide_eq_false_2; [done|]. by destruct t.
Qed.

(** Making a directory in a directory that is there. *)
Lemma mkdir_in d m names σ :
  ends_plain d → m ≠ EmptyString → plain m = true →
  dirs σ !! d = Some names →
  dirs σ !! (d +:+ "/" +:+ m) = None →
  files σ !! (d +:+ "/" +:+ m) = None →
  os.makedirs_go (String.length (d +:+ "/" +:+ m)) (d +:+ "/" +:+ m) false σ
  = (Ok tt,
     with_fs (<[d +:+ "/" +:+ m := []]> (<[d := os.add_name m names]> (dirs σ)))
       (files σ) σ).
Proof.
  intros Hd Hne Hm Hn Hx Hf.
  assert (Hs : os.path.split (d +:+ "/" +:+ m) = (d, m)) by by apply split_join.
  rewrite makedirs_go_parent_there.
  2:{ unfold os.head_tail. rewrite Hs. destruct m; [done|]. simpl. rewrite Hn. eauto. }
  unfold os.mkdir_exist_ok, os.mkdir. rewrite Hx, Hf. simpl.
  rewrite (parent_join σ d m) by done. rewrite Hn, Hs. reflexivity.
Qed.

Lemma makedirs_go_S n name exist_ok σ :
  os.makedirs_go (S n) name exist_ok σ
  = if negb (bool_decide (fst (os.head_tail name) = EmptyString))
       && negb (bool_decide (snd (os.head_tail name) = EmptyString))
       && negb (bool_decide (is_Some (dirs σ !! fst (os.head_tail name)))
                || bool_decide (is_Some (files σ !! fst (os.head_tail name))))
    then match os.makedirs_go n (fst (os.head_tail name)) exist_ok σ with
         | (Raise (FileExistsError _), σ1) | (Ok _, σ1) =>
             if bool_decide (snd (os.head_tail name) = ".") then (Ok tt, σ1)
             else os.mkdir_exist_ok name exist_ok σ1
         | (Raise e, σ1) => (Raise e, σ1)
         end
    else os.mkdir_exist_ok name exist_ok σ.
Proof.
  simpl. destruct (os.head_tail name) as [head tail].
  unfold bind, os.path.exists_. simpl.
  by destruct (negb (bool_decide (head = EmptyString))
               && negb (bool_decide (tail = EmptyString))
               && negb (bool_decide (is_Some (dirs σ !! head))
                        || bool_decide (is_Some (files σ !! head)))).
Qed.

(** Making a directory and its parent in a directory that is there. *)
Lemma makedirs_two d m t names σ :
  ends_plain d → m ≠ EmptyString → plain m = true →
  ends_plain (d +:+ "/" +:+ m) →
  t ≠ EmptyString → plain t = true → t ≠ "." →
  dirs σ !! d = Some names →
  dirs σ !! (d +:+ "/" +:+ m) = None →
  files σ !! (d +:+ "/" +:+ m) = None →
  dirs σ !! ((d +:+ "/" +:+ m) +:+ "/" +:+ t) = None →
  files σ !! ((d +:+ "/" +:+ m) +:+ "/" +:+ t) = None →
  os.makedirs ((d +:+ "/" +:+ m) +:+ "/" +:+ t) false σ
  = (Ok tt,
     with_fs (<[(d +:+ "/" +:+ m) +:+ "/" +:+ t := []]>
                (<[d +:+ "/" +:+ m := [t]]>
                   (<[d := os.add_name m names]> (dirs σ))))
       (files σ) σ).
Proof.
  intros Hd Hm Hpm Hdm Ht Hpt Hdot Hn Hx1 Hf1 Hx2 Hf2.
  set (a := d +:+ "/" +:+ m) in *. set (name := a +:+ "/" +:+ t).
  assert (Hs : os.path.split name = (a, t)) by by apply split_join.
  assert (Hht : os.head_tail name = (a, t)).
  { unfold os.head_tail. rewrite Hs. by destruct t. }
  assert (Hlen : String.length name = S (String.length a + String.length t)).
  { unfold name. rewrite !str_length_app. simpl. lia. }
  assert (Ha : a ≠ EmptyString).
  { destruct Hdm as (x & c & -> & _). by destruct x. }
  unfold os.makedirs. rewrite Hlen, makedirs_go_S, Hht. simpl.
  rewrite Hx1, Hf1. rewrite !bool_decide_eq_false_2 by (done || apply is_Some_None).
  simpl.
  rewrite (makedirs_go_fuel _ (String.length a)) by lia.
  unfold a at 1 2. rewrite (mkdir_in d m names σ) by done. fold a.
  set (σ1 := with_fs _ _ σ).
  assert (Hne : name ≠ a).
  { unfold name. rewrite <- (str_app_nil_r a) at 2.
    intros E. apply (inj (String.app _)) in E. discriminate E. }
  assert (Hnd : name ≠ d).
  { intros E. apply (f_equal String.length) in E. rewrite Hlen in E.
    unfold a in E. rewrite !str_length_app in E. lia. }
  rewrite <- (makedirs_go_parent_there (String.length name)).
  2:{ rewrite Hht. simpl. rewrite lookup_insert_eq. eauto. }
  unfold name at 1 2. rewrite (mkdir_in a t [] σ1); try done.
  - unfold σ1. simpl. rewrite insert_insert_eq. reflexivity.
  - simpl. apply lookup_insert_eq.
  - simpl. rewrite !lookup_insert_ne; done.
Qed.

(** X6. Run in a project directory that has no [assets] yet, the
    reconciler makes [assets] and [assets/textures], says so, finds no
    manifest, says so, and returns: the two directories are what it leaves. *)
Theorem fresh_project σ listing :
  ends_plain (cwd σ) →
  dirs σ !! cwd σ = Some listing →
  absent σ (os.path.join (cwd σ) "assets") →
  absent σ (target_dir_of (cwd σ)) →
  absent σ (json_path_of (cwd σ)) →
  organize_assets σ
  = (Ok tt,
     with_stdout
       (stdout σ ++ [Created_directory (target_dir_of (cwd σ));
                     Error_graphics_batch_not_found])
       (with_fs
          (<[target_dir_of (cwd σ) := []]>
             (<[os.path.join (cwd σ) "assets" := ["textures"]]>
                (<[cwd σ := os.add_name "assets" listing]> (dirs σ))))
          (files σ) σ)).
Proof.
  intros Hb Hl [Ha1 Ha2] [Ht1 Ht2] [Hj1 Hj2].
  pose proof (ends_plain_assets (cwd σ)) as Hpa.
  assert (Ej : json_path_of (cwd σ)
               = os.path.join (cwd σ) "assets" +:+ "/" +:+ "graphics_batch.json").
  { unfold json_path_of. by rewrite join_plain. }
  rewrite Ej in Hj1, Hj2. rewrite target_dir_join in *.
  assert (Ea : os.path.join (cwd σ) "assets" = cwd σ +:+ "/" +:+ "assets")
    by by apply join_plain.
  rewrite Ea in *.
  unfold organize_assets, bind at 1 2, os.getcwd. simpl.
  rewrite target_dir_join, Ea.
  unfold create_target_directory, bind at 1, os.path.exists_.
  rewrite Ht1, Ht2. simpl. unfold bind at 1.
  rewrite (makedirs_two (cwd σ) "assets" "textures" listing) by done.
  unfold print at 1. simpl.
  unfold bind at 1, try_except_FileNotFoundError, bind at 1, read_file.
  unfold json_path_of. rewrite Ea, join_plain by done. simpl.
  rewrite Hj2.
  assert (Hd : (<[(cwd σ +:+ "/" +:+ "assets") +:+ "/" +:+ "textures" := []]>
                  (<[cwd σ +:+ "/" +:+ "assets" := ["textures"]]>
                     (<[cwd σ := os.add_name "assets" listing]> (dirs σ))))
               !! ((cwd σ +:+ "/" +:+ "assets") +:+ "/" +:+ "graphics_batch.json")
               = None).
  { rewrite !lookup_insert_ne; [done| | |].
    - intros E. rewrite E in Hj1. congruence.
    - intros E. rewrite <- (str_app_nil_r (cwd σ +:+ "/" +:+ "assets")) in E at 1.
      apply (inj (String.app _)) in E. discriminate E.
    - intros E. apply (inj (String.app _)) in E. discriminate E. }
  rewrite Hd. unfold print. simpl. by rewrite <- app_assoc.
Qed.

Lemma fresh_project_witness :
  ends_plain (cwd world0)
  ∧ dirs world0 !! cwd world0 = Some []
  ∧ absent world0 "/proj/assets"
  ∧ organize_assets world0
    = (Ok tt,
       with_stdout
         [Created_directory "/proj/assets/textures"; Error_graphics_batch_not_found]
         (with_fs
            (<["/proj/assets/textures" := []]>
               (<["/proj/assets" := ["textures"]]>
                  (<["/proj" := ["assets"]]> (dirs world0))))
            (files world0) world0)).
Proof.
  assert (He : ends_plain (cwd world0)).
  { exists "/pro", "j"%char. by split. }
  assert (Ha : ∀ p, dirs world0 !! p = None → absent world0 p) by (by split).
  split; [exact He|]. split; [reflexivity|]. split; [by apply Ha|].
  apply (fresh_project world0 [] He); [reflexivity|by apply Ha..].
Defined.

(** ** The dispatch loop *)

(** One turn of the loop. *)
Lemma for_jobs_cons pipe a n i p rest σ :
  for_jobs pipe a n i (p :: rest) σ
  = match Image.save (image_for pipe p (rng σ 0%nat)) (job.output_path p)
            (generated n i p σ) with
    | (Ok _, σ1) =>
        for_jobs pipe a n (i + 1) rest
          (rested a n i
             (with_stdout (stdout σ1 ++ [Saved_to (job.output_path p)]) σ1))
    | (Raise e, σ1) => (Raise e, σ1)
    end.
Proof.
  cbn [for_jobs]. unfold bind at 1, print at 1.
  unfold bind at 1, normalize, bind at 1, when.
  set (w := (job.width p / 16 * 16)%Z). set (h := (job.height p / 16 * 16)%Z).
  assert (E : ∀ σ0,
    (if negb (job.width (job.set_size w h p) =? job.width p)%Z
        || negb (job.height (job.set_size w h p) =? job.height p)%Z
     then print (Warning_adjusted (job.width p) (job.height p)
                   (job.width (job.set_size w h p))
                   (job.height (job.set_size w h p)))
     else ret tt) σ0
    = (Ok tt, with_stdout
                (stdout σ0 ++ if (w =? job.width p)%Z && (h =? job.height p)%Z
                              then []
                              else [Warning_adjusted (job.width p) (job.height p) w h])
                σ0)).
  { intros σ0. simpl.
    destruct (w =? job.width p)%Z, (h =? job.height p)%Z; simpl;
      try reflexivity.
    unfold ret. by rewrite with_stdout_nil. }
  rewrite E. unfold ret at 1. unfold bind at 1.
  rewrite generate_image_run. simpl.
  unfold bind at 1.
  change (call_image pipe (job.prompt p) (job.negative_prompt p) w h
            (job.steps p) (job.cfg p)
            (if (job.seed p =? -1)%Z then (rng σ 0%nat `mod` 2 ^ 32)%Z
             else job.seed p))
    with (image_for pipe p (rng σ 0%nat)).
  match goal with
  | |- context [Image.save _ _ ?W] =>
      assert (W = generated n i p σ) as ->
  end.
  { unfold generated, lines_before, resolve. fold w h.
    destruct σ as [cw sd ds fs out ck rg ld sl], (job.seed p =? -1)%Z; simpl;
      unfold with_stdout, with_rng; simpl; by rewrite <- !app_assoc. }
  destruct (Image.save _ _ _) as [[[]|e] σ1]; [|done].
  unfold bind at 1, print at 1. unfold bind at 1, when, rested.
  destruct ((i <? n - 1)%Z && (0 <? args.DelaySeconds a)%Z); reflexivity.
Qed.

(** Saving an image changes the file system at most. *)
Lemma save_frame img path σ :
  let σ1 := snd (Image.save img path σ) in
  σ1 = with_fs (dirs σ1) (files σ1) σ.
Proof.
  unfold Image.save, write_file.
  destruct (dirs σ !! path); [by destruct σ|].
  destruct (dirs σ !! os.parent σ path); [by destruct σ|].
  destruct (files σ !! os.parent σ path); by destruct σ.
Qed.

Lemma generated_slept n i p σ : slept (generated n i p σ) = slept σ.
Proof. unfold generated. by destruct (job.seed p =? -1)%Z. Qed.

Lemma rested_slept a n i σ :
  slept (rested a n i σ)
  = slept σ ++ if (i <? n - 1)%Z && (0 <? args.DelaySeconds a)%Z
               then [args.DelaySeconds a] else [].
Proof.
  unfold rested. destruct ((i <? n - 1)%Z && (0 <? args.DelaySeconds a)%Z);
    [done|]. by rewrite app_nil_r.
Qed.

Lemma for_jobs_slept pipe a n i queue σ :
  n = (i + Z.of_nat (length queue))%Z →
  ∃ k : nat,
    slept (snd (for_jobs pipe a n i queue σ))
    = slept σ ++ replicate k (args.DelaySeconds a)
    ∧ k ≤ length queue - 1
    ∧ ((args.DelaySeconds a ≤ 0)%Z → k = 0)
    ∧ (fst (for_jobs pipe a n i queue σ) = Ok tt →
       (0 < args.DelaySeconds a)%Z → k = length queue - 1).
Proof.
  revert i σ. induction queue as [|p rest IH]; intros i σ Hn.
  - exists 0. simpl. by rewrite app_nil_r.
  - rewrite for_jobs_cons.
    pose proof (save_frame (image_for pipe p (rng σ 0%nat)) (job.output_path p)
                  (generated n i p σ)) as Hs.
    destruct (Image.save _ _ _) as [[[]|e] σ1]; simpl in Hs.
    + assert (Hsl : slept σ1 = slept σ) by (rewrite Hs; apply generated_slept).
      set (W := rested a n i
                  (with_stdout (stdout σ1 ++ [Saved_to (job.output_path p)]) σ1)).
      assert (HW : slept W
                   = slept σ ++ if (i <? n - 1)%Z && (0 <? args.DelaySeconds a)%Z
                                then [args.DelaySeconds a] else []).
      { unfold W. rewrite rested_slept. simpl. by rewrite Hsl. }
      destruct (IH (i + 1)%Z W) as (k & Hk & Hle & H0 & Hok).
      { simpl length in Hn. lia. }
      destruct (for_jobs pipe a n (i + 1) rest W) as [o σ2].
      cbn [fst snd] in *. rewrite Hk, HW, <- app_assoc. clear Hk HW.
      cbn [length] in Hn |- *.
      destruct (Z.ltb_spec i (n - 1)) as [Hi|Hi],
        (Z.ltb_spec 0 (args.DelaySeconds a)) as [Hd|Hd]; cbn [andb].
      * exists (S k). split; [done|].
        destruct rest as [|q rest]; cbn [length] in *; [lia|].
        split; [lia|]. split; [lia|]. intros H1 H2. specialize (Hok H1 H2). lia.
      * exists k. split; [done|]. split; [lia|]. split; [done|]. lia.
      * exists k. split; [done|]. destruct rest as [|q rest]; cbn [length] in *.
        -- split; [lia|]. split; [done|]. intros H1 H2. specialize (Hok H1 H2). lia.
        -- lia.
      * exists k. split; [done|]. split; [lia|]. split; [done|]. lia.
    + exists 0. cbn [fst snd replicate]. rewrite app_nil_r.
      split; [rewrite Hs; apply generated_slept|]. split; [lia|]. done.
Qed.

(** X7. The loop pauses between two jobs and nowhere else.  However a run
    of the loop ends, [time.sleep] has been called with [--DelaySeconds]
    and with nothing else, at most once less than there are jobs, and not
    at all when the delay is not positive; when the run comes to its end
    with a positive delay, it has been called once less than there are
    jobs: never after the last job. *)
Theorem sleeps_between_jobs pipe a queue σ :
  let r := for_jobs pipe a (Z.of_nat (length queue)) 0 queue σ in
  ∃ k : nat,
    slept (snd r) = slept σ ++ replicate k (args.DelaySeconds a)
    ∧ k ≤ length queue - 1
    ∧ ((args.DelaySeconds a ≤ 0)%Z → k = 0)
    ∧ (fst r = Ok tt → (0 < args.DelaySeconds a)%Z → k = length queue - 1).
Proof. apply for_jobs_slept. lia. Qed.

(** ** What the generator keeps *)

(** A step that leaves the file system alone and prints at most. *)
Lemma grows_frame σ σ' :
  cwd σ' = cwd σ → script_dir σ' = script_dir σ →
  files σ' = files σ → dirs σ' = dirs σ →
  (∃ out, stdout σ' = stdout σ ++ out) →
  grows σ σ'.
Proof.
  intros Hc Hs Hf Hd Ho. split; try done.
  - intros p. by rewrite Hf.
  - intros p l H. exists l. by rewrite Hd.
Qed.

Lemma generator_keeps_refl pipe σ : generator_keeps pipe σ σ.
Proof. split; [apply grows_refl|]. intros p f H. by left. Qed.

Lemma generator_keeps_trans pipe σ1 σ2 σ3 :
  generator_keeps pipe σ1 σ2 → generator_keeps pipe σ2 σ3 →
  generator_keeps pipe σ1 σ3.
Proof.
  intros [G1 I1] [G2 I2]. split; [by eapply grows_trans|].
  intros p f H. destruct (I2 p f H) as [H2|H2]; [by apply I1|by right].
Qed.

(** A step that leaves the file system alone keeps what the generator
    keeps. *)
Lemma generator_keeps_frame pipe σ σ' :
  cwd σ' = cwd σ → script_dir σ' = script_dir σ →
  files σ' = files σ → dirs σ' = dirs σ →
  (∃ out, stdout σ' = stdout σ ++ out) →
  generator_keeps pipe σ σ'.
Proof.
  intros Hc Hs Hf Hd Ho. split; [by apply grows_frame|].
  intros p f H. left. by rewrite <- Hf.
Qed.

Lemma generator_keeps_print pipe l : preserves (generator_keeps pipe) (print l).
Proof. intros σ. apply generator_keeps_frame; try done. by eexists. Qed.

Lemma generator_keeps_makedirs pipe name exist_ok :
  preserves (generator_keeps pipe) (os.makedirs name exist_ok).
Proof.
  intros σ. split; [apply grows_makedirs|].
  pose proof (makedirs_only_dirs name exist_ok σ) as H. red in H.
  rewrite H. intros p f Hf. by left.
Qed.

Lemma generator_keeps_now pipe : preserves (generator_keeps pipe) datetime_now.
Proof.
  intros σ. apply generator_keeps_frame; try done. exists []. simpl.
  by rewrite app_nil_r.
Qed.

Lemma generator_keeps_generated pipe n i p σ :
  generator_keeps pipe σ (generated n i p σ).
Proof.
  unfold generated.
  apply generator_keeps_frame; destruct (job.seed p =? -1)%Z; try done;
    by eexists.
Qed.

Lemma generator_keeps_rested pipe a n i σ :
  generator_keeps pipe σ (rested a n i σ).
Proof.
  unfold rested.
  destruct ((i <? n - 1)%Z && (0 <? args.DelaySeconds a)%Z);
    [|apply generator_keeps_refl].
  apply generator_keeps_frame; try done. exists []. simpl. by rewrite app_nil_r.
Qed.

Lemma image_for_generated pipe p r t :
  is_generated pipe {| data := Png (image_for pipe p r); mtime := t |}.
Proof.
  eexists. split; [done|]. split; [done|].
  split; simpl; apply Z.divide_factor_r.
Qed.

Lemma generator_keeps_save pipe p r σ :
  generator_keeps pipe σ
    (snd (Image.save (image_for pipe p r) (job.output_path p) σ)).
Proof.
  unfold Image.save. split; [apply grows_write|]. unfold write_file.
  destruct (dirs σ !! job.output_path p); [by left|].
  destruct (dirs σ !! os.parent σ (job.output_path p));
    [|destruct (files σ !! os.parent σ (job.output_path p)); by left].
  intros q f Hf. simpl in Hf.
  destruct (decide (q = job.output_path p)) as [->|Hne].
  - rewrite lookup_insert_eq in Hf. injection Hf as <-. right.
    apply image_for_generated.
  - rewrite lookup_insert_ne in Hf by done. by left.
Qed.

Lemma generator_keeps_for_jobs pipe a n i queue :
  preserves (generator_keeps pipe) (for_jobs pipe a n i queue).
Proof.
  revert i. induction queue as [|p rest IH]; intros i σ.
  - apply generator_keeps_refl.
  - rewrite for_jobs_cons.
    pose proof (generator_keeps_save pipe p (rng σ 0%nat) (generated n i p σ)) as Hs.
    pose proof (generator_keeps_generated pipe n i p σ) as Hg.
    destruct (Image.save _ _ _) as [[[]|e] σ1]; simpl in Hs.
    + eapply generator_keeps_trans; [|apply IH].
      eapply generator_keeps_trans; [exact Hg|].
      eapply generator_keeps_trans; [exact Hs|].
      eapply generator_keeps_trans; [|apply generator_keeps_rested].
      apply (generator_keeps_print pipe (Saved_to (job.output_path p)) σ1).
    + simpl. by eapply generator_keeps_trans.
Qed.

Lemma generator_keeps_for_items pipe a output_dir items queue :
  preserves (generator_keeps pipe) (for_items a output_dir items queue).
Proof.
  revert queue. induction items as [|item rest IH]; intros queue; simpl.
  - apply preserves_ret, generator_keeps_refl.
  - apply preserves_bind; [apply generator_keeps_trans| |].
    + unfold build. case_match; [apply preserves_ret, generator_keeps_refl|].
      apply preserves_bind;
        [apply generator_keeps_trans|apply generator_keeps_now|intros now].
      apply preserves_ret, generator_keeps_refl.
    + intros [q|]; apply IH.
Qed.

Ltac keep_generator :=
  repeat first
    [ apply generator_keeps_refl
    | apply generator_keeps_print
    | apply generator_keeps_makedirs
    | apply generator_keeps_for_items
    | apply generator_keeps_for_jobs
    | apply preserves_read_file
    | apply preserves_load
    | apply preserves_ret
    | apply preserves_raise
    | apply preserves_read
    | apply preserves_bind; [apply generator_keeps_trans| |intros ?] ].

(** Loading the model. *)
Lemma setup_pipeline_run model σ :
  setup_pipeline model σ
  = if loadable σ model
    then (Ok (Some {| model_id := model |}),
          with_stdout (stdout σ ++ [Loading_model model]) σ)
    else (Ok None,
          with_stdout (stdout σ ++ [Loading_model model; Error_loading_pipeline]) σ).
Proof.
  unfold setup_pipeline, bind, print. simpl.
  destruct (loadable σ model); [done|]. simpl. by rewrite <- app_assoc.
Qed.

(** X8. However a run of the generator ends, it has deleted nothing: the
    process is where it was, every regular file is still a regular file,
    every directory still a directory that lists every name it listed, and
    what was printed is still there.  Every regular file is as it was or is
    an image of the loaded model with a width and a height that are
    multiples of 16. *)
Theorem main_keeps (a : args.t) (σ : world) :
  let σ' := snd (main a σ) in
  grows σ σ' ∧ images_only {| model_id := args.Model a |} σ σ'.
Proof.
  change (generator_keeps {| model_id := args.Model a |} σ (snd (main a σ))).
  unfold main, bind at 1. rewrite setup_pipeline_run.
  destruct (loadable σ (args.Model a)).
  - eapply generator_keeps_trans;
      [apply (generator_keeps_print _ (Loading_model (args.Model a)) σ)|].
    unfold print at 1. cbn [snd].
    match goal with
    | |- generator_keeps ?pipe ?w (snd (?m ?w)) =>
        generalize w; change (preserves (generator_keeps pipe) m)
    end.
    unfold build_queue, os.path.exists_. keep_generator.
    + repeat first [progress keep_generator | case_match].
    + case_match; keep_generator.
  - apply generator_keeps_frame; try done. by eexists.
Qed.

(** ** A run of the dispatch loop *)

Lemma generated_frame n i p σ :
  cwd (generated n i p σ) = cwd σ ∧ dirs (generated n i p σ) = dirs σ
  ∧ files (generated n i p σ) = files σ ∧ clock (generated n i p σ) = clock σ.
Proof. unfold generated. by destruct (job.seed p =? -1)%Z. Qed.

Lemma parent_cwd σ σ' p : cwd σ' = cwd σ → os.parent σ' p = os.parent σ p.
Proof. intros H. unfold os.parent. by rewrite H. Qed.

(** A turn of the loop in a world where the image can be saved. *)
Lemma for_jobs_step pipe a n i p rest σ :
  writable σ (job.output_path p) →
  for_jobs pipe a n i (p :: rest) σ
  = for_jobs pipe a n (i + 1) rest (dispatched1 pipe a n i p σ).
Proof.
  intros [_ Hfree [names Hpar]]. rewrite for_jobs_cons.
  destruct (generated_frame n i p σ) as (Hc & Hd & Hf & Hk).
  unfold Image.save, write_file.
  rewrite (parent_cwd σ _ _ Hc), Hd, Hfree, Hpar, Hf, Hk.
  unfold dispatched1. by rewrite Hpar.
Qed.

Lemma rested_frame a n i σ :
  cwd (rested a n i σ) = cwd σ ∧ dirs (rested a n i σ) = dirs σ
  ∧ files (rested a n i σ) = files σ ∧ clock (rested a n i σ) = clock σ
  ∧ rng (rested a n i σ) = rng σ ∧ stdout (rested a n i σ) = stdout σ.
Proof.
  unfold rested. by destruct ((i <? n - 1)%Z && (0 <? args.DelaySeconds a)%Z).
Qed.

(** What a turn of the loop leaves. *)
Lemma dispatched1_fields pipe a n i p σ :
  let σ' := dispatched1 pipe a n i p σ in
  cwd σ' = cwd σ
  ∧ dirs σ'
    = <[os.parent σ (job.output_path p) :=
          os.add_name (os.path.basename (job.output_path p))
            (default [] (dirs σ !! os.parent σ (job.output_path p)))]> (dirs σ)
  ∧ files σ'
    = <[job.output_path p := saved_file pipe p (rng σ 0%nat) (clock σ 0%nat)]>
        (files σ)
  ∧ stdout σ'
    = stdout σ ++ lines_before n i p (rng σ 0%nat) ++ [Saved_to (job.output_path p)]
  ∧ clock σ' = clock σ
  ∧ rng σ' = next_rng p (rng σ).
Proof.
  unfold dispatched1, rested, generated, next_rng.
  destruct ((i <? n - 1)%Z && (0 <? args.DelaySeconds a)%Z),
    (job.seed p =? -1)%Z; simpl; by rewrite <- app_assoc.
Qed.

Lemma dispatched1_writable pipe a n i p σ path :
  writable σ (job.output_path p) → writable σ path →
  writable (dispatched1 pipe a n i p σ) path.
Proof.
  intros [_ _ [names Hn]] [Hpng Hfree [l Hl]].
  destruct (dispatched1_fields pipe a n i p σ) as (Hc & Hd & _).
  split; [done|..]; rewrite ?(parent_cwd σ _ _ Hc), Hd.
  - rewrite lookup_insert_ne; [done|]. intros E. rewrite E in Hn. congruence.
  - destruct (decide (os.parent σ (job.output_path p) = os.parent σ path))
      as [->|Hne].
    + rewrite lookup_insert_eq. eauto.
    + rewrite lookup_insert_ne by done. eauto.
Qed.

(** The loop in a world where every image can be saved. *)
Lemma for_jobs_run pipe a n i queue σ :
  Forall (λ p, writable σ (job.output_path p)) queue →
  for_jobs pipe a n i queue σ = (Ok tt, dispatched pipe a n i queue σ).
Proof.
  revert i σ. induction queue as [|p rest IH]; intros i σ Hw; [done|].
  apply Forall_cons in Hw as [Hp Hw].
  rewrite for_jobs_step by done. simpl. apply IH.
  eapply Forall_impl; [exact Hw|]. intros q Hq. by apply dispatched1_writable.
Qed.

Lemma dispatched_clock pipe a n i queue σ :
  clock (dispatched pipe a n i queue σ) = clock σ.
Proof.
  revert i σ. induction queue as [|p rest IH]; intros i σ; [done|].
  simpl. rewrite IH. apply dispatched1_fields.
Qed.

Lemma dispatched_cwd pipe a n i queue σ :
  cwd (dispatched pipe a n i queue σ) = cwd σ.
Proof.
  revert i σ. induction queue as [|p rest IH]; intros i σ; [done|].
  simpl. rewrite IH. apply dispatched1_fields.
Qed.

Lemma dispatched_rng pipe a n i queue σ k :
  rng (dispatched pipe a n i queue σ) k = rng σ (draws queue + k).
Proof.
  revert i σ. induction queue as [|p rest IH]; intros i σ; [done|].
  simpl. rewrite IH.
  destruct (dispatched1_fields pipe a n i p σ) as (_ & _ & _ & _ & _ & ->).
  unfold next_rng, draws. simpl. by destruct (job.seed p =? -1)%Z.
Qed.

Lemma dispatched_stdout pipe a n i queue σ :
  stdout (dispatched pipe a n i queue σ) = stdout σ ++ log_of n i queue (rng σ).
Proof.
  revert i σ. induction queue as [|p rest IH]; intros i σ.
  - simpl. by rewrite app_nil_r.
  - cbn [dispatched log_of]. rewrite IH.
    destruct (dispatched1_fields pipe a n i p σ) as (_ & _ & _ & -> & _ & ->).
    by rewrite <- !app_assoc.
Qed.

(** A path that is the output of no job keeps its file. *)
Lemma dispatched_other pipe a n i queue σ path :
  Forall (λ q, job.output_path q ≠ path) queue →
  files (dispatched pipe a n i queue σ) !! path = files σ !! path.
Proof.
  revert i σ. induction queue as [|p rest IH]; intros i σ H; [done|].
  apply Forall_cons in H as [Hp H]. simpl. rewrite IH by done.
  destruct (dispatched1_fields pipe a n i p σ) as (_ & _ & -> & _).
  by rewrite lookup_insert_ne.
Qed.

(** The output of a job holds its image, unless a later job has the same
    output. *)
Lemma dispatched_last pipe a n i pre p post σ :
  Forall (λ q, job.output_path q ≠ job.output_path p) post →
  files (dispatched pipe a n i (pre ++ p :: post) σ) !! job.output_path p
  = Some (saved_file pipe p (rng σ (draws pre)) (clock σ 0%nat)).
Proof.
  intros Hpost. revert i σ. induction pre as [|q pre IH]; intros i σ.
  - simpl. rewrite dispatched_other by done.
    destruct (dispatched1_fields pipe a n i p σ) as (_ & _ & -> & _).
    apply lookup_insert_eq.
  - simpl. rewrite IH.
    destruct (dispatched1_fields pipe a n i q σ) as (_ & _ & _ & _ & -> & ->).
    unfold next_rng, draws. simpl. by destruct (job.seed q =? -1)%Z.
Qed.

(** The directory that holds the output of a job lists it. *)
Lemma dispatched_listed pipe a n i queue σ p :
  Forall (λ q, writable σ (job.output_path q)) queue →
  p ∈ queue →
  ∃ names, dirs (dispatched pipe a n i queue σ) !! os.parent σ (job.output_path p)
           = Some names
           ∧ os.path.basename (job.output_path p) ∈ names.
Proof.
  revert i σ. induction queue as [|q rest IH]; intros i σ Hw Hin;
    [by apply elem_of_nil in Hin|].
  apply Forall_cons in Hw as [Hq Hw].
  assert (Hw1 : Forall (λ x, writable (dispatched1 pipe a n i q σ) (job.output_path x))
                  rest).
  { eapply Forall_impl; [exact Hw|]. intros x Hx. by apply dispatched1_writable. }
  destruct (dispatched1_fields pipe a n i q σ) as (Hc & Hd & _).
  simpl. apply elem_of_cons in Hin as [->|Hin].
  - pose proof (generator_keeps_for_jobs pipe a n (i + 1) rest
                  (dispatched1 pipe a n i q σ)) as [G _].
    rewrite for_jobs_run in G by done. simpl in G.
    destruct (grows_dirs _ _ G (os.parent σ (job.output_path q))
                (os.add_name (os.path.basename (job.output_path q))
                   (default [] (dirs σ !! os.parent σ (job.output_path q)))))
      as (names & Hm & Hsub).
    { rewrite Hd. apply lookup_insert_eq. }
    exists names. split; [exact Hm|]. apply Hsub, add_name_in.
  - destruct (IH (i + 1)%Z _ Hw1 Hin) as (names & Hn & Hb).
    rewrite (parent_cwd σ _ _ Hc) in Hn. eauto.
Qed.

(** The loop makes no directory. *)
Lemma dispatched_no_new_dir pipe a n i queue σ d :
  Forall (λ q, writable σ (job.output_path q)) queue →
  is_Some (dirs (dispatched pipe a n i queue σ) !! d) → is_Some (dirs σ !! d).
Proof.
  revert i σ. induction queue as [|q rest IH]; intros i σ Hw H; [done|].
  apply Forall_cons in Hw as [Hq Hw]. simpl in H. apply IH in H.
  2:{ eapply Forall_impl; [exact Hw|]. intros x Hx. by apply dispatched1_writable. }
  destruct (dispatched1_fields pipe a n i q σ) as (_ & Hd & _).
  rewrite Hd in H. destruct Hq as [_ _ Hpar].
  destruct (decide (os.parent σ (job.output_path q) = d)) as [<-|Hne]; [done|].
  by rewrite lookup_insert_ne in H.
Qed.

(** X9. The loop on jobs whose output paths are canonical (absolute, with
    no empty component and no component [.] or [..], so that two of them
    name one file only when they are equal), in a world where each image
    can be saved (the path of each job ends in [.png], no directory stands
    at it, and the directory that is to hold it is there).  The loop comes
    to its end.  The output of a job then holds the image of the job: made
    by the pipeline from the prompt, the negative prompt, the steps and the
    guidance scale of the job, with the width and the height rounded down
    to multiples of 16 and the seed of the job, drawn when it is [-1];
    where two jobs have the same output, it holds the image of the later
    one.  The directory of each output lists it, no directory is made, and
    the file at any other canonical path is as it was. *)
Theorem dispatch_run pipe a queue σ :
  Forall (λ p, canonical (job.output_path p) = true) queue →
  Forall (λ p, writable σ (job.output_path p)) queue →
  let σ' := dispatched pipe a (Z.of_nat (length queue)) 0 queue σ in
  for_jobs pipe a (Z.of_nat (length queue)) 0 queue σ = (Ok tt, σ')
  ∧ (∀ pre p post,
       queue = pre ++ p :: post →
       Forall (λ q, job.output_path q ≠ job.output_path p) post →
       files σ' !! job.output_path p
       = Some {| data :=
                   Png (call_image pipe (job.prompt p) (job.negative_prompt p)
                          (job.width p / 16 * 16) (job.height p / 16 * 16)
                          (job.steps p) (job.cfg p)
                          (if (job.seed p =? -1)%Z
                           then (rng σ (draws pre) `mod` 2 ^ 32)%Z
                           else job.seed p));
                 mtime := clock σ 0%nat |})
  ∧ (∀ path, canonical path = true →
             Forall (λ q, job.output_path q ≠ path) queue →
             files σ' !! path = files σ !! path)
  ∧ (∀ p, p ∈ queue →
          ∃ names, dirs σ' !! os.parent σ (job.output_path p) = Some names
                   ∧ os.path.basename (job.output_path p) ∈ names)
  ∧ (∀ d, is_Some (dirs σ' !! d) → is_Some (dirs σ !! d)).
Proof.
  intros _ Hw σ'. split; [by apply for_jobs_run|]. split; [|split; [|split]].
  - intros pre p post -> Hpost. unfold σ'. by rewrite dispatched_last.
  - intros path _ Hp. by apply dispatched_other.
  - intros p Hp. by apply dispatched_listed.
  - intros d. by apply dispatched_no_new_dir.
Qed.

Lemma dispatch_run_witness :
  Forall (λ p, writable world0_staging (job.output_path p)) cat_and_dog
  ∧ Forall (λ p, canonical (job.output_path p) = true) cat_and_dog
  ∧ for_jobs pipe0 no_mode 2 0 cat_and_dog world0_staging
    = (Ok tt, dispatched pipe0 no_mode 2 0 cat_and_dog world0_staging)
  ∧ files (dispatched pipe0 no_mode 2 0 cat_and_dog world0_staging)
      !! "/proj/backgrounds/dog.png"
    = Some {| data := Png (call_image pipe0 "a dog" "blurry" 512 512 9 0%float 7);
              mtime := t0 |}.
Proof.
  assert (H : Forall (λ p, writable world0_staging (job.output_path p)) cat_and_dog).
  { repeat constructor; simpl.
    - exists "/proj/backgrounds/ca", "t"%char. by split.
    - vm_compute. eauto.
    - exists "/proj/backgrounds/do", "g"%char. by split.
    - vm_compute. eauto. }
  assert (Hc : Forall (λ p, canonical (job.output_path p) = true) cat_and_dog)
    by (repeat constructor).
  split; [exact H|]. split; [exact Hc|].
  destruct (dispatch_run pipe0 no_mode cat_and_dog world0_staging Hc H)
    as (R1 & R2 & _).
  split; [exact R1|].
  apply (R2 [job.make "a cat" "blurry" 1000 512 "/proj/backgrounds/cat.png" (-1) 9
               0%float]
            (job.make "a dog" "blurry" 512 512 "/proj/backgrounds/dog.png" 7 9 0%float)
            []); [reflexivity|constructor].
Defined.

(** X10. What the loop prints and draws in such a run: for each job in the
    order of the queue, its number out of the number of jobs, the warning
    when a side had to be rounded, the first 50 characters of the prompt,
    the size, seed, steps and guidance scale it is dispatched with, and the
    path it was saved to.  The random generator has given one output for
    each job whose seed is [-1], and no reading of the clock has been used
    up. *)
Theorem dispatch_log pipe a queue σ :
  Forall (λ p, writable σ (job.output_path p)) queue →
  let σ' := snd (for_jobs pipe a (Z.of_nat (length queue)) 0 queue σ) in
  stdout σ' = stdout σ ++ log_of (Z.of_nat (length queue)) 0 queue (rng σ)
  ∧ (∀ k, rng σ' k = rng σ (draws queue + k))
  ∧ clock σ' = clock σ.
Proof.
  intros Hw σ'. unfold σ'. rewrite for_jobs_run by done. simpl.
  split; [apply dispatched_stdout|]. split; [|apply dispatched_clock].
  intros k. apply dispatched_rng.
Qed.

Lemma dispatch_log_witness :
  Forall (λ p, writable world0_staging (job.output_path p)) cat_and_dog
  ∧ stdout (snd (for_jobs pipe0 no_mode 2 0 cat_and_dog world0_staging))
    = [Loading_model "Tongyi-MAI/Z-Image-Turbo";
       Processing 1 2; Warning_adjusted 1000 512 992 512;
       Generating "a cat"; Size_line 992 512 4294967295 9 0%float;
       Saved_to "/proj/backgrounds/cat.png";
       Processing 2 2;
       Generating "a dog"; Size_line 512 512 7 9 0%float;
       Saved_to "/proj/backgrounds/dog.png"].
Proof.
  assert (H : Forall (λ p, writable world0_staging (job.output_path p)) cat_and_dog).
  { repeat constructor; simpl.
    - exists "/proj/backgrounds/ca", "t"%char. by split.
    - vm_compute. eauto.
    - exists "/proj/backgrounds/do", "g"%char. by split.
    - vm_compute. eauto. }
  split; [exact H|].
  destruct (dispatch_log pipe0 no_mode cat_and_dog world0_staging H) as (R & _).
  etrans; [exact R|]. vm_compute. reflexivity.
Defined.

(** ** The job builder *)

Lemma build_job a output_dir item σ :
  build a output_dir item σ
  = if has_text item
    then (Ok (Some (job_of a output_dir item (clock σ 0%nat))),
          with_clock (λ n, clock σ (S n)) σ)
    else (Ok None, σ).
Proof. unfold build, has_text. by destruct (truthy_str (p_text_of item)). Qed.

Lemma with_clock_id σ : with_clock (λ n, clock σ n) σ = σ.
Proof. by destruct σ. Qed.

Lemma queue_of_cons a output_dir item rest ck :
  queue_of a output_dir (item :: rest) ck
  = if has_text item
    then job_of a output_dir item (ck 0%nat)
         :: queue_of a output_dir rest (λ n, ck (S n))
    else queue_of a output_dir rest ck.
Proof. unfold queue_of. simpl. by destruct (has_text item). Qed.

Lemma for_items_run a output_dir items acc σ :
  for_items a output_dir items acc σ
  = (Ok (acc ++ queue_of a output_dir items (clock σ)),
     with_clock (λ n, clock σ (length (List.filter has_text items) + n)) σ).
Proof.
  revert acc σ. induction items as [|item rest IH]; intros acc σ.
  - simpl. unfold ret. by rewrite app_nil_r, with_clock_id.
  - rewrite queue_of_cons. cbn [for_items List.filter]. unfold bind.
    rewrite build_job. destruct (has_text item).
    + rewrite IH. simpl. by rewrite <- app_assoc.
    + by rewrite IH.
Qed.

Lemma queue_of_prompts a output_dir items ck :
  job.prompt <$> queue_of a output_dir items ck
  = (λ item, default EmptyString (p_text_of item)) <$> List.filter has_text items.
Proof.
  revert ck. induction items as [|item rest IH]; intros ck; [done|].
  rewrite queue_of_cons. simpl. destruct (has_text item); simpl; by rewrite IH.
Qed.

Lemma queue_of_length a output_dir items ck :
  length (queue_of a output_dir items ck) = length (List.filter has_text items).
Proof. unfold queue_of. apply length_imap. Qed.

(** X11. The job builder never fails, and touches nothing but the clock.
    It makes one job for each entry that has prompt text, in the order of
    the manifest and after the jobs it was given; it reads the clock once
    for each of these entries, so that the job at place [k] has the time
    of the reading [k] in its file name; the prompt of the job is the
    first non-empty of [Prompt], [description] and [title].  It prints
    nothing. *)
Theorem job_builder_run a output_dir items acc σ :
  let texts := List.filter (λ item, truthy_str (p_text_of item)) items in
  for_items a output_dir items acc σ
  = (Ok (acc ++ imap (λ k item, job_of a output_dir item (clock σ k)) texts),
     with_clock (λ n, clock σ (length texts + n)) σ)
  ∧ job.prompt <$> imap (λ k item, job_of a output_dir item (clock σ k)) texts
    = (λ item, default EmptyString (p_text_of item)) <$> texts
  ∧ Forall (λ item, default EmptyString (p_text_of item) ≠ EmptyString) texts.
Proof.
  intros texts. split; [apply for_items_run|].
  split; [apply queue_of_prompts|].
  apply Forall_forall. intros item Hin.
  apply list_elem_of_In, filter_In in Hin as [_ Ht].
  unfold truthy_str in Ht.
  destruct (p_text_of item) as [s|]; [|done]. simpl.
  by apply negb_true_iff, bool_decide_eq_false in Ht.
Qed.

(** ** A run of the generator *)

(** The run from the queue on, once the model is loaded and the staging
    directory made. *)
Lemma main_started a σ σm :
  started a σ σm →
  main a σ
  = (let* queue := build_queue a (os.path.join (script_dir σ) "backgrounds") in
     match queue with
     | None => ret tt
     | Some prompts_to_process =>
         print (Found_prompts (length prompts_to_process)) ;;;
         for_jobs {| model_id := args.Model a |} a
           (Z.of_nat (length prompts_to_process)) 0 prompts_to_process
     end) σm.
Proof.
  intros [Hl Hm]. unfold main, bind at 1. rewrite setup_pipeline_run, Hl.
  unfold bind at 1. simpl. unfold bind at 1. by rewrite Hm.
Qed.

(** The world in which the staging directory has been made differs from
    the world of the start in its directories and in the first line. *)
Lemma started_frame a σ σm :
  started a σ σm →
  σm = with_stdout (stdout σ ++ [Loading_model (args.Model a)])
         (with_fs (dirs σm) (files σ) σ).
Proof.
  intros [_ Hm].
  pose proof (makedirs_only_dirs (os.path.join (script_dir σ) "backgrounds") true
                (with_stdout (stdout σ ++ [Loading_model (args.Model a)]) σ)) as H.
  rewrite Hm in H. red in H. simpl in H. rewrite H at 1. by destruct σ.
Qed.

(** X12. When the model cannot be loaded the generator says so and
    returns: it makes no directory, reads no manifest and generates
    nothing. *)
Theorem load_failure a σ :
  loadable σ (args.Model a) = false →
  main a σ
  = (Ok tt,
     with_stdout
       (stdout σ ++ [Loading_model (args.Model a); Error_loading_pipeline]) σ).
Proof.
  intros Hl. unfold main, bind at 1. by rewrite setup_pipeline_run, Hl.
Qed.

Lemma load_failure_witness :
  loadable offline (args.Model no_mode) = false
  ∧ main no_mode offline
    = (Ok tt,
       with_stdout
         [Loading_model "Tongyi-MAI/Z-Image-Turbo"; Error_loading_pipeline] offline).
Proof. split; [reflexivity|]. apply (load_failure no_mode offline). reflexivity. Defined.

Lemma build_queue_prompt a output_dir σ :
  truthy_str (args.Prompt a) = true →
  build_queue a output_dir σ = (Ok (Some [job_of_args a]), σ).
Proof. intros H. unfold build_queue. by rewrite H. Qed.

(** X13. The run with a [--Prompt] that is not empty, when the model
    loads and the staging directory is there or can be made ([σm] is the
    world from then on), and when [--OutputPath] is a canonical path (absolute,
    with no empty component and no component [.] or [..]) that ends in
    [.png], at which no directory stands and whose directory is there.  The
    generator makes one job from the command line, whatever
    [--PromptJsonFile] says, and dispatches it: it prints that it found 1
    prompt and processes 1/1, warns when a side had to be rounded, prints
    what it generates and where it saved it, and leaves the image at
    [--OutputPath]; it never pauses, whatever [--DelaySeconds] says, and the
    file at any other canonical path is as it was. *)
Theorem single_prompt_run a σ σm :
  started a σ σm →
  truthy_str (args.Prompt a) = true →
  canonical (args.OutputPath a) = true →
  writable σm (args.OutputPath a) →
  let pipe := {| model_id := args.Model a |} in
  let p := job_of_args a in
  let σ' := snd (main a σ) in
  fst (main a σ) = Ok tt
  ∧ files σ' !! args.OutputPath a
    = Some {| data := Png (image_for pipe p (rng σ 0%nat)); mtime := clock σ 0%nat |}
  ∧ (∀ path, canonical path = true → path ≠ args.OutputPath a →
             files σ' !! path = files σ !! path)
  ∧ stdout σ'
    = stdout σ ++ [Loading_model (args.Model a); Found_prompts 1]
      ++ lines_before 1 0 p (rng σ 0%nat) ++ [Saved_to (args.OutputPath a)]
  ∧ slept σ' = slept σ.
Proof.
  intros Hs Hp _ Hw pipe p σ'.
  set (σ1 := with_stdout (stdout σm ++ [Found_prompts 1]) σm).
  assert (Hmain : main a σ = (Ok tt, dispatched1 pipe a 1 0 p σ1)).
  { rewrite (main_started a σ σm Hs). unfold bind at 1.
    rewrite build_queue_prompt by done. unfold bind at 1, print at 1.
    fold pipe p σ1. cbn [length]. change (Z.of_nat 1) with 1%Z.
    assert (Hw1 : writable σ1 (job.output_path p)) by (by destruct Hw).
    by rewrite for_jobs_step by done. }
  unfold σ'. clear σ'. rewrite Hmain. cbn [fst snd]. split; [done|].
  destruct (dispatched1_fields pipe a 1 0 p σ1) as (_ & _ & Hf & Ho & _).
  pose proof (started_frame a σ σm Hs) as E.
  assert (Hfm : files σm = files σ) by (rewrite E; done).
  assert (Hrm : rng σm = rng σ) by (rewrite E; done).
  assert (Hcm : clock σm = clock σ) by (rewrite E; done).
  assert (Hom : stdout σm = stdout σ ++ [Loading_model (args.Model a)])
    by (rewrite E; done).
  assert (Hsm : slept σm = slept σ) by (rewrite E; done).
  split; [|split; [|split]].
  - rewrite Hf. simpl. by rewrite lookup_insert_eq, Hrm, Hcm.
  - intros path _ Hne. rewrite Hf. simpl.
    rewrite lookup_insert_ne by done. by rewrite Hfm.
  - rewrite Ho. simpl stdout. simpl rng. rewrite Hom, Hrm.
    by rewrite <- !app_assoc.
  - unfold dispatched1, rested. change (0 <? 1 - 1)%Z with false.
    cbn [andb slept with_stdout with_fs]. by rewrite generated_slept.
Qed.

Lemma single_prompt_run_witness :
  started cat_args world0 world0_staging
  ∧ canonical (args.OutputPath cat_args) = true
  ∧ writable world0_staging (args.OutputPath cat_args)
  ∧ fst (main cat_args world0) = Ok tt
  ∧ files (snd (main cat_args world0)) !! "/proj/generated_image.png"
    = Some {| data := Png (call_image pipe0 "a cat" "blurry" 992 512 9 0%float
                             4294967295);
              mtime := t0 |}
  ∧ slept (snd (main cat_args world0)) = [].
Proof.
  assert (Hs : started cat_args world0 world0_staging) by (split; reflexivity).
  assert (Hw : writable world0_staging (args.OutputPath cat_args)).
  { split.
    - exists "/proj/generated_imag", "e"%char. by split.
    - reflexivity.
    - vm_compute. eauto. }
  split; [exact Hs|]. split; [reflexivity|]. split; [exact Hw|].
  destruct (single_prompt_run cat_args world0 world0_staging Hs eq_refl eq_refl Hw)
    as (R1 & R2 & _ & _ & R4).
  split; [exact R1|]. split; [exact R2|exact R4].
Defined.

Lemma build_queue_manifest a output_dir σ d :
  manifest_mode a σ d →
  build_queue a output_dir σ
  = (Ok (Some (queue_of a output_dir (items_of d) (clock σ))),
     with_clock (λ n, clock σ (length (List.filter has_text (items_of d)) + n)) σ).
Proof.
  intros (Hp & path & f & Hj & Hne & Hf & Hd). unfold build_queue.
  rewrite Hp, Hj. simpl. rewrite bool_decide_eq_false_2 by done. simpl.
  unfold bind at 1, os.path.exists_. rewrite Hf.
  rewrite (bool_decide_eq_true_2 (is_Some (Some f))) by eauto.
  rewrite orb_true_r. simpl. unfold bind at 1, read_file. rewrite Hf.
  unfold bind at 1, json.load. rewrite Hd. unfold ret at 1.
  unfold bind at 1. by rewrite for_items_run.
Qed.

(** The run with a manifest, from the loop on. *)
Lemma main_manifest a σ σm d :
  started a σ σm → manifest_mode a σm d →
  let queue := queue_of a (os.path.join (script_dir σ) "backgrounds")
                 (items_of d) (clock σ) in
  main a σ
  = for_jobs {| model_id := args.Model a |} a (Z.of_nat (length queue)) 0 queue
      (with_stdout (stdout σm ++ [Found_prompts (length queue)])
         (with_clock (λ n, clock σ (length queue + n)) σm)).
Proof.
  intros Hs Hm queue. rewrite (main_started a σ σm Hs). unfold bind at 1.
  rewrite (build_queue_manifest _ _ _ d) by done.
  pose proof (started_frame a σ σm Hs) as E.
  assert (Hcm : clock σm = clock σ) by (rewrite E; done).
  rewrite Hcm. fold queue. unfold bind at 1, print at 1. cbn [fst snd].
  rewrite <- (queue_of_length a (os.path.join (script_dir σ) "backgrounds")
                (items_of d) (clock σ)).
  reflexivity.
Qed.

(** X14. A manifest without usable entry gives an empty queue: the
    generator prints that it found 0 prompts and returns, with nothing
    generated and no file changed.  This is the run on an empty list, on
    entries that all lack prompt text, on an object without
    [image_prompts] or whose [image_prompts] is not a list, and on a
    manifest that is neither an object nor a list. *)
Theorem empty_queue_run a σ σm d :
  started a σ σm → manifest_mode a σm d →
  Forall (λ item, truthy_str (p_text_of item) = false) (items_of d) →
  main a σ = (Ok tt, with_stdout (stdout σm ++ [Found_prompts 0]) σm)
  ∧ items_of (JObject None) = []
  ∧ (∀ v, items_of (JObject (Some (NotAList v))) = [] ∧ items_of (JScalar v) = []).
Proof.
  intros Hs Hm Hno. split; [|done].
  rewrite (main_manifest a σ σm d) by done.
  assert (E : List.filter has_text (items_of d) = []).
  { induction (items_of d) as [|item rest IH]; [done|].
    apply Forall_cons in Hno as [H1 H2]. simpl. unfold has_text at 1.
    rewrite H1. by apply IH. }
  unfold queue_of. rewrite E. simpl. unfold ret.
  pose proof (started_frame a σ σm Hs) as Eσ.
  assert (Hcm : clock σm = clock σ) by (rewrite Eσ; done).
  rewrite <- Hcm. by rewrite with_clock_id.
Qed.

Lemma empty_queue_run_witness :
  started args0 (project untitled_doc true) (opened (project untitled_doc true))
  ∧ manifest_mode args0 (opened (project untitled_doc true))
      (JObject (Some (Entries [entry_of (Some "a") None])))
  ∧ main args0 (project untitled_doc true)
    = (Ok tt,
       with_stdout [Loading_model "Tongyi-MAI/Z-Image-Turbo"; Found_prompts 0]
         (opened (project untitled_doc true))).
Proof.
  assert (Hs : started args0 (project untitled_doc true)
                 (opened (project untitled_doc true))) by (split; reflexivity).
  assert (Hm : manifest_mode args0 (opened (project untitled_doc true))
                 (JObject (Some (Entries [entry_of (Some "a") None])))).
  { split; [reflexivity|].
    exists "/proj/assets/graphics_batch.json", {| data := untitled_doc; mtime := t0 |}.
    split; [reflexivity|]. split; [done|]. split; reflexivity. }
  split; [exact Hs|]. split; [exact Hm|].
  destruct (empty_queue_run args0 (project untitled_doc true)
              (opened (project untitled_doc true)) _ Hs Hm) as [R _].
  { repeat constructor. }
  exact R.
Defined.

(** X15. A run with a manifest: no [--Prompt], the model loads and the
    staging directory is there or can be made ([σm] is the world from then
    on), and the manifest file is found and read as [d].  Each job's output
    path is canonical (absolute, with no empty component and no component
    [.] or [..]), ends in [.png], has no directory standing at it, and its
    directory is there.  Then the
    generator builds the whole queue first, one job for each entry with
    prompt text, prints their number, and dispatches the jobs in the order of
    the manifest; it comes to its end, the output of each job that no later
    job writes again holds the image of the job, and the file at any
    canonical path that is no job's output is as it was. *)
Theorem manifest_run a σ σm d :
  started a σ σm → manifest_mode a σm d →
  let pipe := {| model_id := args.Model a |} in
  let queue := queue_of a (os.path.join (script_dir σ) "backgrounds")
                 (items_of d) (clock σ) in
  Forall (λ p, canonical (job.output_path p) = true) queue →
  Forall (λ p, writable σm (job.output_path p)) queue →
  let σ' := snd (main a σ) in
  fst (main a σ) = Ok tt
  ∧ stdout σ'
    = stdout σ ++ [Loading_model (args.Model a); Found_prompts (length queue)]
      ++ log_of (Z.of_nat (length queue)) 0 queue (rng σ)
  ∧ (∀ pre p post,
       queue = pre ++ p :: post →
       Forall (λ q, job.output_path q ≠ job.output_path p) post →
       files σ' !! job.output_path p
       = Some {| data := Png (image_for pipe p (rng σ (draws pre)));
                 mtime := clock σ (length queue) |})
  ∧ (∀ path, canonical path = true →
             Forall (λ q, job.output_path q ≠ path) queue →
             files σ' !! path = files σ !! path).
Proof.
  intros Hs Hm pipe queue _ Hw σ'. unfold σ'. clear σ'.
  rewrite (main_manifest a σ σm d) by done. fold pipe queue.
  set (σq := with_stdout _ _).
  assert (Hwq : Forall (λ p, writable σq (job.output_path p)) queue).
  { eapply Forall_impl; [exact Hw|]. by intros p [H1 H2 H3]. }
  rewrite for_jobs_run by done. cbn [fst snd]. split; [done|].
  pose proof (started_frame a σ σm Hs) as E.
  assert (Hfm : files σm = files σ) by (rewrite E; done).
  assert (Hrm : rng σm = rng σ) by (rewrite E; done).
  assert (Hom : stdout σm = stdout σ ++ [Loading_model (args.Model a)])
    by (rewrite E; done).
  split; [|split].
  - rewrite dispatched_stdout. simpl. rewrite Hom, Hrm. by rewrite <- !app_assoc.
  - intros pre p post Hq Hpost. rewrite Hq at 2. rewrite dispatched_last by done.
    simpl. rewrite Hrm. unfold saved_file. do 2 f_equal. f_equal. lia.
  - intros path _ Hp. rewrite dispatched_other by done. simpl. by rewrite Hfm.
Qed.

Lemma manifest_run_witness :
  started args0 (studio portraits_doc) (opened (studio portraits_doc))
  ∧ manifest_mode args0 (opened (studio portraits_doc))
      (JObject (Some (Entries portraits)))
  ∧ fst (main args0 (studio portraits_doc)) = Ok tt
  ∧ files (snd (main args0 (studio portraits_doc)))
      !! "/proj/backgrounds/landlord_landlord_1024x1024_20240101-1001mss.png"
    = Some {| data := Png (call_image pipe0 "Landlord"
                             "bad hands, blurry, low quality" 1024 1024 9 0%float 5);
              mtime := t0 |}.
Proof.
  assert (Hs : started args0 (studio portraits_doc) (opened (studio portraits_doc)))
    by (split; reflexivity).
  assert (Hm : manifest_mode args0 (opened (studio portraits_doc))
                 (JObject (Some (Entries portraits)))).
  { split; [reflexivity|].
    exists "/proj/assets/graphics_batch.json", {| data := portraits_doc; mtime := t0 |}.
    split; [reflexivity|]. split; [done|]. split; reflexivity. }
  split; [exact Hs|]. split; [exact Hm|].
  destruct (manifest_run args0 (studio portraits_doc) (opened (studio portraits_doc))
              _ Hs Hm) as (R1 & _ & R3 & _).
  { repeat constructor. }
  { repeat constructor; simpl.
    - exists "/proj/backgrounds/tenant_student_tenant_student_1024x1024_20240101-1001ms",
        "s"%char.
      split; [|done]. vm_compute. reflexivity.
    - vm_compute. eauto.
    - exists "/proj/backgrounds/landlord_landlord_1024x1024_20240101-1001ms",
        "s"%char.
      split; [|done]. vm_compute. reflexivity.
    - vm_compute. eauto. }
  split; [exact R1|].
  etrans; [|apply (R3 [job_of args0 "/proj/backgrounds"
                         (entry_of (Some "tenant_student") (Some "Tenant Student")) t0]
                      (job_of args0 "/proj/backgrounds"
                         (entry_of (Some "landlord") (Some "Landlord")) t0)
                      []); [reflexivity|constructor]].
  reflexivity.
Defined.

(** ** The names of the staged files *)

Lemma pretty_N_char_plain n : pretty_N_char n ≠ "/"%char.
Proof. unfold pretty_N_char. repeat case_match; done. Qed.

Lemma pretty_N_go_plain x s : plain s = true → plain (pretty_N_go x s) = true.
Proof.
  revert s. induction (N.lt_wf_0 x) as [x _ IH]; intros s Hs.
  destruct (decide (0 < x)%N) as [Hx|Hx].
  - rewrite pretty_N_go_step by done. apply IH.
    + by apply N.div_lt.
    + simpl. rewrite Hs, andb_true_r.
      apply negb_true_iff, bool_decide_eq_false, pretty_N_char_plain.
  - assert (x = 0%N) as -> by lia. by rewrite pretty_N_go_0.
Qed.

Lemma pretty_N_plain (n : N) : plain (pretty n) = true.
Proof.
  unfold pretty, pretty_N. case_decide; [done|]. by apply pretty_N_go_plain.
Qed.

Lemma of_int_plain z : plain (str.of_int z) = true.
Proof.
  unfold str.of_int, pretty, pretty_Z. destruct z as [|p|p]; [done|..].
  - apply pretty_N_plain.
  - rewrite plain_app. simpl. apply pretty_N_plain.
Qed.

Lemma zero_pad_plain w n : plain (datetime.zero_pad w n) = true.
Proof.
  unfold datetime.zero_pad. rewrite plain_app, pretty_N_plain, andb_true_r.
  induction (w - String.length (pretty n)) as [|k IH]; [done|]. simpl. exact IH.
Qed.

Lemma timestamp_plain t : plain (timestamp_of t) = true.
Proof.
  rewrite timestamp_shape. rewrite !plain_app, !zero_pad_plain. done.
Qed.

Lemma filter_plain keep s :
  keep "/"%char = false → plain (str.filter keep s) = true.
Proof.
  intros Hk. induction s as [|c s IH]; [done|]. simpl.
  destruct (keep c) eqn:Hc; [|done]. simpl. rewrite IH, andb_true_r.
  apply negb_true_iff, bool_decide_eq_false. intros ->. congruence.
Qed.

Lemma sanitize_plain s : plain (sanitize s) = true.
Proof. by apply filter_plain. Qed.

Lemma id_prefix_plain item :
  plain (default EmptyString (entry.id item)) = true →
  plain (id_prefix_of item) = true.
Proof.
  intros H. unfold id_prefix_of. destruct (truthy_str (entry.id item)); [|done].
  by rewrite plain_app, H.
Qed.

Lemma filename_plain id_prefix keyword w h t :
  plain id_prefix = true →
  valid_name (filename_of id_prefix (sanitize keyword) w h (timestamp_of t)).
Proof.
  intros Hi. unfold filename_of. split.
  - intros E. apply (f_equal String.length) in E.
    rewrite !str_length_app in E. simpl in E. lia.
  - by rewrite !plain_app, Hi, sanitize_plain, !of_int_plain, timestamp_plain.
Qed.

Lemma timestamp_mss t : ∃ x, timestamp_of t = x +:+ "mss".
Proof. rewrite timestamp_shape. eexists. by rewrite !str_app_assoc. Qed.

Lemma filename_png id_prefix keyword w h t :
  ∃ stem, filename_of id_prefix keyword w h (timestamp_of t)
          = stem +:+ String "s" ".png".
Proof.
  unfold filename_of. destruct (timestamp_mss t) as [x ->].
  exists (id_prefix +:+ keyword +:+ "_" +:+ str.of_int w +:+ "x" +:+ str.of_int h
          +:+ "_" +:+ x +:+ "ms").
  by rewrite <- !str_app_assoc.
Qed.

(** The output path of an entry whose identifier holds no slash. *)
Lemma output_in_staging_name a output_dir item now :
  ends_plain output_dir →
  plain (default EmptyString (entry.id item)) = true →
  let p := job_of a output_dir item now in
  let filename :=
    filename_of (id_prefix_of item) (sanitize (keyword_of item))
      (job.width p) (job.height p) (timestamp_of now) in
  job.output_path p = output_dir +:+ "/" +:+ filename
  ∧ os.path.basename (job.output_path p) = filename.
Proof.
  intros Hd Hi p filename.
  destruct (filename_plain (id_prefix_of item) (keyword_of item)
              (job.width p) (job.height p) now (id_prefix_plain _ Hi))
    as [Hne Hpl].
  fold filename in Hne, Hpl.
  assert (E : job.output_path p = output_dir +:+ "/" +:+ filename).
  { unfold p, job_of. simpl. by apply join_plain. }
  rewrite E. split; [done|]. by apply basename_join.
Qed.

(** X16. The generator writes the image of an entry into the staging
    directory, under a name of its own making, as long as the identifier
    of the entry holds no slash: the output path of the job is the staging
    directory, a slash, and the file name; the file name is not empty,
    holds no slash and ends in [.png], whatever the tags, the title or the
    description of the entry hold. *)
Theorem output_in_staging a output_dir item now σ :
  ends_plain output_dir →
  plain (default EmptyString (entry.id item)) = true →
  let p := job_of a output_dir item now in
  let filename :=
    filename_of (id_prefix_of item) (sanitize (keyword_of item))
      (job.width p) (job.height p) (timestamp_of now) in
  job.output_path p = output_dir +:+ "/" +:+ filename
  ∧ os.parent σ (job.output_path p) = output_dir
  ∧ os.path.basename (job.output_path p) = filename
  ∧ valid_name filename
  ∧ png_path (job.output_path p).
Proof.
  intros Hd Hi p filename.
  destruct (filename_plain (id_prefix_of item) (keyword_of item)
              (job.width p) (job.height p) now (id_prefix_plain _ Hi))
    as [Hne Hpl].
  fold filename in Hne, Hpl.
  assert (E : job.output_path p = output_dir +:+ "/" +:+ filename).
  { unfold p, job_of. simpl. by apply join_plain. }
  rewrite E. split; [done|]. split; [by apply parent_join|].
  split; [by apply basename_join|]. split; [done|].
  destruct (filename_png (id_prefix_of item) (sanitize (keyword_of item))
              (job.width p) (job.height p) now) as [stem Hs].
  fold filename in Hs. rewrite Hs.
  exists (output_dir +:+ "/" +:+ stem), "s"%char.
  split; [|done]. by rewrite <- !str_app_assoc.
Qed.

Lemma output_in_staging_witness :
  ends_plain "/proj/backgrounds"
  ∧ plain (default EmptyString (entry.id (hero "hero"))) = true
  ∧ job.output_path (job_of args0 "/proj/backgrounds" (hero "hero") t0)
    = "/proj/backgrounds/hero_hero_city_1024x1024_20240101-1001mss.png"
  ∧ os.parent world0 (job.output_path (job_of args0 "/proj/backgrounds" (hero "hero") t0))
    = "/proj/backgrounds".
Proof.
  assert (He : ends_plain "/proj/backgrounds").
  { exists "/proj/background", "s"%char. by split. }
  split; [exact He|]. split; [reflexivity|].
  destruct (output_in_staging args0 "/proj/backgrounds" (hero "hero") t0 world0
              He eq_refl) as (R1 & R2 & _).
  split; [|exact R2]. etrans; [exact R1|]. vm_compute. reflexivity.
Defined.

(** X17. An identifier that begins with a slash takes the image out of the
    staging directory: [os.path.join] drops the directory before an
    absolute name, and the output path of the job is the file name alone,
    which begins with the identifier. *)
Theorem absolute_id_escapes a output_dir item now rest :
  entry.id item = Some (String "/" rest) →
  let p := job_of a output_dir item now in
  job.output_path p
  = filename_of (String "/" rest +:+ "_") (sanitize (keyword_of item))
      (job.width p) (job.height p) (timestamp_of now)
  ∧ str.startswith (job.output_path p) (String "/" rest) = true.
Proof.
  intros Hid p.
  assert (Hp : id_prefix_of item = String "/" rest +:+ "_").
  { unfold id_prefix_of. by rewrite Hid. }
  assert (E : job.output_path p
              = filename_of (String "/" rest +:+ "_") (sanitize (keyword_of item))
                  (job.width p) (job.height p) (timestamp_of now)).
  { unfold p, job_of. cbn [job.output_path job.width job.height]. rewrite Hp.
    unfold filename_of at 1. rewrite !str_app_cons.
    unfold os.path.join, str.startswith.
    assert (Hs : ∀ x, String.prefix "/" (String "/" x) = true) by by intros [].
    rewrite Hs. unfold filename_of. by rewrite !str_app_cons. }
  split; [exact E|]. rewrite E. unfold filename_of, str.startswith.
  rewrite <- !str_app_assoc.
  generalize ("_" +:+ sanitize (keyword_of item) +:+ "_" +:+ str.of_int (job.width p)
              +:+ "x" +:+ str.of_int (job.height p) +:+ "_" +:+ timestamp_of now
              +:+ ".png").
  intros tail. generalize (String "/" rest). intros s.
  induction s as [|c s IH]; simpl; [by destruct tail|].
  by destruct (ascii_dec c c).
Qed.

Lemma absolute_id_escapes_witness :
  job.output_path (job_of args0 "/proj/backgrounds" (hero "/etc/x") t0)
  = "/etc/x_hero_city_1024x1024_20240101-1001mss.png".
Proof.
  destruct (absolute_id_escapes args0 "/proj/backgrounds" (hero "/etc/x") t0
              "etc/x" eq_refl) as [R _].
  etrans; [exact R|]. vm_compute. reflexivity.
Defined.

Lemma prefix_app s t : String.prefix s (s +:+ t) = true.
Proof.
  induction s as [|c s IH]; [by destruct t|]. rewrite str_app_cons. simpl.
  by destruct (ascii_dec c c).
Qed.

(** X18. The name the generator gives to the image of an entry begins
    with the identifier of the entry, which is how the reconciler finds
    it: in any listing that holds the name, the identifier has a
    candidate. *)
Theorem generated_name_matches a output_dir item now i :
  ends_plain output_dir →
  entry.id item = Some i → i ≠ EmptyString → plain i = true →
  let p := job_of a output_dir item now in
  str.startswith (os.path.basename (job.output_path p)) i = true
  ∧ (∀ names, os.path.basename (job.output_path p) ∈ names →
              has_candidate names i = true).
Proof.
  intros Hd Hid Hne Hi p.
  assert (Hpl : plain (default EmptyString (entry.id item)) = true)
    by (by rewrite Hid).
  destruct (output_in_staging_name a output_dir item now Hd Hpl) as [_ Hb].
  fold p in Hb.
  assert (Hs : str.startswith (os.path.basename (job.output_path p)) i = true).
  { rewrite Hb. unfold id_prefix_of, filename_of, truthy_str. rewrite Hid.
    rewrite bool_decide_eq_false_2 by done. cbn [negb default].
    rewrite <- !str_app_assoc. apply prefix_app. }
  split; [exact Hs|]. intros names Hin. unfold has_candidate, candidates.
  destruct (List.filter _ names) as [|c l] eqn:E; [|done].
  assert (Hc : In (os.path.basename (job.output_path p))
                 (List.filter (λ filename, str.startswith filename i) names)).
  { apply filter_In. split; [by apply list_elem_of_In|done]. }
  rewrite E in Hc. done.
Qed.

Lemma generated_name_matches_witness :
  ends_plain "/proj/backgrounds"
  ∧ str.startswith
      (os.path.basename
         (job.output_path (job_of args0 "/proj/backgrounds" (hero "hero") t0)))
      "hero" = true
  ∧ has_candidate ["x.png"; "hero_hero_city_1024x1024_20240101-1001mss.png"] "hero"
    = true.
Proof.
  assert (He : ends_plain "/proj/backgrounds").
  { exists "/proj/background", "s"%char. by split. }
  split; [exact He|].
  destruct (generated_name_matches args0 "/proj/backgrounds" (hero "hero") t0 "hero"
              He eq_refl) as [R1 R2]; [done|reflexivity|].
  split; [exact R1|]. apply R2. vm_compute. set_solver.
Defined.

(** ** The characters of a keyword *)

Lemma every_app test a b : every test (a +:+ b) = every test a && every test b.
Proof.
  induction a as [|c a IH]; [done|]. rewrite str_app_cons. simpl.
  by rewrite IH, andb_assoc.
Qed.

Lemma every_join test sep l :
  every test sep = true → Forall (λ x, every test x = true) l →
  every test (str.join sep l) = true.
Proof.
  intros Hs. induction 1 as [|x l Hx Hl IH]; [done|]. simpl.
  destruct l as [|y l]; [done|]. by rewrite !every_app, Hx, Hs, IH.
Qed.

Lemma every_split_go test word s :
  every test (default EmptyString word) = true → every test s = true →
  Forall (λ x, every test x = true) (str.split_go word s).
Proof.
  revert word. induction s as [|c s IH]; intros word Hw Hs; simpl.
  - destruct word; repeat constructor. done.
  - simpl in Hs. apply andb_true_iff in Hs as [Hc Hs].
    destruct (str.isspace c).
    + destruct word as [w|]; [constructor; [done|]|]; by apply IH.
    + apply IH; [|done]. simpl. by rewrite every_app, Hw; simpl; rewrite Hc.
Qed.

Lemma every_filter_map (source : ascii → bool) (f : ascii → ascii)
    (keep test : ascii → bool) s :
  (∀ c, source c = true → keep (f c) = true → test (f c) = true) →
  every source s = true →
  every test (str.filter keep (str.map f s)) = true.
Proof.
  intros H. induction s as [|c s IH]; [done|]. simpl.
  intros [Hc Hs]%andb_true_iff.
  destruct (keep (f c)) eqn:Hk; [|by apply IH]. simpl.
  by rewrite (H c Hc Hk), IH.
Qed.

Lemma lower_keyword_char c :
  is_ascii c = true →
  str.isalnum (str.lower_char c)
  || (bool_decide (str.lower_char c = "_"%char)
      || bool_decide (str.lower_char c = "-"%char)) = true →
  keyword_char (str.lower_char c) = true.
Proof. destruct c as [[] [] [] [] [] [] [] []]; vm_compute; done. Qed.

Lemma replace_keyword_char c :
  is_ascii c = true →
  let x := if decide (str.lower_char c = " "%char) then "_"%char
           else str.lower_char c in
  str.isalnum x || (bool_decide (x = "_"%char) || bool_decide (x = "-"%char)) = true →
  keyword_char x = true.
Proof. destruct c as [[] [] [] [] [] [] [] []]; vm_compute; done. Qed.

(** X19. For an entry whose tags, title and description are written in
    ASCII, the keyword of the file name is made of lower-case letters,
    digits, underscores and hyphens: it holds no slash, no dot, no space
    and no capital. *)
Theorem keyword_alphabet (item : entry.t) :
  ascii_entry item →
  every keyword_char (sanitize (keyword_of item)) = true.
Proof.
  intros (Htags & Htitle & Hdesc). unfold keyword_of, sanitize.
  destruct (truthy_list (entry.tags item)).
  { apply (every_filter_map is_ascii); [apply lower_keyword_char|].
    by apply every_join. }
  destruct (truthy_str (entry.title item)).
  { unfold str.replace, str.lower.
    assert (E : ∀ s, str.map (λ c, if decide (c = " "%char) then "_"%char else c)
                       (str.map str.lower_char s)
                     = str.map (λ c, if decide (str.lower_char c = " "%char)
                                     then "_"%char else str.lower_char c) s).
    { intros s. induction s as [|c s IH]; [done|]. simpl. by rewrite IH. }
    rewrite E.
    apply (every_filter_map is_ascii
             (λ c, if decide (str.lower_char c = " "%char) then "_"%char
                   else str.lower_char c)); [|done].
    apply replace_keyword_char. }
  destruct (truthy_str (entry.description item)).
  { apply (every_filter_map is_ascii); [apply lower_keyword_char|].
    apply every_join; [done|]. apply Forall_take.
    by apply every_split_go. }
  reflexivity.
Qed.

Lemma keyword_alphabet_witness :
  ascii_entry (hero "Hero")
  ∧ sanitize (keyword_of (hero "Hero")) = "hero_city"
  ∧ every keyword_char "hero_city" = true.
Proof.
  assert (H : ascii_entry (hero "Hero")) by (split; [constructor|split; reflexivity]).
  split; [exact H|]. split; [reflexivity|].
  exact (keyword_alphabet (hero "Hero") H).
Defined.

(** ** Rounding of any size *)

(** X20. The rounding of the loop takes any integer: each side becomes
    the largest multiple of 16 that is not above it, so that a side from 0
    to 15 becomes 0 and a negative side moves away from 0; nothing else of
    the job changes, nothing checks the result, and rounding a rounded job
    changes nothing and prints nothing. *)
Theorem normalize_any_integer (p : job.t) (σ : world) :
  let w' := (job.width p / 16 * 16)%Z in
  let h' := (job.height p / 16 * 16)%Z in
  fst (normalize p σ) = Ok (job.set_size w' h' p)
  ∧ (16 | w')%Z ∧ (16 | h')%Z
  ∧ (job.width p - 16 < w' ≤ job.width p)%Z
  ∧ (job.height p - 16 < h' ≤ job.height p)%Z
  ∧ ((0 ≤ job.width p < 16)%Z → w' = 0%Z)
  ∧ ((job.width p < 0)%Z → (w' ≤ -16)%Z)
  ∧ normalize (job.set_size w' h' p) (snd (normalize p σ))
    = (Ok (job.set_size w' h' p), snd (normalize p σ)).
Proof.
  intros w' h'.
  assert (Hb : ∀ x : Z, (x - 16 < x / 16 * 16 ≤ x)%Z).
  { intros x. pose proof (Z.mul_div_le x 16). pose proof (Z.mod_pos_bound x 16).
    pose proof (Z.div_mod x 16). lia. }
  assert (Hi : ∀ x : Z, (x / 16 * 16 / 16 * 16 = x / 16 * 16)%Z).
  { intros x. rewrite Z.div_mul; lia. }
  split; [|split; [|split; [|split; [|split; [|split; [|split]]]]]].
  - unfold normalize, bind, when. simpl.
    by destruct (negb _ || negb _).
  - apply Z.divide_factor_r.
  - apply Z.divide_factor_r.
  - apply Hb.
  - apply Hb.
  - intros H. unfold w'. rewrite Z.div_small; lia.
  - intros H. unfold w'. specialize (Hb (job.width p)).
    assert (job.width p / 16 < 0)%Z by (apply Z.div_lt_upper_bound; lia). lia.
  - unfold normalize at 1, bind, when. simpl. unfold w', h'.
    rewrite !Hi, !Z.eqb_refl. reflexivity.
Qed.

(** ** From the manifest to the asset store *)

Lemma reconciler_keeps_create_target_directory target :
  preserves reconciler_keeps (create_target_directory target).
Proof. unfold create_target_directory, os.path.exists_. keep_reconciler. Qed.

(** X21. The two scripts, one after the other, in one project directory:
    the generator's script directory is the reconciler's working directory.
    The assumptions on the generator's run: no [--Prompt], the model loads,
    the staging directory is there or can be made ([σm] is the world from
    then on), the manifest file named on the command line is found and is
    an object whose [image_prompts] are [items], and each job's output path
    is canonical (absolute, with no empty component and no component [.] or
    [..]), ends in [.png], has no directory standing at it, and its
    directory is there.  The assumptions on the reconciler's run, in the
    world the generator left: the asset store is there or can be made
    ([σr] is the world from then on); the manifest at
    [assets/graphics_batch.json] is an object with the same [items], each
    of which has an identifier ([ids], in order); the staging directory
    lists [names], as [os.listdir] returns them (not empty, without slash),
    each the name of a regular file of it; and no directory stands where an
    image is to be placed.  Then both runs come to their
    end.  Take an entry whose job is in the queue and whose output no later
    job writes again, whose identifier is not empty and has no slash, whose
    place [assets/textures/{id}.png] is a canonical path, and whose staged
    file is the only listed name that starts with the identifier: at that
    place the asset store then holds the image that the generator made for
    the entry. *)
Theorem generate_then_reconcile a σ σm items names ids σr :
  started a σ σm →
  manifest_mode a σm (JObject (Some (Entries items))) →
  script_dir σ = cwd σ →
  let pipe := {| model_id := args.Model a |} in
  let output_dir := source_dir_of (cwd σ) in
  let queue := queue_of a output_dir items (clock σ) in
  Forall (λ p, canonical (job.output_path p) = true) queue →
  Forall (λ p, writable σm (job.output_path p)) queue →
  let σ1 := snd (main a σ) in
  create_target_directory (target_dir_of (cwd σ)) σ1 = (Ok tt, σr) →
  ready σr items names ids →
  let σ2 := snd (organize_assets σ1) in
  fst (main a σ) = Ok tt
  ∧ fst (organize_assets σ1) = Ok tt
  ∧ (∀ pre item now post i,
       queue = pre ++ job_of a output_dir item now :: post →
       Forall (λ q, job.output_path q
                    ≠ job.output_path (job_of a output_dir item now)) post →
       entry.id item = Some i → i ≠ EmptyString → plain i = true → i ∈ ids →
       canonical (dest_path_of (cwd σ) i) = true →
       (∀ n, n ∈ names → str.startswith n i = true →
             n = os.path.basename (job.output_path (job_of a output_dir item now))) →
       files σ2 !! dest_path_of (cwd σ) i
       = Some {| data := Png (image_for pipe (job_of a output_dir item now)
                                (rng σ (draws pre)));
                 mtime := clock σ (length queue) |}).
Proof.
  intros Hs Hm Hsd pipe output_dir queue _ Hw σ1 Hc Hr σ2.
  pose proof (started_frame a σ σm Hs) as E.
  assert (Hcwd_m : cwd σm = cwd σ) by (rewrite E; done).
  assert (Hrm : rng σm = rng σ) by (rewrite E; done).
  (* the generator *)
  set (σq := with_stdout (stdout σm ++ [Found_prompts (length queue)])
               (with_clock (λ n, clock σ (length queue + n)) σm)).
  assert (Hwq : Forall (λ p, writable σq (job.output_path p)) queue).
  { eapply Forall_impl; [exact Hw|]. by intros p [H1 H2 H3]. }
  assert (Hmain : main a σ
                  = (Ok tt, dispatched pipe a (Z.of_nat (length queue)) 0 queue σq)).
  { rewrite (main_manifest a σ σm (JObject (Some (Entries items)))) by done.
    rewrite Hsd. fold output_dir queue pipe σq. by apply for_jobs_run. }
  assert (E1 : σ1 = dispatched pipe a (Z.of_nat (length queue)) 0 queue σq)
    by (unfold σ1; by rewrite Hmain).
  assert (Hcwd1 : cwd σ1 = cwd σ).
  { rewrite E1, dispatched_cwd. simpl. exact Hcwd_m. }
  (* the reconciler *)
  rewrite <- Hcwd1 in Hc.
  pose proof (organize_assets_run σ1 σr items names ids Hc Hr) as Hrun.
  pose proof (reconciler_keeps_create_target_directory (target_dir_of (cwd σ1)) σ1)
    as (Hg & _ & _).
  pose proof (create_target_directory_same_files (target_dir_of (cwd σ1)) σ1) as Hsf.
  rewrite Hc in Hg, Hsf. simpl in Hg, Hsf.
  assert (Hcwd_r : cwd σr = cwd σ) by (by rewrite (same_files_cwd _ _ Hsf)).
  assert (Hfr : files σr = files σ1) by (rewrite Hsf; done).
  split; [by rewrite Hmain|]. split; [by rewrite Hrun|].
  intros pre item now post i Hq Hpost Hid Hne Hpi Hin _ Huniq.
  set (p := job_of a output_dir item now) in *.
  assert (Hpl : plain (default EmptyString (entry.id item)) = true)
    by (by rewrite Hid).
  destruct (output_in_staging_name a output_dir item now
              (ends_plain_source (cwd σ)) Hpl) as [Hpath Hbase].
  fold p in Hpath, Hbase.
  set (filename := os.path.basename (job.output_path p)) in *.
  destruct (filename_plain (id_prefix_of item) (keyword_of item)
              (job.width p) (job.height p) now (id_prefix_plain _ Hpl))
    as [Hfne Hfpl].
  rewrite <- Hbase in Hfne, Hfpl, Hpath.
  assert (Hstart : str.startswith filename i = true).
  { rewrite Hbase.
    unfold id_prefix_of, filename_of, truthy_str. rewrite Hid.
    rewrite bool_decide_eq_false_2 by done. cbn [negb default].
    rewrite <- !str_app_assoc. apply prefix_app. }
  (* the staged file is listed *)
  assert (Hp_in : p ∈ queue) by (rewrite Hq; set_solver).
  destruct (dispatched_listed pipe a (Z.of_nat (length queue)) 0 queue σq p Hwq Hp_in)
    as (names1 & Hn1 & Hb1).
  rewrite <- E1 in Hn1.
  assert (Hpar : os.parent σq (job.output_path p) = output_dir).
  { rewrite Hpath. apply parent_join; [apply ends_plain_source|done]. }
  rewrite Hpar in Hn1.
  destruct (grows_dirs _ _ Hg output_dir names1 Hn1) as (names' & Hnr & Hsub).
  destruct Hr as [_ _ Hlist [Hvalid Hfiles _ _]].
  rewrite Hcwd_r in Hlist. fold output_dir in Hlist. rewrite Hlist in Hnr.
  injection Hnr as <-.
  assert (Hf_in : filename ∈ names) by (by apply Hsub).
  (* it is the candidate of its identifier *)
  destruct (candidates names i) as [|c l] eqn:Hcand.
  { exfalso. assert (Hc' : In filename (candidates names i)).
    { apply filter_In. split; [by apply list_elem_of_In|done]. }
    by rewrite Hcand in Hc'. }
  destruct (candidates_head names i c l Hcand) as [Hc_in Hc_pre].
  assert (c = filename) as -> by (by apply Huniq).
  (* and holds the image *)
  unfold σ2. rewrite Hrun. cbn [snd]. rewrite finished_files, Hcwd_r.
  apply (place_fold_dest (cwd σ) names Hvalid _ _ ids i filename l); [done..|].
  rewrite Hfr. unfold src_path_of. fold output_dir.
  rewrite join_plain by (done || apply ends_plain_source).
  rewrite <- Hpath, E1, Hq.
  rewrite dispatched_last by done. unfold saved_file. simpl.
  by rewrite Hrm, Nat.add_0_r, <- Hq.
Qed.

Lemma generate_then_reconcile_witness :
  started args0 (studio portraits_doc) (opened (studio portraits_doc))
  ∧ ready (snd (main args0 (studio portraits_doc))) portraits portrait_names
      ["tenant_student"; "landlord"]
  ∧ fst (main args0 (studio portraits_doc)) = Ok tt
  ∧ fst (organize_assets (snd (main args0 (studio portraits_doc)))) = Ok tt
  ∧ files (snd (organize_assets (snd (main args0 (studio portraits_doc)))))
      !! "/proj/assets/textures/landlord.png"
    = Some {| data := Png (call_image pipe0 "Landlord"
                             "bad hands, blurry, low quality" 1024 1024 9 0%float 5);
              mtime := t0 |}.
Proof.
  assert (Hs : started args0 (studio portraits_doc) (opened (studio portraits_doc)))
    by (split; reflexivity).
  assert (Hm : manifest_mode args0 (opened (studio portraits_doc))
                 (JObject (Some (Entries portraits)))).
  { split; [reflexivity|].
    exists "/proj/assets/graphics_batch.json", {| data := portraits_doc; mtime := t0 |}.
    split; [reflexivity|]. split; [done|]. split; reflexivity. }
  assert (Hr : ready (snd (main args0 (studio portraits_doc))) portraits
                 portrait_names ["tenant_student"; "landlord"]).
  { split.
    - eexists _, _. split; [vm_compute; reflexivity|]. split; reflexivity.
    - reflexivity.
    - vm_compute. reflexivity.
    - split.
      + repeat constructor; done.
      + repeat constructor; vm_compute; eauto.
      + vm_compute; eauto.
      + repeat constructor; intros _; vm_compute; reflexivity. }
  split; [exact Hs|]. split; [exact Hr|].
  destruct (generate_then_reconcile args0 (studio portraits_doc)
              (opened (studio portraits_doc)) portraits portrait_names
              ["tenant_student"; "landlord"]
              (snd (main args0 (studio portraits_doc))) Hs Hm eq_refl)
    as (R1 & R2 & R3); [| |vm_compute; reflexivity|exact Hr|].
  { repeat constructor. }
  { repeat constructor; simpl.
    - exists "/proj/backgrounds/tenant_student_tenant_student_1024x1024_20240101-1001ms",
        "s"%char.
      split; [|done]. vm_compute. reflexivity.
    - vm_compute. eauto.
    - exists "/proj/backgrounds/landlord_landlord_1024x1024_20240101-1001ms",
        "s"%char.
      split; [|done]. vm_compute. reflexivity.
    - vm_compute. eauto. }
  split; [exact R1|]. split; [exact R2|].
  etrans; [|apply (R3 [job_of args0 "/proj/backgrounds"
                         (entry_of (Some "tenant_student") (Some "Tenant Student")) t0]
                      (entry_of (Some "landlord") (Some "Landlord")) t0 [] "landlord")].
  - reflexivity.
  - reflexivity.
  - constructor.
  - reflexivity.
  - done.
  - reflexivity.
  - apply elem_of_cons. right. apply elem_of_cons. by left.
  - reflexivity.
  - intros n Hn Hp. unfold portrait_names in Hn.
    rewrite !elem_of_cons, elem_of_nil in Hn. destruct Hn as [->|[->|[]]].
    + vm_compute in Hp. discriminate Hp.
    + vm_compute. reflexivity.
Defined.
